(** * WT13106Connection: a shallow embedding of the Boogy Board connection class

    The development follows [Sync VDC/src/WT13106Connection.cpp] and its
    header [Sync VDC/include/WT13106Connection.h]:

    - the object is a record [Conn] with the private members of the class;
    - the operating system is a record [OS] of calls over an abstract world;
    - a member function is a computation in a state-and-exception monad [M]
      over the pair of the object and the world;
    - both branches of every [#ifdef _WIN32] are kept, selected by a
      [Target]. *)

From Stdlib Require Import ZArith Lia Bool List Ascii String.
From Stdlib Require Import Strings.Byte.
From Stdlib Require Import DecimalString.
Import ListNotations.

Open Scope bool_scope.
Open Scope string_scope.
Open Scope Z_scope.

Set Implicit Arguments.

(* ================================================================= *)
(** ** Compilation targets *)

(** The source is compiled either with [_WIN32] defined or for a POSIX
    system.  [unsigned long], the result type of [std::stoul], has 32 bits
    on Windows and on 32-bit POSIX systems and 64 bits on LP64 systems. *)
Inductive Target : Type :=
| Windows
| PosixILP32
| PosixLP64.

Definition _WIN32 (t : Target) : bool :=
  match t with
  | Windows => true
  | PosixILP32 | PosixLP64 => false
  end.

Definition ULONG_BITS (t : Target) : Z :=
  match t with
  | PosixLP64 => 64
  | Windows | PosixILP32 => 32
  end.

Definition ULONG_MAX (t : Target) : Z := 2 ^ ULONG_BITS t - 1.

(* ================================================================= *)
(** ** std::string operations used by the class *)

Module StdString.

(** [s.empty()] *)
Definition empty (s : string) : bool :=
  match s with
  | EmptyString => true
  | String _ _ => false
  end.

(** [s.find(c)] for a character: position of the first occurrence, [None]
    for [std::string::npos]. *)
Fixpoint find_char (c : ascii) (s : string) : option nat :=
  match s with
  | EmptyString => None
  | String x s' =>
      if Ascii.eqb x c then Some O
      else match find_char c s' with
           | Some n => Some (S n)
           | None => None
           end
  end.

(** [s.find(pat)] for a string pattern, from position 0. *)
Definition find (pat s : string) : option nat := String.index 0 pat s.

(** [s.find(pat) == 0] *)
Definition find_is_0 (pat s : string) : bool :=
  match find pat s with
  | Some O => true
  | _ => false
  end.

(** [std::to_string] of a non-negative integer. *)
Definition to_string (z : Z) : string :=
  NilZero.string_of_uint (N.to_uint (Z.to_N z)).

End StdString.

(* ================================================================= *)
(** ** C++ exceptions and outcomes *)

Inductive Exn : Type :=
| std_invalid_argument
| std_out_of_range.

Inductive Outcome (A : Type) : Type :=
| Ret (a : A)
| Throw (e : Exn).

Arguments Ret {A} a.
Arguments Throw {A} e.

(** [s.substr(pos, len)]; [len = None] is the default [npos].  The call
    throws [std::out_of_range] when [pos > s.size()]. *)
Definition substr (s : string) (pos : nat) (len : option nat) : Outcome string :=
  if (String.length s <? pos)%nat then Throw std_out_of_range
  else Ret (match len with
            | Some n => String.substring pos n s
            | None => String.substring pos (String.length s - pos) s
            end).

(* ================================================================= *)
(** ** std::stoul(str, nullptr, 16) *)

Module Stoul.

(** [isspace] in the C locale. *)
Definition isspace (c : ascii) : bool :=
  let n := Z.of_N (N_of_ascii c) in
  (n =? 32) || ((9 <=? n) && (n <=? 13)).

Definition hex_digit (c : ascii) : option Z :=
  let n := Z.of_N (N_of_ascii c) in
  if (48 <=? n) && (n <=? 57) then Some (n - 48)
  else if (97 <=? n) && (n <=? 102) then Some (n - 87)
  else if (65 <=? n) && (n <=? 70) then Some (n - 55)
  else None.

Definition is_hex (c : ascii) : bool :=
  match hex_digit c with
  | Some _ => true
  | None => false
  end.

Fixpoint skip_space (s : string) : string :=
  match s with
  | String c s' => if isspace c then skip_space s' else s
  | EmptyString => s
  end.

(** Value of the longest run of hexadecimal digits at the head of [s],
    accumulated from [acc]. *)
Fixpoint hex_run (acc : Z) (s : string) : Z :=
  match s with
  | String c s' =>
      match hex_digit c with
      | Some d => hex_run (16 * acc + d) s'
      | None => acc
      end
  | EmptyString => acc
  end.

(** Optional sign. *)
Definition take_sign (s : string) : bool * string :=
  match s with
  | String "-" r => (true, r)
  | String "+" r => (false, r)
  | _ => (false, s)
  end.

(** Optional ["0x"] or ["0X"], consumed only in front of a digit. *)
Definition skip_0x (s : string) : string :=
  match s with
  | String "0" (String x (String h r)) =>
      if (Ascii.eqb x "x" || Ascii.eqb x "X") && is_hex h
      then String h r else s
  | _ => s
  end.

(** What [strtoul(str, &end, 16)] reports. *)
Record strtoul_result : Type := {
  value : Z;
  converted : bool;     (* end != str *)
  erange : bool         (* errno == ERANGE *)
}.

Definition strtoul16 (t : Target) (s : string) : strtoul_result :=
  let (neg, body) := take_sign (skip_space s) in
  let digits := skip_0x body in
  match digits with
  | String c _ =>
      if is_hex c then
        let v := hex_run 0 digits in
        if ULONG_MAX t <? v
        then {| value := ULONG_MAX t; converted := true; erange := true |}
        else {| value := if neg then (- v) mod (ULONG_MAX t + 1) else v;
                converted := true; erange := false |}
      else {| value := 0; converted := false; erange := false |}
  | EmptyString => {| value := 0; converted := false; erange := false |}
  end.

(** [std::stoul(s, nullptr, 16)]: [std::invalid_argument] when nothing
    was converted, [std::out_of_range] on [ERANGE]. *)
Definition stoul16 (t : Target) (s : string) : Outcome Z :=
  let r := strtoul16 t s in
  if negb (converted r) then Throw std_invalid_argument
  else if erange r then Throw std_out_of_range
  else Ret (value r).

End Stoul.

(** [static_cast<uint16_t>] *)
Definition to_uint16 (v : Z) : Z := v mod 2 ^ 16.

(** [static_cast<unsigned char>], the type [cc_t] of [termios::c_cc]. *)
Definition to_uint8 (v : Z) : Z := v mod 2 ^ 8.

(* ================================================================= *)
(** ** The object: private members of [WT13106Connection] *)

Inductive ConnectionType : Type :=
| BLUETOOTH   (* Bluetooth via serial port (COM port) *)
| USB.        (* USB connection *)

(** [INVALID_HANDLE_VALUE] of the Windows API, as an integer. *)
Definition INVALID_HANDLE_VALUE : Z := -1.

(** The record is the union of the two conditional layouts of the header:
    [m_serialHandle] and [m_usbHandle] exist under [_WIN32], [m_serialFd]
    and [m_usbFd] otherwise.  On each target the two members of the other
    target are never read or written after construction. *)
Record Conn : Type := mkConn {
  m_connectionString : string;
  m_connectionType : ConnectionType;
  m_isConnected : bool;
  m_lastError : string;
  m_serialHandle : Z;
  m_usbHandle : Z;
  m_serialFd : Z;
  m_usbFd : Z;
  m_vid : Z;
  m_pid : Z;
  m_portName : string;
  m_baudRate : Z
}.

Definition set_m_connectionType (v : ConnectionType) (c : Conn) : Conn :=
  mkConn (m_connectionString c) v (m_isConnected c) (m_lastError c)
         (m_serialHandle c) (m_usbHandle c) (m_serialFd c) (m_usbFd c)
         (m_vid c) (m_pid c) (m_portName c) (m_baudRate c).

Definition set_m_isConnected (v : bool) (c : Conn) : Conn :=
  mkConn (m_connectionString c) (m_connectionType c) v (m_lastError c)
         (m_serialHandle c) (m_usbHandle c) (m_serialFd c) (m_usbFd c)
         (m_vid c) (m_pid c) (m_portName c) (m_baudRate c).

Definition set_m_lastError (v : string) (c : Conn) : Conn :=
  mkConn (m_connectionString c) (m_connectionType c) (m_isConnected c) v
         (m_serialHandle c) (m_usbHandle c) (m_serialFd c) (m_usbFd c)
         (m_vid c) (m_pid c) (m_portName c) (m_baudRate c).

Definition set_m_serialHandle (v : Z) (c : Conn) : Conn :=
  mkConn (m_connectionString c) (m_connectionType c) (m_isConnected c)
         (m_lastError c) v (m_usbHandle c) (m_serialFd c) (m_usbFd c)
         (m_vid c) (m_pid c) (m_portName c) (m_baudRate c).

Definition set_m_serialFd (v : Z) (c : Conn) : Conn :=
  mkConn (m_connectionString c) (m_connectionType c) (m_isConnected c)
         (m_lastError c) (m_serialHandle c) (m_usbHandle c) v (m_usbFd c)
         (m_vid c) (m_pid c) (m_portName c) (m_baudRate c).

Definition set_m_vid (v : Z) (c : Conn) : Conn :=
  mkConn (m_connectionString c) (m_connectionType c) (m_isConnected c)
         (m_lastError c) (m_serialHandle c) (m_usbHandle c) (m_serialFd c)
         (m_usbFd c) v (m_pid c) (m_portName c) (m_baudRate c).

Definition set_m_pid (v : Z) (c : Conn) : Conn :=
  mkConn (m_connectionString c) (m_connectionType c) (m_isConnected c)
         (m_lastError c) (m_serialHandle c) (m_usbHandle c) (m_serialFd c)
         (m_usbFd c) (m_vid c) v (m_portName c) (m_baudRate c).

Definition set_m_portName (v : string) (c : Conn) : Conn :=
  mkConn (m_connectionString c) (m_connectionType c) (m_isConnected c)
         (m_lastError c) (m_serialHandle c) (m_usbHandle c) (m_serialFd c)
         (m_usbFd c) (m_vid c) (m_pid c) v (m_baudRate c).

Definition ConnectionType_eqb (a b : ConnectionType) : bool :=
  match a, b with
  | BLUETOOTH, BLUETOOTH | USB, USB => true
  | _, _ => false
  end.

(* ================================================================= *)
(** ** The operating system *)

(** [struct termios], with the members the source touches. *)
Record termios : Type := mkTermios {
  c_iflag : Z;
  c_oflag : Z;
  c_cflag : Z;
  c_lflag : Z;
  c_cc_VTIME : Z;
  c_cc_VMIN : Z;
  c_ispeed : Z;
  c_ospeed : Z
}.

(** Constants of [<termios.h>] and [<fcntl.h>], with their Linux values. *)
Module Posix.
Definition O_RDWR : Z := 2.
Definition O_NOCTTY : Z := 256.
Definition O_NONBLOCK : Z := 2048.
Definition B9600 : Z := 13.
Definition PARENB : Z := 256.
Definition CSTOPB : Z := 64.
Definition CSIZE : Z := 48.
Definition CS8 : Z := 48.
Definition CRTSCTS : Z := 2147483648.
Definition CREAD : Z := 128.
Definition CLOCAL : Z := 2048.
Definition ICANON : Z := 2.
Definition ECHO : Z := 8.
Definition ECHOE : Z := 16.
Definition ISIG : Z := 1.
Definition IXON : Z := 1024.
Definition IXOFF : Z := 4096.
Definition IXANY : Z := 2048.
Definition OPOST : Z := 1.
End Posix.

(** [DCB], with the members the source sets; [dcb_other] stands for the
    remaining members, which the source leaves as [GetCommState] filled
    them. *)
Record DCB : Type := mkDCB {
  BaudRate : Z;
  ByteSize : Z;
  Parity : Z;
  StopBits : Z;
  fDtrControl : Z;
  fRtsControl : Z;
  dcb_other : Z
}.

Record COMMTIMEOUTS : Type := mkCommTimeouts {
  ReadIntervalTimeout : Z;
  ReadTotalTimeoutMultiplier : Z;
  ReadTotalTimeoutConstant : Z;
  WriteTotalTimeoutMultiplier : Z;
  WriteTotalTimeoutConstant : Z
}.

Module Win.
Definition NOPARITY : Z := 0.
Definition ONESTOPBIT : Z := 0.
Definition DTR_CONTROL_ENABLE : Z := 1.
Definition RTS_CONTROL_ENABLE : Z := 1.
Definition ERROR_IO_PENDING : Z := 997.
End Win.

(** A USB device as an enumeration reports it: the identifiers that the
    device path carries, and whether its bulk interface can be claimed. *)
Record UsbDevice : Type := mkUsbDevice {
  dev_vid : Z;
  dev_pid : Z;
  dev_claimable : bool
}.

(** The system calls of both targets over a world [W].  Every call takes
    the world and returns its result with the next world.

    - [sys_read fd count] returns the return value of [read] and the
      contents of the buffer after the call;
    - [ReadFile h count] returns the [BOOL], [bytesRead] and the buffer;
    - [WriteFile h bytes] returns the [BOOL] and [bytesWritten];
    - [SetupDiGetClassDevs] returns the device information set, [None] for
      [INVALID_HANDLE_VALUE]; [SetupDiEnumDeviceInterfaces] succeeds
      exactly on the indices of its members;
    - [usb_bus] is the list of attached devices, which no call of the
      source consults on a POSIX target. *)
Record OS (W : Type) : Type := mkOS {
  sys_open : string -> Z -> W -> Z * W;
  sys_close : Z -> W -> Z * W;
  sys_write : Z -> list byte -> W -> Z * W;
  sys_read : Z -> Z -> W -> (Z * list byte) * W;
  sys_tcgetattr : Z -> W -> (Z * termios) * W;
  sys_tcsetattr : Z -> termios -> W -> Z * W;
  CreateFileA : string -> W -> Z * W;
  GetLastError : W -> Z * W;
  GetCommState : Z -> W -> (bool * DCB) * W;
  SetCommState : Z -> DCB -> W -> bool * W;
  SetCommTimeouts : Z -> COMMTIMEOUTS -> W -> bool * W;
  CloseHandle : Z -> W -> bool * W;
  WriteFile : Z -> list byte -> W -> (bool * Z) * W;
  ReadFile : Z -> Z -> W -> (bool * Z * list byte) * W;
  SetupDiGetClassDevs : W -> option (list UsbDevice) * W;
  SetupDiDestroyDeviceInfoList : list UsbDevice -> W -> bool * W;
  usb_bus : W -> list UsbDevice
}.

(* ================================================================= *)
(** ** The monad of member functions *)

Section Monad.

Variable W : Type.

(** The object and the world. *)
Definition St : Type := (Conn * W)%type.

Definition M (A : Type) : Type := St -> Outcome A * St.

Definition ret {A : Type} (a : A) : M A := fun st => (Ret a, st).

Definition bind {A B : Type} (c : M A) (k : A -> M B) : M B :=
  fun st =>
    match c st with
    | (Ret a, st') => k a st'
    | (Throw e, st') => (Throw e, st')
    end.

(** A call of a library function that may throw. *)
Definition lift {A : Type} (o : Outcome A) : M A := fun st => (o, st).

(** [try { body } catch (...) { handler }] *)
Definition try_catch {A : Type} (body handler : M A) : M A :=
  fun st =>
    match body st with
    | (Ret a, st') => (Ret a, st')
    | (Throw _, st') => handler st'
    end.

(** Read a member of [*this]. *)
Definition this {A : Type} (f : Conn -> A) : M A :=
  fun st => (Ret (f (fst st)), st).

(** Assign a member of [*this]. *)
Definition assign (f : Conn -> Conn) : M unit :=
  fun st => (Ret tt, (f (fst st), snd st)).

(** A system call. *)
Definition syscall {A : Type} (f : W -> A * W) : M A :=
  fun st => (Ret (fst (f (snd st))), (fst st, snd (f (snd st)))).

End Monad.

Arguments ret {W A} a.
Arguments bind {W A B} c k.
Arguments lift {W A} o.
Arguments try_catch {W A} body handler.
Arguments this {W A} f.
Arguments assign {W} f.
Arguments syscall {W A} f.

Declare Scope cpp_scope.
Delimit Scope cpp_scope with cpp.
Notation "x <- c ;; k" := (bind c (fun x => k))
  (at level 61, c at next level, right associativity) : cpp_scope.
Notation "c ;; k" := (bind c (fun _ => k))
  (at level 61, right associativity) : cpp_scope.
Notation "'RETURN' v" := (ret v) (at level 60) : cpp_scope.

(* ================================================================= *)
(** ** Error messages of the class *)

Module Msg.
Definition already_connected := "Already connected".
Definition not_connected := "Not connected".
Definition not_connected_to_device := "Not connected to device".
Definition command_is_empty := "Command is empty".
Definition write_failed := "Failed to write to serial port".
Definition partial_write := "Partial write to serial port".
Definition usb_send := "USB send not fully implemented".
Definition usb_receive := "USB receive not fully implemented".
Definition read_failed := "Failed to read from serial port".
Definition empty_string := "Connection string is empty".
Definition bad_bluetooth :=
  "Invalid Bluetooth connection string format. Use 'BT:COM5' or 'BT:/dev/ttyUSB0'".
Definition bad_usb :=
  "Invalid USB connection string format. Use 'USB:VID:PID' (e.g., 'USB:1234:5678')".
Definition bad_vid_pid :=
  "Invalid VID/PID format. Use hexadecimal (e.g., 'USB:1234:5678')".
Definition unknown_format :=
  "Unknown connection string format. Use 'BT:COM5' for Bluetooth or 'USB:1234:5678' for USB".
Definition get_comm_state := "Failed to get COM port state".
Definition set_comm_state := "Failed to set COM port state".
Definition get_attributes := "Failed to get serial port attributes".
Definition set_attributes := "Failed to set serial port attributes".
Definition enumerate_usb := "Failed to enumerate USB devices".
Definition needs_winusb :=
  "USB connection requires full WinUSB or libusb implementation. For now, use Bluetooth connection (BT:COMx)".
Definition needs_libusb :=
  "USB connection requires libusb. Install with: sudo apt-get install libusb-1.0-0-dev".
End Msg.

(** The error taxonomy, and the reading of the messages above in it. *)
Inductive ErrorKind : Type :=
| EmptyDescriptor
| InvalidFormat
| AlreadyConnected
| NotConnected
| EmptyCommand
| DeviceNotFound
| InterfaceClaimFailed
| ShortWrite
| IoFailure.

Definition error_kind (msg : string) : option ErrorKind :=
  if String.eqb msg Msg.empty_string then Some EmptyDescriptor
  else if (String.eqb msg Msg.bad_bluetooth) || (String.eqb msg Msg.bad_usb)
          || (String.eqb msg Msg.bad_vid_pid) || (String.eqb msg Msg.unknown_format)
       then Some InvalidFormat
  else if String.eqb msg Msg.already_connected then Some AlreadyConnected
  else if (String.eqb msg Msg.not_connected) || (String.eqb msg Msg.not_connected_to_device)
       then Some NotConnected
  else if String.eqb msg Msg.command_is_empty then Some EmptyCommand
  else if String.prefix "USB device not found" msg then Some DeviceNotFound
  else if String.eqb msg "Failed to claim USB interface" then Some InterfaceClaimFailed
  else if String.eqb msg Msg.partial_write then Some ShortWrite
  else if (String.eqb msg Msg.write_failed) || (String.eqb msg Msg.read_failed)
       then Some IoFailure
  else None.

(* ================================================================= *)
(** ** The member functions *)

Section WT13106Connection.

Variable t : Target.
Variable W : Type.
Variable os : OS W.

Local Open Scope cpp_scope.

(** [WT13106Connection::WT13106Connection(connectionString)] *)
Definition constructor (connectionString : string) : Conn :=
  {| m_connectionString := connectionString;
     m_connectionType := BLUETOOTH;
     m_isConnected := false;
     m_lastError := "";
     m_serialHandle := INVALID_HANDLE_VALUE;
     m_usbHandle := INVALID_HANDLE_VALUE;
     m_serialFd := -1;
     m_usbFd := -1;
     m_vid := 0;
     m_pid := 0;
     m_portName := "";
     m_baudRate := 9600 |}.

(** [WT13106Connection::parseConnectionString]; the [return true] that
    follows the [try] block is the last statement of its body here. *)
Definition parseConnectionString : M W bool :=
  cs <- this m_connectionString ;;
  if StdString.empty cs then
    assign (set_m_lastError Msg.empty_string) ;;
    RETURN false
  else
  p3 <- lift (substr cs 0 (Some 3%nat)) ;;
  if String.eqb p3 "BT:" then
    assign (set_m_connectionType BLUETOOTH) ;;
    rest <- lift (substr cs 3 None) ;;
    assign (set_m_portName rest) ;;
    portName <- this m_portName ;;
    if StdString.empty portName then
      assign (set_m_lastError Msg.bad_bluetooth) ;;
      RETURN false
    else RETURN true
  else
  p4 <- lift (substr cs 0 (Some 4%nat)) ;;
  if String.eqb p4 "USB:" then
    assign (set_m_connectionType USB) ;;
    usbParams <- lift (substr cs 4 None) ;;
    match StdString.find_char ":" usbParams with
    | None =>
        assign (set_m_lastError Msg.bad_usb) ;;
        RETURN false
    | Some colonPos =>
        try_catch
          (vidText <- lift (substr usbParams 0 (Some colonPos)) ;;
           vid <- lift (Stoul.stoul16 t vidText) ;;
           assign (set_m_vid (to_uint16 vid)) ;;
           pidText <- lift (substr usbParams (colonPos + 1)%nat None) ;;
           pid <- lift (Stoul.stoul16 t pidText) ;;
           assign (set_m_pid (to_uint16 pid)) ;;
           RETURN true)
          (assign (set_m_lastError Msg.bad_vid_pid) ;;
           RETURN false)
    end
  else
  if StdString.find_is_0 "COM" cs || StdString.find_is_0 "/dev/" cs then
    assign (set_m_connectionType BLUETOOTH) ;;
    assign (set_m_portName cs) ;;
    RETURN true
  else
    assign (set_m_lastError Msg.unknown_format) ;;
    RETURN false.

(** The prefix ["\\\\.\\"] of the source: two backslashes, a dot, a
    backslash. *)
Definition device_namespace : string :=
  String "092" (String "092" (String "." (String "092" EmptyString))).

(** The settings of [initializeBluetooth] on a POSIX target. *)
Definition configure_termios (tty : termios) : termios :=
  let cflag0 := c_cflag tty in
  let cflag1 := Z.ldiff cflag0 Posix.PARENB in
  let cflag2 := Z.ldiff cflag1 Posix.CSTOPB in
  let cflag3 := Z.ldiff cflag2 Posix.CSIZE in
  let cflag4 := Z.lor cflag3 Posix.CS8 in
  let cflag5 := Z.ldiff cflag4 Posix.CRTSCTS in
  let cflag6 := Z.lor cflag5 (Z.lor Posix.CREAD Posix.CLOCAL) in
  let lflag1 := Z.ldiff (c_lflag tty) Posix.ICANON in
  let lflag2 := Z.ldiff lflag1 Posix.ECHO in
  let lflag3 := Z.ldiff lflag2 Posix.ECHOE in
  let lflag4 := Z.ldiff lflag3 Posix.ISIG in
  {| c_iflag := Z.ldiff (c_iflag tty)
                  (Z.lor (Z.lor Posix.IXON Posix.IXOFF) Posix.IXANY);
     c_oflag := Z.ldiff (c_oflag tty) Posix.OPOST;
     c_cflag := cflag6;
     c_lflag := lflag4;
     c_cc_VTIME := 1;
     c_cc_VMIN := 0;
     c_ispeed := Posix.B9600;
     c_ospeed := Posix.B9600 |}.

(** The settings of [initializeBluetooth] on Windows. *)
Definition configure_dcb (baudRate : Z) (dcb : DCB) : DCB :=
  {| BaudRate := baudRate;
     ByteSize := 8;
     Parity := Win.NOPARITY;
     StopBits := Win.ONESTOPBIT;
     fDtrControl := Win.DTR_CONTROL_ENABLE;
     fRtsControl := Win.RTS_CONTROL_ENABLE;
     dcb_other := dcb_other dcb |}.

(** [WT13106Connection::initializeBluetooth] *)
Definition initializeBluetooth : M W bool :=
  if _WIN32 t then
    portName <- this m_portName ;;
    let portPath := device_namespace ++ portName in
    h <- syscall (CreateFileA os portPath) ;;
    assign (set_m_serialHandle h) ;;
    serialHandle <- this m_serialHandle ;;
    if serialHandle =? INVALID_HANDLE_VALUE then
      error <- syscall (GetLastError os) ;;
      assign (set_m_lastError
                ("Failed to open COM port: " ++ portName ++ " (Error: "
                 ++ StdString.to_string error ++ ")")) ;;
      RETURN false
    else
    got <- syscall (GetCommState os serialHandle) ;;
    let (ok, dcb) := got : bool * DCB in
    if negb ok then
      syscall (CloseHandle os serialHandle) ;;
      assign (set_m_serialHandle INVALID_HANDLE_VALUE) ;;
      assign (set_m_lastError Msg.get_comm_state) ;;
      RETURN false
    else
    baudRate <- this m_baudRate ;;
    set <- syscall (SetCommState os serialHandle (configure_dcb baudRate dcb)) ;;
    if negb set then
      syscall (CloseHandle os serialHandle) ;;
      assign (set_m_serialHandle INVALID_HANDLE_VALUE) ;;
      assign (set_m_lastError Msg.set_comm_state) ;;
      RETURN false
    else
    syscall (SetCommTimeouts os serialHandle
               {| ReadIntervalTimeout := 50;
                  ReadTotalTimeoutMultiplier := 10;
                  ReadTotalTimeoutConstant := 50;
                  WriteTotalTimeoutMultiplier := 10;
                  WriteTotalTimeoutConstant := 50 |}) ;;
    RETURN true
  else
    portName <- this m_portName ;;
    fd <- syscall (sys_open os portName
                     (Z.lor (Z.lor Posix.O_RDWR Posix.O_NOCTTY)
                            Posix.O_NONBLOCK)) ;;
    assign (set_m_serialFd fd) ;;
    serialFd <- this m_serialFd ;;
    if serialFd <? 0 then
      assign (set_m_lastError ("Failed to open serial port: " ++ portName)) ;;
      RETURN false
    else
    got <- syscall (sys_tcgetattr os serialFd) ;;
    let (status, tty) := got : Z * termios in
    if negb (status =? 0) then
      syscall (sys_close os serialFd) ;;
      assign (set_m_serialFd (-1)) ;;
      assign (set_m_lastError Msg.get_attributes) ;;
      RETURN false
    else
    set <- syscall (sys_tcsetattr os serialFd (configure_termios tty)) ;;
    if negb (set =? 0) then
      syscall (sys_close os serialFd) ;;
      assign (set_m_serialFd (-1)) ;;
      assign (set_m_lastError Msg.set_attributes) ;;
      RETURN false
    else RETURN true.

(** The loop of [initializeUSB] over the device information set: the
    index runs over the members and the body is empty, so [found] is
    returned as it came. *)
Fixpoint enumerate_interfaces (members : list UsbDevice) (found : bool)
  : bool :=
  match members with
  | [] => found
  | _ :: rest => enumerate_interfaces rest found
  end.

(** [WT13106Connection::initializeUSB] *)
Definition initializeUSB : M W bool :=
  if _WIN32 t then
    deviceInfoSet <- syscall (SetupDiGetClassDevs os) ;;
    match deviceInfoSet with
    | None =>
        assign (set_m_lastError Msg.enumerate_usb) ;;
        RETURN false
    | Some members =>
        let found := enumerate_interfaces members false in
        syscall (SetupDiDestroyDeviceInfoList os members) ;;
        if negb found then
          vid <- this m_vid ;;
          pid <- this m_pid ;;
          assign (set_m_lastError
                    ("USB device not found (VID: " ++ StdString.to_string vid
                     ++ ", PID: " ++ StdString.to_string pid ++ ")")) ;;
          RETURN false
        else
          assign (set_m_lastError Msg.needs_winusb) ;;
          RETURN false
    end
  else
    assign (set_m_lastError Msg.needs_libusb) ;;
    RETURN false.

(** [WT13106Connection::cleanupConnection] *)
Definition cleanupConnection : M W unit :=
  connectionType <- this m_connectionType ;;
  match connectionType with
  | BLUETOOTH =>
      if _WIN32 t then
        serialHandle <- this m_serialHandle ;;
        if negb (serialHandle =? INVALID_HANDLE_VALUE) then
          syscall (CloseHandle os serialHandle) ;;
          assign (set_m_serialHandle INVALID_HANDLE_VALUE)
        else RETURN tt
      else
        serialFd <- this m_serialFd ;;
        if 0 <=? serialFd then
          syscall (sys_close os serialFd) ;;
          assign (set_m_serialFd (-1))
        else RETURN tt
  | USB => RETURN tt
  end.

(** [WT13106Connection::connect] *)
Definition connect : M W bool :=
  isConnected <- this m_isConnected ;;
  if isConnected then
    assign (set_m_lastError Msg.already_connected) ;;
    RETURN false
  else
  parsed <- parseConnectionString ;;
  if negb parsed then RETURN false
  else
  connectionType <- this m_connectionType ;;
  success <- match connectionType with
             | BLUETOOTH => initializeBluetooth
             | USB => initializeUSB
             end ;;
  (if success : bool then
     assign (set_m_isConnected true) ;;
     assign (set_m_lastError "")
   else RETURN tt) ;;
  RETURN success.

(** [WT13106Connection::disconnect] *)
Definition disconnect : M W bool :=
  isConnected <- this m_isConnected ;;
  if negb isConnected then
    assign (set_m_lastError Msg.not_connected) ;;
    RETURN false
  else
  cleanupConnection ;;
  assign (set_m_isConnected false) ;;
  assign (set_m_lastError "") ;;
  RETURN true.

(** [WT13106Connection::~WT13106Connection] *)
Definition destructor : M W unit :=
  isConnected <- this m_isConnected ;;
  if isConnected then disconnect ;; RETURN tt
  else RETURN tt.

(** [WT13106Connection::isConnected] *)
Definition isConnected : M W bool := this m_isConnected.

(** [WT13106Connection::getLastError] *)
Definition getLastError : M W string := this m_lastError.

(** [command.size()] *)
Definition size (command : list byte) : Z := Z.of_nat (List.length command).

(** [response.assign(buffer, buffer + bytesRead)] *)
Definition assign_range (buffer : list byte) (bytesRead : Z) : list byte :=
  firstn (Z.to_nat bytesRead) buffer.

(** [sizeof(buffer)] for [uint8_t buffer[1024]] *)
Definition sizeof_buffer : Z := 1024.

(** [WT13106Connection::sendCommand] *)
Definition sendCommand (command : list byte) : M W bool :=
  isConnected <- this m_isConnected ;;
  if negb isConnected then
    assign (set_m_lastError Msg.not_connected_to_device) ;;
    RETURN false
  else
  match command with
  | [] =>
      assign (set_m_lastError Msg.command_is_empty) ;;
      RETURN false
  | _ :: _ =>
      connectionType <- this m_connectionType ;;
      match connectionType with
      | BLUETOOTH =>
          if _WIN32 t then
            serialHandle <- this m_serialHandle ;;
            wrote <- syscall (WriteFile os serialHandle command) ;;
            let (ok, bytesWritten) := wrote : bool * Z in
            if negb ok then
              assign (set_m_lastError Msg.write_failed) ;;
              RETURN false
            else if negb (bytesWritten =? size command) then
              assign (set_m_lastError Msg.partial_write) ;;
              RETURN false
            else
              assign (set_m_lastError "") ;;
              RETURN true
          else
            serialFd <- this m_serialFd ;;
            bytesWritten <- syscall (sys_write os serialFd command) ;;
            if bytesWritten <? 0 then
              assign (set_m_lastError Msg.write_failed) ;;
              RETURN false
            else if negb (bytesWritten =? size command) then
              assign (set_m_lastError Msg.partial_write) ;;
              RETURN false
            else
              assign (set_m_lastError "") ;;
              RETURN true
      | USB =>
          assign (set_m_lastError Msg.usb_send) ;;
          RETURN false
      end
  end.

(** [WT13106Connection::receiveResponse] *)
Definition receiveResponse (timeoutMs : Z) : M W (list byte) :=
  let response : list byte := [] in
  isConnected <- this m_isConnected ;;
  if negb isConnected then
    assign (set_m_lastError Msg.not_connected_to_device) ;;
    RETURN response
  else
  connectionType <- this m_connectionType ;;
  match connectionType with
  | BLUETOOTH =>
      if _WIN32 t then
        serialHandle <- this m_serialHandle ;;
        syscall (SetCommTimeouts os serialHandle
                   {| ReadIntervalTimeout := timeoutMs;
                      ReadTotalTimeoutMultiplier := 0;
                      ReadTotalTimeoutConstant := timeoutMs;
                      WriteTotalTimeoutMultiplier := 0;
                      WriteTotalTimeoutConstant := timeoutMs |}) ;;
        got <- syscall (ReadFile os serialHandle sizeof_buffer) ;;
        let '(ok, bytesRead, buffer) := got : bool * Z * list byte in
        if ok then
          if 0 <? bytesRead then RETURN (assign_range buffer bytesRead)
          else RETURN response
        else
          error <- syscall (GetLastError os) ;;
          if negb (error =? Win.ERROR_IO_PENDING) then
            assign (set_m_lastError Msg.read_failed) ;;
            RETURN response
          else RETURN response
      else
        serialFd <- this m_serialFd ;;
        got <- syscall (sys_tcgetattr os serialFd) ;;
        let (status, tty) := got : Z * termios in
        (if status =? 0 then
           syscall (sys_tcsetattr os serialFd
                      {| c_iflag := c_iflag tty;
                         c_oflag := c_oflag tty;
                         c_cflag := c_cflag tty;
                         c_lflag := c_lflag tty;
                         c_cc_VTIME := to_uint8 (timeoutMs / 100);
                         c_cc_VMIN := 0;
                         c_ispeed := c_ispeed tty;
                         c_ospeed := c_ospeed tty |}) ;;
           RETURN tt
         else RETURN tt) ;;
        got <- syscall (sys_read os serialFd sizeof_buffer) ;;
        let (bytesRead, buffer) := got : Z * list byte in
        if 0 <? bytesRead then RETURN (assign_range buffer bytesRead)
        else if bytesRead <? 0 then
          assign (set_m_lastError Msg.read_failed) ;;
          RETURN response
        else RETURN response
  | USB =>
      assign (set_m_lastError Msg.usb_receive) ;;
      RETURN response
  end.

(** [WT13106Connection::sendCommandAndReceive] *)
Definition sendCommandAndReceive (command : list byte) (timeoutMs : Z)
  : M W (list byte) :=
  sent <- sendCommand command ;;
  if negb sent then RETURN []
  else receiveResponse timeoutMs.

End WT13106Connection.

(* ================================================================= *)
(** ** Sequences of calls on one object *)

(** The public member functions, as a caller invokes them. *)
Inductive Call : Type :=
| CallConnect
| CallDisconnect
| CallIsConnected
| CallSendCommand (command : list byte)
| CallReceiveResponse (timeoutMs : Z)
| CallSendCommandAndReceive (command : list byte) (timeoutMs : Z)
| CallGetLastError.

Inductive Value : Type :=
| VBool (b : bool)
| VBytes (bytes : list byte)
| VString (s : string).

(** A call with what it returned (or threw). *)
Definition Event : Type := (Call * Outcome Value)%type.

Section Traces.

Variable t : Target.
Variable W : Type.
Variable os : OS W.

Local Open Scope cpp_scope.

Definition invoke (c : Call) : M W Value :=
  match c with
  | CallConnect => b <- connect t os ;; RETURN (VBool b)
  | CallDisconnect => b <- disconnect t os ;; RETURN (VBool b)
  | CallIsConnected => b <- @isConnected W ;; RETURN (VBool b)
  | CallSendCommand command =>
      b <- sendCommand t os command ;; RETURN (VBool b)
  | CallReceiveResponse timeoutMs =>
      r <- receiveResponse t os timeoutMs ;; RETURN (VBytes r)
  | CallSendCommandAndReceive command timeoutMs =>
      r <- sendCommandAndReceive t os command timeoutMs ;; RETURN (VBytes r)
  | CallGetLastError => s <- @getLastError W ;; RETURN (VString s)
  end.

(** Run the calls in order; the history lists the events oldest first. *)
Fixpoint run (calls : list Call) (st : St W) : list Event * St W :=
  match calls with
  | [] => ([], st)
  | c :: rest =>
      let (o, st1) := invoke c st in
      let (h, st2) := run rest st1 in
      ((c, o) :: h, st2)
  end.

(** The states an object and its world can be in: a freshly constructed
    object, and whatever a sequence of calls makes of it. *)
Definition reachable (st : St W) : Prop :=
  exists (connectionString : string) (w : W) (calls : list Call),
    st = snd (run calls (constructor connectionString, w)).

End Traces.

(** *** Reading a history *)

Definition is_connect (e : Event) : bool :=
  match fst e with
  | CallConnect => true
  | _ => false
  end.

Definition is_disconnect (e : Event) : bool :=
  match fst e with
  | CallDisconnect => true
  | _ => false
  end.

Definition connect_succeeded (e : Event) : bool :=
  match e with
  | (CallConnect, Ret (VBool true)) => true
  | _ => false
  end.

(** Walking back from the newest event: some [connect()] succeeded and no
    [disconnect()] was called after it.  [newest_first] is the history
    reversed; [before] is the answer for the empty history. *)
Fixpoint connected_since (before : bool) (newest_first : list Event) : bool :=
  match newest_first with
  | [] => before
  | e :: older =>
      if is_disconnect e then false
      else if connect_succeeded e then true
      else connected_since before older
  end.

Definition some_connect_holds (h : list Event) : bool :=
  connected_since false (rev h).

(** Walking back from the newest event: the most recent call of
    [connect()], whatever it returned, is found before any [disconnect()],
    and it succeeded. *)
Fixpoint latest_connect_succeeded (newest_first : list Event) : bool :=
  match newest_first with
  | [] => false
  | e :: older =>
      if is_disconnect e then false
      else if is_connect e then connect_succeeded e
      else latest_connect_succeeded older
  end.

Definition most_recent_connect_holds (h : list Event) : bool :=
  latest_connect_succeeded (rev h).

(* ================================================================= *)
(** ** A loopback system for concrete runs *)

Module Loopback.

(** The calls the system has served, newest first. *)
Inductive Served : Type :=
| Opened (path : string)
| Closed (handle : Z)
| Wrote (handle : Z) (bytes : list byte)
| Read (handle : Z)
| Configured (handle : Z)
| Enumerated.

(** [line] holds the bytes written and not yet read back; [bus] the
    attached USB devices. *)
Record World : Type := mkWorld {
  line : list byte;
  served : list Served;
  bus : list UsbDevice
}.

Definition serve (s : Served) (w : World) : World :=
  mkWorld (line w) (s :: served w) (bus w).

Definition put (bytes : list byte) (w : World) : World :=
  mkWorld (line w ++ bytes) (served w) (bus w).

Definition take (count : Z) (w : World) : World :=
  mkWorld (skipn (Z.to_nat count) (line w)) (served w) (bus w).

Definition zero_termios : termios := mkTermios 0 0 0 0 0 0 0 0.
Definition zero_dcb : DCB := mkDCB 0 0 0 0 0 0 0.

Definition available (count : Z) (w : World) : list byte :=
  firstn (Z.to_nat count) (line w).

(** Every port opens (descriptor 3, handle 4), every write is complete
    and every read returns what was written before. *)
Definition os : OS World :=
  {| sys_open := fun path _ w => (3, serve (Opened path) w);
     sys_close := fun fd w => (0, serve (Closed fd) w);
     sys_write := fun fd bytes w =>
       (Z.of_nat (List.length bytes), serve (Wrote fd bytes) (put bytes w));
     sys_read := fun fd count w =>
       let got := available count w in
       ((Z.of_nat (List.length got), got), serve (Read fd) (take count w));
     sys_tcgetattr := fun fd w => ((0, zero_termios), w);
     sys_tcsetattr := fun fd _ w => (0, serve (Configured fd) w);
     CreateFileA := fun path w => (4, serve (Opened path) w);
     GetLastError := fun w => (0, w);
     GetCommState := fun h w => ((true, zero_dcb), w);
     SetCommState := fun h _ w => (true, serve (Configured h) w);
     SetCommTimeouts := fun h _ w => (true, serve (Configured h) w);
     CloseHandle := fun h w => (true, serve (Closed h) w);
     WriteFile := fun h bytes w =>
       ((true, Z.of_nat (List.length bytes)),
        serve (Wrote h bytes) (put bytes w));
     ReadFile := fun h count w =>
       let got := available count w in
       ((true, Z.of_nat (List.length got), got),
        serve (Read h) (take count w));
     SetupDiGetClassDevs := fun w => (Some (bus w), serve Enumerated w);
     SetupDiDestroyDeviceInfoList := fun _ w => (true, w);
     usb_bus := bus |}.

Definition quiet : World := mkWorld [] [] [].

(** A world with one attached device whose interface can be claimed. *)
Definition with_device (vid pid : Z) : World :=
  mkWorld [] [] [mkUsbDevice vid pid true].

Definition wrote_something (w : World) : bool :=
  existsb (fun s => match s with Wrote _ _ => true | _ => false end)
          (served w).

End Loopback.

(** A device that [UsbTransport.open] could use: attached, with the
    descriptor's identifiers, and claimable. *)
Definition matching_claimable_device (W : Type) (os : OS W) (w : W)
  (vid pid : Z) : bool :=
  existsb (fun d => (dev_vid d =? vid) && (dev_pid d =? pid) && dev_claimable d)
          (usb_bus os w).

(* ================================================================= *)
(** ** The parser as a function of the connection string *)

(** What the members say after a successful parse: a serial port name for
    [BLUETOOTH], a vendor and product identifier for [USB]. *)
Inductive ConnectionDescriptor : Type :=
| Serial (portName : string)
| Usb (vendorId productId : Z).

Definition descriptor (c : Conn) : ConnectionDescriptor :=
  match m_connectionType c with
  | BLUETOOTH => Serial (m_portName c)
  | USB => Usb (m_vid c) (m_pid c)
  end.

Inductive ParseResult : Type :=
| Parsed (d : ConnectionDescriptor)
| Failed (kind : option ErrorKind)
| Threw (e : Exn).

(** [parseConnectionString] on a freshly constructed object. *)
Definition parse (t : Target) (connectionString : string) : ParseResult :=
  match parseConnectionString t (constructor connectionString, tt) with
  | (Ret true, (c, _)) => Parsed (descriptor c)
  | (Ret false, (c, _)) => Failed (error_kind (m_lastError c))
  | (Throw e, _) => Threw e
  end.

(** A string of hexadecimal digits only. *)
Fixpoint all_hex (s : string) : bool :=
  match s with
  | EmptyString => true
  | String c s' => Stoul.is_hex c && all_hex s'
  end.

Definition hex_value (s : string) : Z := Stoul.hex_run 0 s.

(** The [hex16] of the connection-string grammar: one or more hexadecimal
    digits, and nothing else, whose value fits in 16 bits. *)
Definition valid_hex16 (s : string) : bool :=
  negb (StdString.empty s) && all_hex s && (hex_value s <=? 65535).

(** [s] is empty or starts with a character that is no hexadecimal digit. *)
Definition stops_hex (s : string) : bool :=
  match s with
  | EmptyString => true
  | String c _ => negb (Stoul.is_hex c)
  end.

(** The text of [usbParams] before the first colon and after it. *)
Definition first_half (n : nat) (usbParams : string) : string :=
  String.substring 0 n usbParams.

Definition second_half (n : nat) (usbParams : string) : string :=
  String.substring (n + 1) (String.length usbParams - (n + 1)) usbParams.

(** The handle of the serial port on the target. *)
Definition serial_handle (t : Target) (c : Conn) : Z :=
  if _WIN32 t then m_serialHandle c else m_serialFd c.

(** An open handle: what [initializeBluetooth] accepts from the system. *)
Definition handle_open (t : Target) (h : Z) : bool :=
  if _WIN32 t then negb (h =? INVALID_HANDLE_VALUE) else 0 <=? h.

(** The object after [cleanupConnection] closed its serial port. *)
Definition with_closed_handle (t : Target) (c : Conn) : Conn :=
  if _WIN32 t then set_m_serialHandle INVALID_HANDLE_VALUE c
  else set_m_serialFd (-1) c.

(** The world after the system closed handle [h]. *)
Definition close_handle (t : Target) (W : Type) (os : OS W) (h : Z) (w : W)
  : W :=
  if _WIN32 t then snd (CloseHandle os h w) else snd (sys_close os h w).

(** While connected, the object talks to an open serial port. *)
Definition connected_to_serial (t : Target) (c : Conn) : Prop :=
  m_isConnected c = true ->
  m_connectionType c = BLUETOOTH /\ handle_open t (serial_handle t c) = true.

(** The result of the USB branch, given the text after ["USB:"]. *)
Definition usb_branch (t : Target) (W : Type) (usbParams : string) (c : Conn) (w : W)
  : Outcome bool * St W :=
  let c0 := set_m_connectionType USB c in
  match StdString.find_char ":" usbParams with
  | None => (Ret false, (set_m_lastError Msg.bad_usb c0, w))
  | Some n =>
      match Stoul.stoul16 t (first_half n usbParams) with
      | Throw _ => (Ret false, (set_m_lastError Msg.bad_vid_pid c0, w))
      | Ret vid =>
          let c1 := set_m_vid (to_uint16 vid) c0 in
          match Stoul.stoul16 t (second_half n usbParams) with
          | Throw _ => (Ret false, (set_m_lastError Msg.bad_vid_pid c1, w))
          | Ret pid => (Ret true, (set_m_pid (to_uint16 pid) c1, w))
          end
      end
  end.

(** What a call of [parseConnectionString] leaves alone. *)
Definition same_link (c c' : Conn) : Prop :=
  m_connectionString c' = m_connectionString c /\
  m_isConnected c' = m_isConnected c /\
  m_serialHandle c' = m_serialHandle c /\
  m_serialFd c' = m_serialFd c /\
  m_usbHandle c' = m_usbHandle c /\
  m_usbFd c' = m_usbFd c /\
  m_baudRate c' = m_baudRate c.

(** Every string is empty, starts with ["BT:"], starts with ["USB:"], or
    is left to the legacy rule. *)
Inductive Shape (s : string) : Prop :=
| ShapeEmpty : s = "" -> Shape s
| ShapeBT (rest : string) : s = "BT:" ++ rest -> Shape s
| ShapeUSB (rest : string) : s = "USB:" ++ rest -> Shape s
| ShapeOther :
    s <> "" ->
    String.eqb (String.substring 0 3 s) "BT:" = false ->
    String.eqb (String.substring 0 4 s) "USB:" = false ->
    Shape s.

(** The members that only [initializeBluetooth] and [cleanupConnection]
    leave alone. *)
Definition same_descriptor (c c' : Conn) : Prop :=
  m_connectionString c' = m_connectionString c /\
  m_connectionType c' = m_connectionType c /\
  m_isConnected c' = m_isConnected c /\
  m_vid c' = m_vid c /\
  m_pid c' = m_pid c /\
  m_portName c' = m_portName c /\
  m_baudRate c' = m_baudRate c.

(** What [sendCommand] and [receiveResponse] leave alone: everything but
    the last error. *)
Definition same_but_error (c c' : Conn) : Prop :=
  exists msg : string, c' = set_m_lastError msg c.

(** The call came back with a value. *)
Definition returned (e : Event) : Prop := exists v : Value, snd e = Ret v.

(** Nothing arrives on the serial port of [c]: every read of the buffer
    size reports zero bytes. *)
Definition no_pending_data (t : Target) (W : Type) (os : OS W) (c : Conn)
  : Prop :=
  forall w : W,
    if _WIN32 t
    then exists buffer : list byte,
        fst (ReadFile os (m_serialHandle c) sizeof_buffer w) = (true, 0, buffer)
    else fst (fst (sys_read os (m_serialFd c) sizeof_buffer w)) = 0.

(** A system like [Loopback.os] on which nothing ever arrives. *)
Definition silent_os : OS Loopback.World :=
  {| sys_open := sys_open Loopback.os;
     sys_close := sys_close Loopback.os;
     sys_write := sys_write Loopback.os;
     sys_read := fun fd _ w => ((0, []), Loopback.serve (Loopback.Read fd) w);
     sys_tcgetattr := sys_tcgetattr Loopback.os;
     sys_tcsetattr := sys_tcsetattr Loopback.os;
     CreateFileA := CreateFileA Loopback.os;
     GetLastError := GetLastError Loopback.os;
     GetCommState := GetCommState Loopback.os;
     SetCommState := SetCommState Loopback.os;
     SetCommTimeouts := SetCommTimeouts Loopback.os;
     CloseHandle := CloseHandle Loopback.os;
     WriteFile := WriteFile Loopback.os;
     ReadFile := fun h _ w =>
       ((true, 0, []), Loopback.serve (Loopback.Read h) w);
     SetupDiGetClassDevs := SetupDiGetClassDevs Loopback.os;
     SetupDiDestroyDeviceInfoList := SetupDiDestroyDeviceInfoList Loopback.os;
     usb_bus := usb_bus Loopback.os |}.

(* ================================================================= *)
(** ** The skeleton at the root of the repository *)

(** The earlier [WT13106Connection.cpp], which has no transport yet.  It
    uses the members [m_connectionString], [m_isConnected] and
    [m_lastError] only and makes no system call. *)
Module Skeleton.
Section Skeleton.

Variable W : Type.

Local Open Scope cpp_scope.

Definition initializeConnection : M W bool :=
  cs <- this m_connectionString ;;
  if StdString.empty cs then
    assign (set_m_lastError Msg.empty_string) ;;
    RETURN false
  else RETURN true.

Definition cleanupConnection : M W unit := RETURN tt.

Definition connect : M W bool :=
  isConnected <- this m_isConnected ;;
  if isConnected then
    assign (set_m_lastError Msg.already_connected) ;;
    RETURN false
  else
  initialized <- initializeConnection ;;
  if negb initialized then RETURN false
  else
    assign (set_m_isConnected true) ;;
    assign (set_m_lastError "") ;;
    RETURN true.

Definition disconnect : M W bool :=
  isConnected <- this m_isConnected ;;
  if negb isConnected then
    assign (set_m_lastError Msg.not_connected) ;;
    RETURN false
  else
  cleanupConnection ;;
  assign (set_m_isConnected false) ;;
  assign (set_m_lastError "") ;;
  RETURN true.

Definition sendCommand (command : list byte) : M W bool :=
  isConnected <- this m_isConnected ;;
  if negb isConnected then
    assign (set_m_lastError Msg.not_connected_to_device) ;;
    RETURN false
  else
  match command with
  | [] =>
      assign (set_m_lastError Msg.command_is_empty) ;;
      RETURN false
  | _ :: _ =>
      assign (set_m_lastError "") ;;
      RETURN true
  end.

Definition receiveResponse (timeoutMs : Z) : M W (list byte) :=
  let response : list byte := [] in
  isConnected <- this m_isConnected ;;
  if negb isConnected then
    assign (set_m_lastError Msg.not_connected_to_device) ;;
    RETURN response
  else
  assign (set_m_lastError "") ;;
  RETURN response.

Definition sendCommandAndReceive (command : list byte) (timeoutMs : Z)
  : M W (list byte) :=
  sent <- sendCommand command ;;
  if negb sent then RETURN []
  else receiveResponse timeoutMs.

Definition destructor : M W unit :=
  isConnected <- this m_isConnected ;;
  if isConnected then disconnect ;; RETURN tt
  else RETURN tt.

End Skeleton.
End Skeleton.

(** The object and the world once the loopback system has accepted
    [connect()] on ["BT:COM5"]. *)
Definition connected_posix : St Loopback.World :=
  Eval vm_compute in
    snd (run PosixLP64 Loopback.os [CallConnect]
           (constructor "BT:COM5", Loopback.quiet)).

Definition connected_windows : St Loopback.World :=
  Eval vm_compute in
    snd (run Windows Loopback.os [CallConnect]
           (constructor "BT:COM5", Loopback.quiet)).

(* ================================================================= *)
(** ** Further systems and predicates for concrete runs *)

(** A system like [Loopback.os] whose port opens but is no terminal:
    [tcgetattr] and [GetCommState] fail. *)
Definition no_tty_os : OS Loopback.World :=
  {| sys_open := sys_open Loopback.os;
     sys_close := sys_close Loopback.os;
     sys_write := sys_write Loopback.os;
     sys_read := sys_read Loopback.os;
     sys_tcgetattr := fun fd w => ((-1, Loopback.zero_termios), w);
     sys_tcsetattr := sys_tcsetattr Loopback.os;
     CreateFileA := CreateFileA Loopback.os;
     GetLastError := GetLastError Loopback.os;
     GetCommState := fun h w => ((false, Loopback.zero_dcb), w);
     SetCommState := SetCommState Loopback.os;
     SetCommTimeouts := SetCommTimeouts Loopback.os;
     CloseHandle := CloseHandle Loopback.os;
     WriteFile := WriteFile Loopback.os;
     ReadFile := ReadFile Loopback.os;
     SetupDiGetClassDevs := SetupDiGetClassDevs Loopback.os;
     SetupDiDestroyDeviceInfoList := SetupDiDestroyDeviceInfoList Loopback.os;
     usb_bus := usb_bus Loopback.os |}.

(** The handle the system gives for the port of [c], asked in world [w]. *)
Definition opened_handle (t : Target) (W : Type) (os : OS W) (c : Conn) (w : W)
  : Z :=
  if _WIN32 t
  then fst (CreateFileA os (device_namespace ++ m_portName c) w)
  else fst (sys_open os (m_portName c)
              (Z.lor (Z.lor Posix.O_RDWR Posix.O_NOCTTY) Posix.O_NONBLOCK) w).

(** A system that never reports more bytes read than fit the buffer of
    [receiveResponse]. *)
Definition reads_within_buffer (t : Target) (W : Type) (os : OS W) : Prop :=
  forall (h : Z) (w : W),
    if _WIN32 t
    then snd (fst (fst (ReadFile os h sizeof_buffer w))) <= sizeof_buffer
    else fst (fst (sys_read os h sizeof_buffer w)) <= sizeof_buffer.

(** The object and the world after a connection was used and closed. *)
Definition used_posix : St Loopback.World :=
  Eval vm_compute in
    snd (run PosixLP64 Loopback.os
           [CallConnect; CallSendCommand []; CallDisconnect]
           (constructor "BT:COM5", Loopback.quiet)).

(** What [initializeBluetooth] and [cleanupConnection] leave alone: all
    but the serial handle of the target and the last error. *)
Definition same_but_handle (t : Target) (c c' : Conn) : Prop :=
  same_descriptor c c'
  /\ m_usbHandle c' = m_usbHandle c
  /\ m_usbFd c' = m_usbFd c
  /\ (if _WIN32 t then m_serialFd c' = m_serialFd c
      else m_serialHandle c' = m_serialHandle c).

(** What every sequence of calls keeps of an object constructed from
    [connectionString]. *)
Definition kept (t : Target) (connectionString : string) (c : Conn) : Prop :=
  m_isConnected c = handle_open t (serial_handle t c)
  /\ (m_isConnected c = true -> m_connectionType c = BLUETOOTH)
  /\ m_connectionString c = connectionString
  /\ m_baudRate c = 9600
  /\ m_usbHandle c = INVALID_HANDLE_VALUE
  /\ m_usbFd c = -1
  /\ (if _WIN32 t then m_serialFd c = -1
      else m_serialHandle c = INVALID_HANDLE_VALUE)
  /\ m_lastError c <> Msg.usb_send
  /\ m_lastError c <> Msg.usb_receive
  /\ m_lastError c <> Msg.needs_winusb.

(* ================================================================= *)
(** ** The device finder: find_usb_device.ps1 *)

(** The loop body of the script over the matching devices: the vendor and
    product identifiers are cut out of [InstanceId] with
    [-match 'VID_([0-9A-F]{4})'] and [-match 'PID_([0-9A-F]{4})'], and the
    connection string is printed when both were found.  [-match] and [-ne]
    ignore case.  A string is a sequence of Latin-1 characters, among
    which only the ASCII letters have another case. *)
Module FindUsbDevice.

Definition upper (c : ascii) : ascii :=
  let n := N_of_ascii c in
  if ((97 <=? n) && (n <=? 122))%N then ascii_of_N (n - 32) else c.

Definition same_letter (a b : ascii) : bool :=
  Ascii.eqb (upper a) (upper b).

(** The class [[0-9A-F]] *)
Definition hex_class (c : ascii) : bool :=
  let n := N_of_ascii (upper c) in
  (((48 <=? n) && (n <=? 57)) || ((65 <=? n) && (n <=? 70)))%N.

(** The literal part of a pattern at the head of [s]: the text after
    it. *)
Fixpoint literal (pat s : string) : option string :=
  match pat, s with
  | EmptyString, _ => Some s
  | String p pat', String x s' =>
      if same_letter p x then literal pat' s' else None
  | String _ _, EmptyString => None
  end.

(** The group [([0-9A-F]{4})] at the head of [s]. *)
Definition four_hex (s : string) : option string :=
  match s with
  | String a (String b (String c (String d _))) =>
      if hex_class a && hex_class b && hex_class c && hex_class d
      then Some (String a (String b (String c (String d EmptyString))))
      else None
  | _ => None
  end.

Definition match_here (tag s : string) : option string :=
  match literal tag s with
  | Some rest => four_hex rest
  | None => None
  end.

(** [s -match 'tag([0-9A-F]{4})']: [$matches[1]] of the leftmost match,
    [None] when the operator gives [$false]. *)
Fixpoint regex_group (tag s : string) : option string :=
  match match_here tag s with
  | Some group => Some group
  | None =>
      match s with
      | EmptyString => None
      | String _ s' => regex_group tag s'
      end
  end.

(** [$vid = "N/A"; if ($device.InstanceId -match ...) { $vid = $matches[1] }] *)
Definition extract (tag InstanceId : string) : string :=
  match regex_group tag InstanceId with
  | Some group => group
  | None => "N/A"
  end.

(** [-eq] on strings *)
Fixpoint eq_ignoring_case (a b : string) : bool :=
  match a, b with
  | EmptyString, EmptyString => true
  | String x a', String y b' => same_letter x y && eq_ignoring_case a' b'
  | _, _ => false
  end.

(** The line that follows the status of a device. *)
Definition connection_string_line (InstanceId : string) : string :=
  let vid := extract "VID_" InstanceId in
  let devicePid := extract "PID_" InstanceId in
  if negb (eq_ignoring_case vid "N/A")
     && negb (eq_ignoring_case devicePid "N/A")
  then "  Connection String: USB:" ++ vid ++ ":" ++ devicePid
  else "  Connection String: Unable to determine (missing VID/PID)".

End FindUsbDevice.

(* ================================================================= *)
(** ** The example program: example_usage.cpp *)

Module ExampleUsage.

(** What the program writes, in the order of the statements; [printf]
    shares the standard output with [std::cout]. *)
Inductive Output : Type :=
| Stdout (text : string)
| Stderr (text : string).

Definition Console : Type := list Output.

(** [std::endl] *)
Definition endl : string := String "010" EmptyString.

Definition hex_upper (n : N) : ascii :=
  match String.get (N.to_nat n) "0123456789ABCDEF" with
  | Some c => c
  | None => "0"%char
  end.

(** [printf("%02X ", byte)] *)
Definition printf_02X (b : byte) : string :=
  let n := Byte.to_N b in
  String (hex_upper (n / 16)) (String (hex_upper (n mod 16)) " ").

(** [byte >= 32 && byte < 127 ? static_cast<char>(byte) : "."] *)
Definition printable (b : byte) : string :=
  let n := Byte.to_N b in
  if ((32 <=? n) && (n <? 127))%N
  then String (ascii_of_byte b) EmptyString
  else ".".

(** [static_cast<int>(byte)] on a stream *)
Definition as_int (b : byte) : string :=
  StdString.to_string (Z.of_N (Byte.to_N b)).

(** [connectionString] after the first statement of [main];
    [args] is [argv] without [argv[0]]. *)
Definition chosen_connection_string (args : list string) : string :=
  match args with
  | first :: _ => first
  | [] => "BT:COM5"
  end.

(** The usage text, written when no argument is given. *)
Definition usage (argv0 : string) (args : list string) : Console :=
  match args with
  | _ :: _ => []
  | [] =>
      [Stdout ("Usage: " ++ argv0 ++ " [connection_string]" ++ endl);
       Stdout ("Examples:" ++ endl);
       Stdout ("  " ++ argv0 ++ " BT:COM5          (Bluetooth on Windows)"
               ++ endl);
       Stdout ("  " ++ argv0 ++ " BT:/dev/ttyUSB0  (Bluetooth on Linux)"
               ++ endl);
       Stdout ("  " ++ argv0 ++ " USB:1234:5678    (USB connection)"
               ++ endl);
       Stdout endl;
       Stdout ("Using default: " ++ "BT:COM5" ++ endl)]
  end.

Section Main.

Variable t : Target.
Variable W : Type.
Variable os : OS W.

Local Open Scope cpp_scope.

(** The program runs in the monad of the member functions, over the
    object [device] and the world together with the console. *)
Definition P (A : Type) : Type := M (W * Console) A.

(** A call of a member function of [device]. *)
Definition call {A : Type} (member : M W A) : P A :=
  fun st =>
    let r := member (fst st, fst (snd st)) in
    (fst r, (fst (snd r), (snd (snd r), snd (snd st)))).

Definition cout (text : string) : P unit :=
  fun st =>
    (Ret tt, (fst st, (fst (snd st), (snd (snd st) ++ [Stdout text])%list))).

Definition cerr (text : string) : P unit :=
  fun st =>
    (Ret tt, (fst st, (fst (snd st), (snd (snd st) ++ [Stderr text])%list))).

(** A range-based [for] over the bytes of a vector. *)
Fixpoint for_each (body : byte -> P unit) (bytes : list byte) : P unit :=
  match bytes with
  | [] => RETURN tt
  | b :: rest => body b ;; for_each body rest
  end.

(** [std::this_thread::sleep_for]: time passes, and nothing that the
    program observes changes. *)
Definition sleep_for (milliseconds : Z) : P unit := RETURN tt.

(** The body of the [if (!signalData.empty())] of the reading loop,
    after the increment of [sampleCount]. *)
Definition print_sample (sampleCount : Z) (signalData : list byte)
  : P unit :=
  cout ("Sample #" ++ StdString.to_string sampleCount ++ " - Received "
        ++ StdString.to_string (size signalData) ++ " bytes: ") ;;
  for_each (fun b => cout (printf_02X b)) signalData ;;
  cout "| " ;;
  for_each (fun b => cout (printable b)) signalData ;;
  cout endl ;;
  match signalData with
  | signalType :: signalValue :: _ =>
      cout ("  -> Signal Type: " ++ as_int signalType
            ++ ", Value: " ++ as_int signalValue ++ endl)
  | _ => RETURN tt
  end.

(** The reading loop, for at most [fuel] iterations: [Some] of
    [sampleCount] when the loop is left, [None] when it is still
    running. *)
Fixpoint read_loop (fuel : nat) (sampleCount : Z) : P (option Z) :=
  match fuel with
  | O => RETURN None
  | S fuel' =>
      connected <- call (@isConnected W) ;;
      if negb connected then RETURN (Some sampleCount)
      else
      signalData <- call (receiveResponse t os 1000) ;;
      sampleCount <-
        match signalData with
        | _ :: _ =>
            let sampleCount := sampleCount + 1 in
            print_sample sampleCount signalData ;;
            RETURN sampleCount
        | [] => RETURN sampleCount
        end ;;
      sleep_for 100 ;;
      if 100 <=? sampleCount then
        cout (endl ++ "Read 100 samples. Stopping..." ++ endl) ;;
        RETURN (Some sampleCount)
      else read_loop fuel' sampleCount
  end.

(** The statements after the reading loop; the destructor of [device]
    runs at the [return]. *)
Definition after_loop : P Z :=
  cout (endl ++ "Sending test command..." ++ endl) ;;
  let command := [x01; x02; x03; x04] in
  sent <- call (sendCommand t os command) ;;
  (if sent : bool then
     cout ("Command sent successfully" ++ endl) ;;
     response <- call (receiveResponse t os 2000) ;;
     match response with
     | _ :: _ =>
         cout ("Response received ("
               ++ StdString.to_string (size response) ++ " bytes): ") ;;
         for_each (fun b => cout (printf_02X b)) response ;;
         cout endl
     | [] => RETURN tt
     end
   else
     lastError <- call (@getLastError W) ;;
     cerr ("Failed to send command: " ++ lastError ++ endl)) ;;
  cout (endl ++ "Disconnecting..." ++ endl) ;;
  call (disconnect t os) ;;
  cout ("Disconnected successfully." ++ endl) ;;
  call (destructor t os) ;;
  RETURN 0.

(** [main] from the construction of [device] on. *)
Definition with_device (fuel : nat) : P (option Z) :=
  cout ("Connecting to Boogy Board..." ++ endl) ;;
  connected <- call (connect t os) ;;
  if negb connected then
    lastError <- call (@getLastError W) ;;
    cerr ("Failed to connect: " ++ lastError ++ endl) ;;
    cerr endl ;;
    cerr ("Troubleshooting:" ++ endl) ;;
    cerr ("  - For Bluetooth: Ensure device is paired and COM port is correct"
          ++ endl) ;;
    cerr ("  - For USB: Check VID/PID and ensure device is connected"
          ++ endl) ;;
    call (destructor t os) ;;
    RETURN (Some 1)
  else
  cout ("Successfully connected to Boogy Board!" ++ endl) ;;
  cout ("Reading input signals (press Ctrl+C to stop)..." ++ endl) ;;
  cout endl ;;
  left <- read_loop fuel 0 ;;
  match left with
  | None => RETURN None
  | Some _ =>
      status <- after_loop ;;
      RETURN (Some status)
  end.

(** [main(argc, argv)] with [argv = argv0 :: args], started in the
    world [w]: the exit status, [None] while the reading loop runs,
    with the object, the world and the console at that point. *)
Definition main (fuel : nat) (argv0 : string) (args : list string) (w : W)
  : Outcome (option Z) * St (W * Console) :=
  with_device fuel
    (constructor (chosen_connection_string args), (w, usage argv0 args)).

End Main.

(** Nothing ever arrives: every read fails or reports no byte. *)
Definition never_data (t : Target) (W : Type) (os : OS W) : Prop :=
  forall (h count : Z) (w : W),
    if _WIN32 t
    then fst (fst (fst (ReadFile os h count w))) = false
         \/ snd (fst (fst (ReadFile os h count w))) <= 0
    else fst (fst (sys_read os h count w)) <= 0.

(** Every read succeeds with at least one byte. *)
Definition always_data (t : Target) (W : Type) (os : OS W) : Prop :=
  forall (h count : Z) (w : W),
    if _WIN32 t
    then fst (fst (fst (ReadFile os h count w))) = true
         /\ 0 < snd (fst (fst (ReadFile os h count w)))
         /\ snd (fst (ReadFile os h count w)) <> []
    else 0 < fst (fst (sys_read os h count w))
         /\ snd (fst (sys_read os h count w)) <> [].

(** A system like [Loopback.os] on which every read gives one byte. *)
Definition chatty_os : OS Loopback.World :=
  {| sys_open := sys_open Loopback.os;
     sys_close := sys_close Loopback.os;
     sys_write := sys_write Loopback.os;
     sys_read := fun fd _ w =>
       ((1, [x2a]), Loopback.serve (Loopback.Read fd) w);
     sys_tcgetattr := sys_tcgetattr Loopback.os;
     sys_tcsetattr := sys_tcsetattr Loopback.os;
     CreateFileA := CreateFileA Loopback.os;
     GetLastError := GetLastError Loopback.os;
     GetCommState := GetCommState Loopback.os;
     SetCommState := SetCommState Loopback.os;
     SetCommTimeouts := SetCommTimeouts Loopback.os;
     CloseHandle := CloseHandle Loopback.os;
     WriteFile := WriteFile Loopback.os;
     ReadFile := fun h _ w =>
       ((true, 1, [x2a]), Loopback.serve (Loopback.Read h) w);
     SetupDiGetClassDevs := SetupDiGetClassDevs Loopback.os;
     SetupDiDestroyDeviceInfoList :=
       SetupDiDestroyDeviceInfoList Loopback.os;
     usb_bus := usb_bus Loopback.os |}.

(** The texts written to the standard output. *)
Definition stdout_texts (console : Console) : list string :=
  flat_map (fun o => match o with Stdout s => [s] | Stderr _ => [] end)
           console.

Definition is_sample_line (text : string) : bool :=
  String.prefix "Sample #" text.

(** The number of samples the program reported. *)
Definition samples_reported (console : Console) : nat :=
  List.length (filter is_sample_line (stdout_texts console)).

End ExampleUsage.


(* ================================================================= *)
(** * Proofs *)

Unset Implicit Arguments.

(** Unfold the monad. *)
Ltac unfold_monad :=
  unfold bind, ret, lift, try_catch, this, assign, syscall in *.

Lemma substring_0_length (s : string) :
  String.substring 0 (String.length s) s = s.
Proof.
  induction s as [|c s IH]; simpl; [reflexivity | now rewrite IH].
Qed.

Lemma substring_0_0 (s : string) : String.substring 0 0 s = "".
Proof. destruct s; reflexivity. Qed.

Lemma length_append (a b : string) :
  String.length (a ++ b) = (String.length a + String.length b)%nat.
Proof.
  induction a as [|c a IH]; simpl; [reflexivity | now rewrite IH].
Qed.

Lemma find_char_append (c : ascii) (a b : string) :
  StdString.find_char c a = None ->
  StdString.find_char c (a ++ String c b) = Some (String.length a).
Proof.
  induction a as [|x a IH]; simpl; intros H.
  - now rewrite Ascii.eqb_refl.
  - destruct (Ascii.eqb x c); [discriminate|].
    destruct (StdString.find_char c a); [discriminate|].
    now rewrite IH.
Qed.

Lemma first_half_append (a r : string) :
  first_half (String.length a) (a ++ r) = a.
Proof.
  unfold first_half.
  induction a as [|x a IH]; simpl.
  - destruct r; reflexivity.
  - now rewrite IH.
Qed.

Lemma substring_drop (a r : string) (n : nat) :
  String.substring (String.length a + n) (String.length r - n) (a ++ r)
  = String.substring n (String.length r - n) r.
Proof.
  induction a as [|x a IH]; simpl; [reflexivity | exact IH].
Qed.

Lemma second_half_append (a b : string) (c : ascii) :
  second_half (String.length a) (a ++ String c b) = b.
Proof.
  unfold second_half.
  rewrite length_append.
  replace (String.length a + String.length (String c b) - (String.length a + 1))%nat
    with (String.length (String c b) - 1)%nat by (simpl; lia).
  rewrite substring_drop. simpl. rewrite Nat.sub_0_r.
  apply substring_0_length.
Qed.

Lemma find_char_lt (c : ascii) (s : string) (n : nat) :
  StdString.find_char c s = Some n -> (n < String.length s)%nat.
Proof.
  revert n; induction s as [|x s IH]; simpl; intros n H; [discriminate|].
  destruct (Ascii.eqb x c).
  - injection H as <-. lia.
  - destruct (StdString.find_char c s) as [m|]; [|discriminate].
    injection H as <-. specialize (IH m eq_refl). lia.
Qed.

Lemma parse_usb (t : Target) (W : Type) (c : Conn) (w : W) (usbParams : string) :
  m_connectionString c = "USB:" ++ usbParams ->
  parseConnectionString t (c, w) = usb_branch t usbParams c w.
Proof.
  intros Hs. unfold parseConnectionString, usb_branch.
  unfold_monad. simpl. rewrite Hs. simpl. rewrite substring_0_0. simpl.
  rewrite Nat.sub_0_r, substring_0_length.
  destruct (StdString.find_char ":" usbParams) as [n|] eqn:Hfind; [|reflexivity].
  pose proof (find_char_lt _ _ _ Hfind) as Hlt.
  unfold substr.
  destruct (String.length usbParams <? 0)%nat eqn:E0; [apply Nat.ltb_lt in E0; lia|].
  fold (first_half n usbParams).
  destruct (Stoul.stoul16 t (first_half n usbParams)) as [vid|e]; [|reflexivity].
  simpl.
  destruct (String.length usbParams <? n + 1)%nat eqn:E1; [apply Nat.ltb_lt in E1; lia|].
  fold (second_half n usbParams).
  destruct (Stoul.stoul16 t (second_half n usbParams)) as [pid|e]; reflexivity.
Qed.

Lemma parse_empty (t : Target) (W : Type) (c : Conn) (w : W) :
  m_connectionString c = "" ->
  parseConnectionString t (c, w)
  = (Ret false, (set_m_lastError Msg.empty_string c, w)).
Proof.
  intros Hs. unfold parseConnectionString. unfold_monad. simpl.
  now rewrite Hs.
Qed.

Lemma parse_bt (t : Target) (W : Type) (c : Conn) (w : W) (rest : string) :
  m_connectionString c = "BT:" ++ rest ->
  parseConnectionString t (c, w)
  = let c1 := set_m_portName rest (set_m_connectionType BLUETOOTH c) in
    if StdString.empty rest
    then (Ret false, (set_m_lastError Msg.bad_bluetooth c1, w))
    else (Ret true, (c1, w)).
Proof.
  intros Hs. unfold parseConnectionString. unfold_monad. simpl.
  rewrite Hs. simpl. rewrite substring_0_0. simpl.
  rewrite Nat.sub_0_r, substring_0_length.
  destruct rest; reflexivity.
Qed.

Lemma substring_prefix_3 (s p : string) :
  String.length p = 3%nat ->
  String.substring 0 3 s = p -> exists rest, s = p ++ rest.
Proof.
  intros Hp H.
  destruct s as [|c1 [|c2 [|c3 r]]]; simpl in H; subst p; simpl in Hp;
    try discriminate.
  rewrite substring_0_0. exists r. reflexivity.
Qed.

Lemma substring_prefix_4 (s p : string) :
  String.length p = 4%nat ->
  String.substring 0 4 s = p -> exists rest, s = p ++ rest.
Proof.
  intros Hp H.
  destruct s as [|c1 [|c2 [|c3 [|c4 r]]]]; simpl in H; subst p; simpl in Hp;
    try discriminate.
  rewrite substring_0_0. exists r. reflexivity.
Qed.

Lemma shape (s : string) : Shape s.
Proof.
  destruct s as [|c0 s0] eqn:Es; [now apply ShapeEmpty|]. rewrite <- Es.
  destruct (String.eqb (String.substring 0 3 s) "BT:") eqn:E3.
  - apply String.eqb_eq in E3.
    destruct (substring_prefix_3 s "BT:" eq_refl E3) as [rest ->].
    now apply ShapeBT with rest.
  - destruct (String.eqb (String.substring 0 4 s) "USB:") eqn:E4.
    + apply String.eqb_eq in E4.
      destruct (substring_prefix_4 s "USB:" eq_refl E4) as [rest ->].
      now apply ShapeUSB with rest.
    + apply ShapeOther; [rewrite Es; discriminate | assumption | assumption].
Qed.

Lemma parse_other (t : Target) (W : Type) (c : Conn) (w : W) :
  m_connectionString c <> "" ->
  String.eqb (String.substring 0 3 (m_connectionString c)) "BT:" = false ->
  String.eqb (String.substring 0 4 (m_connectionString c)) "USB:" = false ->
  parseConnectionString t (c, w)
  = if StdString.find_is_0 "COM" (m_connectionString c)
       || StdString.find_is_0 "/dev/" (m_connectionString c)
    then (Ret true,
          (set_m_portName (m_connectionString c)
             (set_m_connectionType BLUETOOTH c), w))
    else (Ret false, (set_m_lastError Msg.unknown_format c, w)).
Proof.
  intros Hne H3 H4. unfold parseConnectionString. unfold_monad. simpl.
  destruct (m_connectionString c) as [|c0 s0] eqn:Es; [contradiction|].
  cbn [StdString.empty]. unfold substr.
  cbn [String.length Nat.ltb Nat.leb]. rewrite H3, H4.
  destruct (_ || _); reflexivity.
Qed.

Lemma parse_total (t : Target) (W : Type) (c : Conn) (w : W) :
  exists (b : bool) (c' : Conn),
    parseConnectionString t (c, w) = (Ret b, (c', w)) /\ same_link c c'
    /\ (b = false -> m_lastError c' <> "")
    /\ (b = true -> m_lastError c' = m_lastError c).
Proof.
  destruct (shape (m_connectionString c)) as [He | rest Hb | rest Hu | Hne H3 H4].
  - rewrite (parse_empty t W c w He).
    eexists _, _; split; [reflexivity|]. repeat split; try discriminate.
  - rewrite (parse_bt t W c w rest Hb). cbv zeta.
    destruct (StdString.empty rest); eexists _, _; (split; [reflexivity|]);
      repeat split; discriminate.
  - rewrite (parse_usb t W c w rest Hu). unfold usb_branch.
    destruct (StdString.find_char ":" rest) as [n|].
    + destruct (Stoul.stoul16 t (first_half n rest)) as [vid|e].
      * destruct (Stoul.stoul16 t (second_half n rest)) as [pid|e];
          eexists _, _; (split; [reflexivity|]); repeat split; discriminate.
      * eexists _, _; (split; [reflexivity|]); repeat split; discriminate.
    + eexists _, _; (split; [reflexivity|]); repeat split; discriminate.
  - rewrite (parse_other t W c w Hne H3 H4).
    destruct (_ || _); eexists _, _; (split; [reflexivity|]);
      repeat split; discriminate.
Qed.

(** Case analysis on everything a member function branches on. *)
Ltac plain x :=
  lazymatch x with
  | context [match _ with _ => _ end] => fail
  | _ => idtac
  end.

Ltac branch :=
  repeat match goal with
         | |- context [match ?x with _ => _ end] => plain x; destruct x eqn:?
         end.

Ltac run_member := unfold_monad; simpl; branch; simpl.

Lemma initializeBluetooth_total (t : Target) (W : Type) (os : OS W)
  (c : Conn) (w : W) :
  exists (b : bool) (c' : Conn) (w' : W),
    initializeBluetooth t os (c, w) = (Ret b, (c', w'))
    /\ same_descriptor c c'
    /\ (b = true ->
        handle_open t (serial_handle t c') = true
        /\ m_lastError c' = m_lastError c)
    /\ (b = false -> m_lastError c' <> "").
Proof.
  unfold initializeBluetooth, handle_open, serial_handle.
  destruct t; run_member;
    eexists _, _, _; (split; [reflexivity|]);
    (split; [repeat split|]); simpl;
    (split; [intros Hb|intros Hb]); try discriminate; simpl;
    try (split; [|reflexivity]).
  all: try (rewrite Heqb; reflexivity).
  all: try (apply Z.leb_le; apply Z.ltb_ge; assumption).
Qed.

Lemma enumerate_interfaces_found (members : list UsbDevice) (found : bool) :
  enumerate_interfaces members found = found.
Proof. induction members as [|d rest IH]; simpl; [reflexivity | exact IH]. Qed.

(** [initializeUSB] never opens anything. *)
Lemma initializeUSB_fails (t : Target) (W : Type) (os : OS W)
  (c : Conn) (w : W) :
  initializeUSB t os (c, w)
  = if _WIN32 t then
      match fst (SetupDiGetClassDevs os w) with
      | None =>
          (Ret false,
           (set_m_lastError Msg.enumerate_usb c,
            snd (SetupDiGetClassDevs os w)))
      | Some members =>
          (Ret false,
           (set_m_lastError
              ("USB device not found (VID: " ++ StdString.to_string (m_vid c)
               ++ ", PID: " ++ StdString.to_string (m_pid c) ++ ")") c,
            snd (SetupDiDestroyDeviceInfoList os members
                   (snd (SetupDiGetClassDevs os w)))))
      end
    else (Ret false, (set_m_lastError Msg.needs_libusb c, w)).
Proof.
  unfold initializeUSB. destruct (_WIN32 t); [|reflexivity].
  unfold_monad. simpl.
  destruct (fst (SetupDiGetClassDevs os w)) as [members|]; [|reflexivity].
  rewrite enumerate_interfaces_found. reflexivity.
Qed.

Lemma initializeUSB_total (t : Target) (W : Type) (os : OS W)
  (c : Conn) (w : W) :
  exists (msg : string) (w' : W),
    initializeUSB t os (c, w) = (Ret false, (set_m_lastError msg c, w'))
    /\ msg <> "".
Proof.
  rewrite initializeUSB_fails.
  destruct (_WIN32 t); [destruct (fst (SetupDiGetClassDevs os w))|];
    eexists _, _; (split; [reflexivity|]); discriminate.
Qed.

(** [cleanupConnection] on an object that talks to an open serial port. *)
Lemma cleanupConnection_closes (t : Target) (W : Type) (os : OS W)
  (c : Conn) (w : W) :
  m_connectionType c = BLUETOOTH ->
  handle_open t (serial_handle t c) = true ->
  cleanupConnection t os (c, w)
  = (Ret tt, (with_closed_handle t c, close_handle t os (serial_handle t c) w)).
Proof.
  unfold cleanupConnection, handle_open, serial_handle, with_closed_handle,
    close_handle.
  intros Hty Hopen. unfold_monad. simpl. rewrite Hty.
  destruct (_WIN32 t); simpl; rewrite Hopen; reflexivity.
Qed.

Lemma cleanupConnection_total (t : Target) (W : Type) (os : OS W)
  (c : Conn) (w : W) :
  exists (c' : Conn) (w' : W),
    cleanupConnection t os (c, w) = (Ret tt, (c', w'))
    /\ same_descriptor c c' /\ m_lastError c' = m_lastError c.
Proof.
  unfold cleanupConnection. run_member;
    eexists _, _; (split; [reflexivity|]); repeat split.
Qed.

(** [connect] on a connected object. *)
Lemma connect_connected (t : Target) (W : Type) (os : OS W)
  (c : Conn) (w : W) :
  m_isConnected c = true ->
  connect t os (c, w) = (Ret false, (set_m_lastError Msg.already_connected c, w)).
Proof.
  intros H. unfold connect. unfold_monad. simpl. now rewrite H.
Qed.

(** [connect] on a disconnected object: the flag becomes the result. *)
Lemma connect_disconnected (t : Target) (W : Type) (os : OS W)
  (c : Conn) (w : W) :
  m_isConnected c = false ->
  exists (b : bool) (c' : Conn) (w' : W),
    connect t os (c, w) = (Ret b, (c', w'))
    /\ m_isConnected c' = b
    /\ m_connectionString c' = m_connectionString c
    /\ (b = true ->
        m_connectionType c' = BLUETOOTH
        /\ handle_open t (serial_handle t c') = true
        /\ m_lastError c' = "")
    /\ (b = false -> m_lastError c' <> "").
Proof.
  intros Hd. unfold connect. unfold bind at 1. unfold this at 1. simpl.
  rewrite Hd. unfold bind at 1.
  destruct (parse_total t W c w) as (p & c1 & -> & Hlink & Hfalse & _).
  destruct Hlink as (Hs & Hc & _).
  destruct p; simpl.
  2:{ unfold ret. exists false, c1, w. repeat split; try congruence.
      intros _. now apply Hfalse. }
  unfold bind at 1. unfold this at 1. simpl. unfold bind at 1.
  destruct (m_connectionType c1) eqn:Hty.
  - destruct (initializeBluetooth_total t W os c1 w)
      as (b & c2 & w2 & -> & Hdesc & Htrue & Hfalse2).
    destruct Hdesc as (Hs2 & Hty2 & Hc2 & _).
    destruct b; unfold_monad; simpl.
    + eexists _, _, _; split; [reflexivity|]. simpl.
      repeat split; try congruence.
      unfold serial_handle in *; simpl. now apply Htrue.
    + eexists _, _, _; split; [reflexivity|]. simpl.
      repeat split; try congruence. intros _. now apply Hfalse2.
  - destruct (initializeUSB_total t W os c1 w) as (msg & w2 & -> & Hmsg).
    unfold_monad; simpl.
    eexists _, _, _; split; [reflexivity|]. simpl.
    repeat split; try congruence.
Qed.

(** [disconnect], whatever the object talks to. *)
Lemma disconnect_total (t : Target) (W : Type) (os : OS W)
  (c : Conn) (w : W) :
  exists (b : bool) (c' : Conn) (w' : W),
    disconnect t os (c, w) = (Ret b, (c', w'))
    /\ b = m_isConnected c
    /\ m_isConnected c' = false
    /\ m_connectionString c' = m_connectionString c
    /\ m_lastError c' = (if b then "" else Msg.not_connected).
Proof.
  unfold disconnect. unfold bind at 1. unfold this at 1. simpl.
  destruct (m_isConnected c) eqn:Hc; simpl.
  - unfold bind at 1.
    destruct (cleanupConnection_total t W os c w) as (c1 & w1 & -> & Hdesc & _).
    destruct Hdesc as (Hs & _).
    unfold_monad. simpl. eexists _, _, _; split; [reflexivity|].
    repeat split; assumption.
  - unfold_monad. simpl. eexists _, _, _; split; [reflexivity|].
    repeat split; assumption.
Qed.

Lemma same_but_error_refl (c : Conn) : same_but_error c c.
Proof. exists (m_lastError c). now destruct c. Qed.

Lemma same_but_error_set (msg : string) (c : Conn) :
  same_but_error c (set_m_lastError msg c).
Proof. now exists msg. Qed.

Lemma same_but_error_trans (c1 c2 c3 : Conn) :
  same_but_error c1 c2 -> same_but_error c2 c3 -> same_but_error c1 c3.
Proof. intros [m1 ->] [m2 ->]. now exists m2. Qed.

Lemma sendCommand_total (t : Target) (W : Type) (os : OS W)
  (command : list byte) (c : Conn) (w : W) :
  exists (b : bool) (c' : Conn) (w' : W),
    sendCommand t os command (c, w) = (Ret b, (c', w'))
    /\ same_but_error c c'
    /\ (b = true -> m_isConnected c = true /\ m_lastError c' = "")
    /\ (b = false -> m_lastError c' <> "").
Proof.
  unfold sendCommand. run_member;
    eexists _, _, _; (split; [reflexivity|]);
    (split; [apply same_but_error_set|]); simpl;
    split; intros Hb; try discriminate; auto.
  all: split; [|reflexivity].
  all: match goal with H : negb _ = false |- _ => apply negb_false_iff in H; exact H end.
Qed.

Lemma receiveResponse_total (t : Target) (W : Type) (os : OS W)
  (timeoutMs : Z) (c : Conn) (w : W) :
  exists (bytes : list byte) (c' : Conn) (w' : W),
    receiveResponse t os timeoutMs (c, w) = (Ret bytes, (c', w'))
    /\ same_but_error c c'
    /\ (bytes <> [] -> m_isConnected c = true).
Proof.
  unfold receiveResponse. run_member;
    eexists _, _, _; (split; [reflexivity|]);
    (split; [first [apply same_but_error_set | apply same_but_error_refl]|]);
    intros Hb; try congruence.
  all: match goal with H : negb _ = false |- _ => apply negb_false_iff in H; exact H end.
Qed.

Lemma sendCommandAndReceive_total (t : Target) (W : Type) (os : OS W)
  (command : list byte) (timeoutMs : Z) (c : Conn) (w : W) :
  exists (bytes : list byte) (c' : Conn) (w' : W),
    sendCommandAndReceive t os command timeoutMs (c, w) = (Ret bytes, (c', w'))
    /\ same_but_error c c'.
Proof.
  unfold sendCommandAndReceive. unfold bind at 1.
  destruct (sendCommand_total t W os command c w)
    as (b & c1 & w1 & -> & Hsame & _).
  destruct b; simpl.
  - destruct (receiveResponse_total t W os timeoutMs c1 w1)
      as (bytes & c2 & w2 & -> & Hsame2 & _).
    eexists _, _, _; split; [reflexivity|].
    now apply same_but_error_trans with c1.
  - unfold ret. eexists _, _, _; split; [reflexivity | assumption].
Qed.

Lemma connected_to_serial_same (t : Target) (c c' : Conn) :
  same_but_error c c' -> connected_to_serial t c -> connected_to_serial t c'.
Proof.
  intros [msg ->] H. unfold connected_to_serial, serial_handle in *. exact H.
Qed.

Lemma same_but_error_flag (c c' : Conn) :
  same_but_error c c' ->
  m_isConnected c' = m_isConnected c
  /\ m_connectionString c' = m_connectionString c.
Proof. intros [msg ->]. split; reflexivity. Qed.

(** One call: it returns, the flag moves as the history says, and a
    connected object still talks to an open serial port. *)
Lemma invoke_total (t : Target) (W : Type) (os : OS W)
  (call : Call) (c : Conn) (w : W) :
  exists (v : Value) (c' : Conn) (w' : W),
    invoke t os call (c, w) = (Ret v, (c', w'))
    /\ m_isConnected c' = connected_since (m_isConnected c) [(call, Ret v)]
    /\ m_connectionString c' = m_connectionString c
    /\ (connected_to_serial t c -> connected_to_serial t c').
Proof.
  destruct call as [| | |command|timeoutMs|command timeoutMs|];
    unfold invoke; unfold bind at 1.
  - (* connect *)
    destruct (m_isConnected c) eqn:Hc.
    + rewrite (connect_connected t W os c w Hc). unfold ret.
      eexists _, _, _; split; [reflexivity|]. simpl.
      split; [assumption | split; [reflexivity|]].
      apply connected_to_serial_same, same_but_error_set.
    + destruct (connect_disconnected t W os c w Hc)
        as (b & c1 & w1 & -> & Hflag & Hs & Htrue & _).
      unfold ret. eexists _, _, _; split; [reflexivity|].
      unfold connected_since, is_disconnect, connect_succeeded. simpl.
      split; [destruct b; assumption | split; [assumption|]].
      intros _ Hc1. rewrite Hflag in Hc1.
      destruct (Htrue Hc1) as (Hty & Hopen & _). now split.
  - (* disconnect *)
    destruct (disconnect_total t W os c w)
      as (b & c1 & w1 & -> & _ & Hflag & Hs & _).
    unfold ret. eexists _, _, _; split; [reflexivity|]. simpl.
    split; [assumption | split; [assumption|]].
    intros _ Hc1. congruence.
  - (* isConnected *)
    unfold isConnected, this, ret. simpl.
    eexists _, _, _; split; [reflexivity|]. simpl.
    split; [reflexivity | split; [reflexivity | auto]].
  - (* sendCommand *)
    destruct (sendCommand_total t W os command c w)
      as (b & c1 & w1 & -> & Hsame & _).
    destruct (same_but_error_flag c c1 Hsame) as [Hflag Hs].
    unfold ret. eexists _, _, _; split; [reflexivity|]. simpl.
    split; [assumption | split; [assumption|]].
    now apply connected_to_serial_same.
  - (* receiveResponse *)
    destruct (receiveResponse_total t W os timeoutMs c w)
      as (bytes & c1 & w1 & -> & Hsame & _).
    destruct (same_but_error_flag c c1 Hsame) as [Hflag Hs].
    unfold ret. eexists _, _, _; split; [reflexivity|]. simpl.
    split; [assumption | split; [assumption|]].
    now apply connected_to_serial_same.
  - (* sendCommandAndReceive *)
    destruct (sendCommandAndReceive_total t W os command timeoutMs c w)
      as (bytes & c1 & w1 & -> & Hsame).
    destruct (same_but_error_flag c c1 Hsame) as [Hflag Hs].
    unfold ret. eexists _, _, _; split; [reflexivity|]. simpl.
    split; [assumption | split; [assumption|]].
    now apply connected_to_serial_same.
  - (* getLastError *)
    unfold getLastError, this, ret. simpl.
    eexists _, _, _; split; [reflexivity|]. simpl.
    split; [reflexivity | split; [reflexivity | auto]].
Qed.

Lemma latest_connect_implies_connected (newest_first : list Event) :
  latest_connect_succeeded newest_first = true ->
  connected_since false newest_first = true.
Proof.
  induction newest_first as [|e older IH]; simpl; [discriminate|].
  destruct (is_disconnect e); [discriminate|].
  destruct (is_connect e) eqn:Hc.
  - intros ->. reflexivity.
  - intros H. destruct (connect_succeeded e); [reflexivity | now apply IH].
Qed.

Lemma connected_since_app (before : bool) (newer older : list Event) :
  connected_since before (newer ++ older)
  = connected_since (connected_since before older) newer.
Proof.
  induction newer as [|e newer IH]; simpl; [reflexivity|].
  destruct (is_disconnect e); [reflexivity|].
  destruct (connect_succeeded e); [reflexivity | exact IH].
Qed.

(** A sequence of calls: every call returns, the flag is what the history
    says, and the object stays well formed. *)
Lemma run_invariant (t : Target) (W : Type) (os : OS W) (calls : list Call) :
  forall (c : Conn) (w : W),
    connected_to_serial t c ->
    let r := run t os calls (c, w) in
    m_isConnected (fst (snd r))
    = connected_since (m_isConnected c) (rev (fst r))
    /\ connected_to_serial t (fst (snd r))
    /\ m_connectionString (fst (snd r)) = m_connectionString c
    /\ Forall returned (fst r).
Proof.
  induction calls as [|call rest IH]; intros c w Hwf; cbn zeta.
  - simpl. split; [reflexivity | split; [assumption | split; [reflexivity | constructor]]].
  - cbn [run].
    destruct (invoke_total t W os call c w)
      as (v & c1 & w1 & -> & Hflag & Hs & Hkeep).
    specialize (IH c1 w1 (Hkeep Hwf)). cbn zeta in IH.
    destruct (run t os rest (c1, w1)) as [h st2].
    destruct IH as (IHflag & IHwf & IHs & IHret).
    cbn [fst snd rev] in *.
    split; [|split; [|split]].
    + rewrite connected_since_app, IHflag. f_equal. exact Hflag.
    + exact IHwf.
    + congruence.
    + constructor; [now exists v | assumption].
Qed.

Lemma constructor_well_formed (t : Target) (connectionString : string) :
  connected_to_serial t (constructor connectionString).
Proof. unfold connected_to_serial. simpl. discriminate. Qed.

Lemma reachable_well_formed (t : Target) (W : Type) (os : OS W) (st : St W) :
  reachable t os st -> connected_to_serial t (fst st).
Proof.
  intros (s & w & calls & ->).
  apply (run_invariant t W os calls (constructor s) w
           (constructor_well_formed t s)).
Qed.

(** *** [std::stoul] on a run of hexadecimal digits *)

Lemma hex_run_append (digits rest : string) :
  all_hex digits = true -> stops_hex rest = true ->
  forall acc : Z, Stoul.hex_run acc (digits ++ rest) = Stoul.hex_run acc digits.
Proof.
  intros Hd Hr. induction digits as [|c digits IH]; intros acc.
  - simpl. destruct rest as [|x rest]; [reflexivity|].
    simpl in *. unfold Stoul.is_hex in Hr.
    destruct (Stoul.hex_digit x); [discriminate | reflexivity].
  - simpl in *. apply andb_prop in Hd as [_ Hd].
    destruct (Stoul.hex_digit c); [apply (IH Hd) | reflexivity].
Qed.

Lemma hex_digit_range (c : ascii) (d : Z) :
  Stoul.hex_digit c = Some d -> 0 <= d < 16.
Proof.
  unfold Stoul.hex_digit.
  generalize (Z.of_N (N_of_ascii c)); intros n.
  destruct ((48 <=? n) && (n <=? 57)) eqn:E1;
    [|destruct ((97 <=? n) && (n <=? 102)) eqn:E2;
      [|destruct ((65 <=? n) && (n <=? 70)) eqn:E3]];
    intros H; try discriminate H; injection H as <-;
    match goal with
    | E : _ && _ = true |- _ =>
        apply andb_prop in E as [Ea Eb];
        apply Z.leb_le in Ea; apply Z.leb_le in Eb
    end; lia.
Qed.

Lemma hex_run_nonneg (s : string) :
  forall acc : Z, 0 <= acc -> 0 <= Stoul.hex_run acc s.
Proof.
  induction s as [|c s IH]; intros acc Hacc; cbn [Stoul.hex_run];
    [assumption|].
  destruct (Stoul.hex_digit c) as [d|] eqn:Ed; [|assumption].
  apply IH. pose proof (hex_digit_range c d Ed). lia.
Qed.

(** A hexadecimal digit is neither white space nor a sign. *)
Lemma hex_digit_plain (c : ascii) (r : string) :
  Stoul.is_hex c = true ->
  Stoul.isspace c = false /\ Stoul.take_sign (String c r) = (false, String c r).
Proof.
  destruct c as [[] [] [] [] [] [] [] []]; intros H;
    try discriminate H; split; reflexivity.
Qed.

Lemma stoul16_prefix (t : Target) (digits rest : string) :
  digits <> "" ->
  all_hex digits = true ->
  stops_hex rest = true ->
  Stoul.skip_0x (digits ++ rest) = digits ++ rest ->
  hex_value digits <= ULONG_MAX t ->
  Stoul.stoul16 t (digits ++ rest) = Ret (hex_value digits).
Proof.
  intros Hne Hd Hr H0x Hmax.
  destruct digits as [|c digits]; [contradiction|].
  pose proof Hd as Hc. simpl in Hc. apply andb_prop in Hc as [Hc _].
  destruct (hex_digit_plain c (digits ++ rest) Hc) as [Hsp Hsign].
  unfold Stoul.stoul16, Stoul.strtoul16.
  change (String c digits ++ rest) with (String c (digits ++ rest)) in *.
  cbn [Stoul.skip_space]. rewrite Hsp, Hsign, H0x, Hc.
  change (String c (digits ++ rest)) with (String c digits ++ rest).
  rewrite (hex_run_append _ _ Hd Hr).
  fold (hex_value (String c digits)).
  destruct (ULONG_MAX t <? hex_value (String c digits)) eqn:E;
    [apply Z.ltb_lt in E; lia | reflexivity].
Qed.

Lemma stoul16_overflow (t : Target) (digits rest : string) :
  digits <> "" ->
  all_hex digits = true ->
  stops_hex rest = true ->
  Stoul.skip_0x (digits ++ rest) = digits ++ rest ->
  ULONG_MAX t < hex_value digits ->
  Stoul.stoul16 t (digits ++ rest) = Throw std_out_of_range.
Proof.
  intros Hne Hd Hr H0x Hmax.
  destruct digits as [|c digits]; [contradiction|].
  pose proof Hd as Hc. simpl in Hc. apply andb_prop in Hc as [Hc _].
  destruct (hex_digit_plain c (digits ++ rest) Hc) as [Hsp Hsign].
  unfold Stoul.stoul16, Stoul.strtoul16.
  change (String c digits ++ rest) with (String c (digits ++ rest)) in *.
  cbn [Stoul.skip_space]. rewrite Hsp, Hsign, H0x, Hc.
  change (String c (digits ++ rest)) with (String c digits ++ rest).
  rewrite (hex_run_append _ _ Hd Hr).
  fold (hex_value (String c digits)).
  destruct (ULONG_MAX t <? hex_value (String c digits)) eqn:E;
    [reflexivity | apply Z.ltb_ge in E; lia].
Qed.

(** In a string of digits nothing follows a leading zero but digits. *)
Lemma all_hex_no_0x (s : string) :
  all_hex s = true -> Stoul.skip_0x s = s.
Proof.
  destruct s as [|c0 [|x [|h r]]]; intros H; unfold Stoul.skip_0x.
  - reflexivity.
  - destruct c0 as [[] [] [] [] [] [] [] []]; reflexivity.
  - destruct c0 as [[] [] [] [] [] [] [] []]; reflexivity.
  - simpl in H.
    apply andb_prop in H as [_ H]. apply andb_prop in H as [Hx _].
    destruct c0 as [[] [] [] [] [] [] [] []]; try reflexivity.
    destruct x as [[] [] [] [] [] [] [] []]; try discriminate Hx; reflexivity.
Qed.

Lemma append_empty (s : string) : s ++ "" = s.
Proof. induction s as [|c s IH]; simpl; [reflexivity | now rewrite IH]. Qed.

Lemma ULONG_MAX_16 (t : Target) : 65535 <= ULONG_MAX t.
Proof. destruct t; vm_compute; discriminate. Qed.

(** A [hex16] text is read in full. *)
Lemma stoul16_valid (t : Target) (s : string) :
  valid_hex16 s = true ->
  Stoul.stoul16 t s = Ret (hex_value s) /\ to_uint16 (hex_value s) = hex_value s.
Proof.
  unfold valid_hex16. intros H.
  apply andb_prop in H as [H Hle]. apply andb_prop in H as [Hne Hd].
  apply Z.leb_le in Hle.
  split.
  - rewrite <- (append_empty s) at 1.
    apply stoul16_prefix.
    + destruct s; [discriminate Hne | discriminate].
    + assumption.
    + reflexivity.
    + rewrite append_empty. now apply all_hex_no_0x.
    + pose proof (ULONG_MAX_16 t). lia.
  - unfold to_uint16. apply Z.mod_small. split; [apply hex_run_nonneg; lia|].
    change (2 ^ 16) with 65536. lia.
Qed.

(** The parser on ["USB:" ++ a ++ ":" ++ b], where [a] has no colon. *)
Lemma parse_usb_halves (t : Target) (W : Type) (c : Conn) (w : W)
  (a b : string) :
  m_connectionString c = "USB:" ++ a ++ ":" ++ b ->
  StdString.find_char ":" a = None ->
  parseConnectionString t (c, w)
  = let c0 := set_m_connectionType USB c in
    match Stoul.stoul16 t a with
    | Throw _ => (Ret false, (set_m_lastError Msg.bad_vid_pid c0, w))
    | Ret vid =>
        let c1 := set_m_vid (to_uint16 vid) c0 in
        match Stoul.stoul16 t b with
        | Throw _ => (Ret false, (set_m_lastError Msg.bad_vid_pid c1, w))
        | Ret pid => (Ret true, (set_m_pid (to_uint16 pid) c1, w))
        end
    end.
Proof.
  intros Hs Ha. rewrite (parse_usb t W c w (a ++ ":" ++ b) Hs).
  unfold usb_branch.
  change (a ++ ":" ++ b) with (a ++ String ":" b).
  rewrite (find_char_append ":" a b Ha).
  rewrite first_half_append, second_half_append. reflexivity.
Qed.

(* ================================================================= *)
(** * The specification against the code *)

(** C1.  The parser on the five test vectors: ["BT:COM5"] gives the serial
    descriptor with port ["COM5"]; ["USB:1234:5678"] the USB descriptor
    with vendor 0x1234 and product 0x5678; ["COM3"] the serial descriptor
    with port ["COM3"], by the legacy rule since neither prefix matches;
    ["USB:ZZZZ:0001"] fails with an invalid-format message; the empty
    string fails with the empty-descriptor message, and nothing but the
    last error of the object is touched, on every target. *)
Theorem parse_test_vectors (t : Target) :
  parse t "BT:COM5" = Parsed (Serial "COM5")
  /\ parse t "USB:1234:5678" = Parsed (Usb 0x1234 0x5678)
  /\ parse t "COM3" = Parsed (Serial "COM3")
  /\ String.prefix "BT:" "COM3" = false
  /\ String.prefix "USB:" "COM3" = false
  /\ parse t "USB:ZZZZ:0001" = Failed (Some InvalidFormat)
  /\ parse t "" = Failed (Some EmptyDescriptor)
  /\ (forall (W : Type) (w : W),
         parseConnectionString t (constructor "", w)
         = (Ret false, (set_m_lastError Msg.empty_string (constructor ""), w))).
Proof.
  repeat split; try (destruct t; vm_compute; reflexivity).
Qed.

(** C6.  [connect()] on a connected object returns [false] with the
    message of [AlreadyConnected]; the object is the one before with only
    its last error replaced (so the state flag, the descriptor members and
    the handles are the ones before), and the world is untouched. *)
Theorem connect_when_connected (t : Target) (W : Type) (os : OS W)
  (c : Conn) (w : W) :
  m_isConnected c = true ->
  connect t os (c, w) = (Ret false, (set_m_lastError Msg.already_connected c, w))
  /\ error_kind Msg.already_connected = Some AlreadyConnected
  /\ m_isConnected (set_m_lastError Msg.already_connected c) = true.
Proof.
  intros Hc. split; [now apply connect_connected|]. split; [reflexivity|].
  exact Hc.
Qed.

Lemma connect_when_connected_witness :
  m_isConnected (fst connected_windows) = true
  /\ connect Windows Loopback.os (fst connected_windows, snd connected_windows)
     = (Ret false,
        (set_m_lastError Msg.already_connected (fst connected_windows),
         snd connected_windows))
  /\ m_serialHandle (fst connected_windows) = 4.
Proof.
  split; [reflexivity|]. split; [|reflexivity].
  apply (connect_when_connected Windows Loopback.World Loopback.os).
  reflexivity.
Defined.

(** C10.  [receiveResponse] always returns a byte vector.  On a
    disconnected object it returns the empty vector, and only the last
    error tells: the object is otherwise the same and the world is
    untouched.  The empty vector is also what a connected object returns
    when nothing arrives before the timeout, and then no error is
    recorded. *)
Theorem receiveResponse_disconnected_is_empty (t : Target) (W : Type)
  (os : OS W) (timeoutMs : Z) (c : Conn) (w : W) :
  (exists (bytes : list byte) (st : St W),
      receiveResponse t os timeoutMs (c, w) = (Ret bytes, st))
  /\ (m_isConnected c = false ->
      receiveResponse t os timeoutMs (c, w)
      = (Ret [], (set_m_lastError Msg.not_connected_to_device c, w)))
  /\ (m_isConnected c = true ->
      m_connectionType c = BLUETOOTH ->
      no_pending_data t os c ->
      exists w' : W, receiveResponse t os timeoutMs (c, w) = (Ret [], (c, w'))).
Proof.
  split; [|split].
  - destruct (receiveResponse_total t W os timeoutMs c w)
      as (bytes & c' & w' & H & _).
    now exists bytes, (c', w').
  - intros Hc. unfold receiveResponse. unfold_monad. simpl. now rewrite Hc.
  - intros Hc Hty Hquiet. unfold receiveResponse, no_pending_data in *.
    unfold_monad. simpl. rewrite Hc. simpl. rewrite Hty. simpl.
    destruct (_WIN32 t); simpl.
    + match goal with
      | |- context [ReadFile os ?h ?n ?w1] =>
          destruct (Hquiet w1) as [buffer Hread]; revert Hread;
          destruct (fst (ReadFile os h n w1)) as [[ok n'] b']
      end.
      intros Hread. injection Hread as -> -> ->. simpl.
      eexists. reflexivity.
    + destruct (fst (sys_tcgetattr os (m_serialFd c) w)) as [status tty].
      destruct (status =? 0); simpl;
        match goal with
        | |- context [sys_read os ?h ?n ?w1] =>
            pose proof (Hquiet w1) as Hread; revert Hread;
            destruct (fst (sys_read os h n w1)) as [n' b']
        end;
        simpl; intros ->; simpl; eexists; reflexivity.
Qed.

Lemma receiveResponse_disconnected_is_empty_witness :
  m_isConnected (constructor "BT:COM5") = false
  /\ receiveResponse PosixLP64 silent_os 1000
       (constructor "BT:COM5", Loopback.quiet)
     = (Ret [],
        (set_m_lastError Msg.not_connected_to_device (constructor "BT:COM5"),
         Loopback.quiet))
  /\ m_isConnected (fst connected_posix) = true
  /\ m_connectionType (fst connected_posix) = BLUETOOTH
  /\ no_pending_data PosixLP64 silent_os (fst connected_posix)
  /\ exists w' : Loopback.World,
      receiveResponse PosixLP64 silent_os 1000
        (fst connected_posix, snd connected_posix)
      = (Ret [], (fst connected_posix, w')).
Proof.
  assert (Hquiet : no_pending_data PosixLP64 silent_os (fst connected_posix))
    by (intros w; reflexivity).
  split; [reflexivity|].
  destruct (receiveResponse_disconnected_is_empty PosixLP64 Loopback.World
              silent_os 1000 (constructor "BT:COM5") Loopback.quiet)
    as (_ & Hdisc & _).
  split; [apply Hdisc; reflexivity|].
  split; [reflexivity|]. split; [reflexivity|]. split; [exact Hquiet|].
  destruct (receiveResponse_disconnected_is_empty PosixLP64 Loopback.World
              silent_os 1000 (fst connected_posix) (snd connected_posix))
    as (_ & _ & Hconn).
  exact (Hconn eq_refl eq_refl Hquiet).
Defined.

(** C5.  [disconnect()] on a connected object returns [true], clears the
    flag and empties the last error.  On an object that a sequence of
    calls can produce, the serial handle was open, the system is asked to
    close it and the member is invalidated; a second [disconnect()] then
    returns [false] with the message of [NotConnected] and changes nothing
    else, neither in the object nor in the world.  Whatever the first
    call did, the second one returns normally with that message. *)
Theorem disconnect_then_disconnect (t : Target) (W : Type) (os : OS W)
  (c : Conn) (w : W) :
  m_isConnected c = true ->
  (exists (c' : Conn) (w' : W),
      disconnect t os (c, w) = (Ret true, (c', w'))
      /\ m_isConnected c' = false
      /\ m_lastError c' = "")
  /\ (reachable t os (c, w) ->
      let c1 := set_m_lastError ""
                  (set_m_isConnected false (with_closed_handle t c)) in
      let w1 := close_handle t os (serial_handle t c) w in
      disconnect t os (c, w) = (Ret true, (c1, w1))
      /\ handle_open t (serial_handle t c) = true
      /\ handle_open t (serial_handle t c1) = false
      /\ disconnect t os (c1, w1)
         = (Ret false, (set_m_lastError Msg.not_connected c1, w1)))
  /\ error_kind Msg.not_connected = Some NotConnected
  /\ (forall st : St W,
         disconnect t os (snd (disconnect t os st))
         = (Ret false,
            (set_m_lastError Msg.not_connected
               (fst (snd (disconnect t os st))),
             snd (snd (disconnect t os st))))).
Proof.
  intros Hc.
  assert (Hsecond : forall (c' : Conn) (w' : W),
             m_isConnected c' = false ->
             disconnect t os (c', w')
             = (Ret false, (set_m_lastError Msg.not_connected c', w'))).
  { intros c' w' Hd. unfold disconnect. unfold_monad. simpl. now rewrite Hd. }
  split; [|split; [|split; [reflexivity|]]].
  - destruct (disconnect_total t W os c w)
      as (b & c' & w' & Heq & Hb & Hflag & _ & Herr).
    rewrite Hc in Hb. subst b. exists c', w'.
    split; [exact Heq | split; assumption].
  - intros Hreach c1 w1.
    destruct (reachable_well_formed t W os (c, w) Hreach Hc) as [Hty Hopen].
    simpl in Hty, Hopen.
    split; [|split; [exact Hopen | split]].
    + unfold disconnect. unfold bind at 1. unfold this at 1. simpl.
      rewrite Hc. simpl. unfold bind at 1.
      rewrite (cleanupConnection_closes t W os c w Hty Hopen).
      reflexivity.
    + unfold c1, handle_open, serial_handle, with_closed_handle.
      destruct (_WIN32 t); reflexivity.
    + apply Hsecond. unfold c1. reflexivity.
  - intros [c' w'].
    destruct (disconnect_total t W os c' w')
      as (b & c2 & w2 & -> & _ & Hd & _).
    simpl. now apply Hsecond.
Qed.

Lemma disconnect_then_disconnect_witness :
  m_isConnected (fst connected_posix) = true
  /\ reachable PosixLP64 Loopback.os connected_posix
  /\ fst (disconnect PosixLP64 Loopback.os connected_posix) = Ret true
  /\ Loopback.served (snd (snd (disconnect PosixLP64 Loopback.os connected_posix)))
     = [Loopback.Closed 3; Loopback.Configured 3; Loopback.Opened "COM5"].
Proof.
  assert (Hreach : reachable PosixLP64 Loopback.os connected_posix).
  { exists "BT:COM5", Loopback.quiet, [CallConnect]. reflexivity. }
  split; [reflexivity|]. split; [exact Hreach|].
  destruct (disconnect_then_disconnect PosixLP64 Loopback.World Loopback.os
              (fst connected_posix) (snd connected_posix) eq_refl)
    as (_ & Hclose & _).
  destruct (Hclose Hreach) as [Hfirst _].
  change (fst connected_posix, snd connected_posix) with connected_posix
    in Hfirst.
  rewrite Hfirst. split; reflexivity.
Defined.

(** C7, as the code has it.  [sendCommandAndReceive] is [sendCommand]
    followed, only when that returned [true], by [receiveResponse]; when
    [sendCommand] fails the empty vector is returned and the object and
    world are the ones [sendCommand] left.  With an empty command no
    system call is made, so the world is untouched and [write] is not
    reached; the error recorded is [EmptyCommand] on a connected object
    and [NotConnected] on a disconnected one, whose check comes first. *)
Theorem sendCommandAndReceive_composes (t : Target) (W : Type) (os : OS W)
  (command : list byte) (timeoutMs : Z) (c : Conn) (w : W) :
  sendCommandAndReceive t os command timeoutMs (c, w)
  = match sendCommand t os command (c, w) with
    | (Ret true, st) => receiveResponse t os timeoutMs st
    | (Ret false, st) => (Ret [], st)
    | (Throw e, st) => (Throw e, st)
    end
  /\ sendCommandAndReceive t os [] timeoutMs (c, w)
     = (Ret [],
        (set_m_lastError
           (if m_isConnected c then Msg.command_is_empty
            else Msg.not_connected_to_device) c,
         w))
  /\ error_kind Msg.command_is_empty = Some EmptyCommand
  /\ error_kind Msg.not_connected_to_device = Some NotConnected.
Proof.
  split; [|split; [|split; reflexivity]].
  - unfold sendCommandAndReceive. unfold bind at 1.
    destruct (sendCommand t os command (c, w)) as [[[|]|e] st]; reflexivity.
  - unfold sendCommandAndReceive, sendCommand. unfold_monad. simpl.
    destruct (m_isConnected c); reflexivity.
Qed.

(** C7, as stated, fails on a disconnected object: the empty command is
    answered with the message of [NotConnected], not of [EmptyCommand]. *)
Lemma sendCommandAndReceive_empty_disconnected :
  let r := sendCommandAndReceive PosixLP64 Loopback.os [] 1000
             (constructor "BT:COM5", Loopback.quiet) in
  fst r = Ret []
  /\ m_lastError (fst (snd r)) = "Not connected to device"
  /\ error_kind (m_lastError (fst (snd r))) = Some NotConnected
  /\ error_kind (m_lastError (fst (snd r))) <> Some EmptyCommand
  /\ Loopback.wrote_something (snd (snd r)) = false.
Proof.
  vm_compute. repeat split; discriminate.
Qed.

(** C8, as the code has it.  [connect()] on a disconnected object whose
    connection string starts with ["USB:"] never succeeds, whatever is
    attached to the bus: it returns [false] and the object stays
    disconnected.  When the string parses, a POSIX build reports that
    libusb is required; a Windows build reports that the enumeration
    failed or else that the device was not found, with the identifiers in
    decimal.  A failed claim of the interface is never reported. *)
Theorem usb_connect_never_succeeds (t : Target) (W : Type) (os : OS W)
  (c : Conn) (w : W) (usbParams : string) :
  m_isConnected c = false ->
  m_connectionString c = "USB:" ++ usbParams ->
  exists (c' : Conn) (w' : W),
    connect t os (c, w) = (Ret false, (c', w'))
    /\ m_isConnected c' = false
    /\ m_connectionType c' = USB
    /\ error_kind (m_lastError c') <> Some InterfaceClaimFailed
    /\ (fst (parseConnectionString t (c, w)) = Ret true ->
        m_lastError c'
        = if _WIN32 t then
            match fst (SetupDiGetClassDevs os w) with
            | None => Msg.enumerate_usb
            | Some _ =>
                "USB device not found (VID: " ++ StdString.to_string (m_vid c')
                ++ ", PID: " ++ StdString.to_string (m_pid c') ++ ")"
            end
          else Msg.needs_libusb).
Proof.
  intros Hd Hs. unfold connect. unfold bind at 1. unfold this at 1. simpl.
  rewrite Hd. unfold bind at 1.
  rewrite (parse_usb t W c w usbParams Hs). unfold usb_branch.
  destruct (StdString.find_char ":" usbParams) as [n|];
    [destruct (Stoul.stoul16 t (first_half n usbParams)) as [vid|e1];
     [destruct (Stoul.stoul16 t (second_half n usbParams)) as [pid|e2]|]|];
    simpl.
  2-4: unfold ret; eexists _, _; (split; [reflexivity|]); simpl;
       repeat split; try assumption; discriminate.
  unfold bind at 1. unfold this at 1. simpl. unfold bind at 1.
  rewrite initializeUSB_fails.
  destruct (_WIN32 t); [destruct (fst (SetupDiGetClassDevs os w))|];
    unfold_monad; simpl;
    eexists _, _; (split; [reflexivity|]); simpl;
    repeat split; try assumption; discriminate.
Qed.

Lemma usb_connect_never_succeeds_witness :
  m_isConnected (constructor "USB:1234:5678") = false
  /\ m_connectionString (constructor "USB:1234:5678") = "USB:" ++ "1234:5678"
  /\ exists (c' : Conn) (w' : Loopback.World),
      connect Windows Loopback.os
        (constructor "USB:1234:5678", Loopback.with_device 0x1234 0x5678)
      = (Ret false, (c', w'))
      /\ m_isConnected c' = false.
Proof.
  split; [reflexivity|]. split; [reflexivity|].
  destruct (usb_connect_never_succeeds Windows Loopback.World Loopback.os
              (constructor "USB:1234:5678")
              (Loopback.with_device 0x1234 0x5678) "1234:5678"
              eq_refl eq_refl)
    as (c' & w' & Hconnect & Hflag & _).
  exists c', w'. split; assumption.
Defined.

(** C8, as stated, fails with a matching claimable device attached:
    [connect()] still returns [false]; a POSIX build reports neither of
    the two errors, and a Windows build reports the device as not found
    although the enumeration lists it. *)
Lemma usb_connect_fails_with_device_attached :
  let w := Loopback.with_device 0x1234 0x5678 in
  let posix := connect PosixLP64 Loopback.os (constructor "USB:1234:5678", w) in
  let windows := connect Windows Loopback.os (constructor "USB:1234:5678", w) in
  matching_claimable_device Loopback.os w 0x1234 0x5678 = true
  /\ fst (SetupDiGetClassDevs Loopback.os w)
     = Some [mkUsbDevice 0x1234 0x5678 true]
  /\ parse PosixLP64 "USB:1234:5678" = Parsed (Usb 0x1234 0x5678)
  /\ fst posix = Ret false
  /\ m_isConnected (fst (snd posix)) = false
  /\ m_lastError (fst (snd posix)) = Msg.needs_libusb
  /\ error_kind (m_lastError (fst (snd posix))) = None
  /\ fst windows = Ret false
  /\ m_isConnected (fst (snd windows)) = false
  /\ m_lastError (fst (snd windows))
     = "USB device not found (VID: 4660, PID: 22136)"
  /\ error_kind (m_lastError (fst (snd windows))) = Some DeviceNotFound.
Proof.
  vm_compute. repeat split.
Qed.

(** *** Histories *)

Lemma connect_succeeded_not_disconnect (e : Event) :
  connect_succeeded e = true -> is_disconnect e = false.
Proof. destruct e as [[] o]; simpl; try discriminate; reflexivity. Qed.

Lemma some_connect_holds_iff (h : list Event) :
  some_connect_holds h = true <->
  exists (older : list Event) (e : Event) (newer : list Event),
    h = (older ++ e :: newer)%list
    /\ connect_succeeded e = true
    /\ forallb (fun x => negb (is_disconnect x)) newer = true.
Proof.
  unfold some_connect_holds.
  induction h as [|x h IH] using rev_ind.
  - simpl. split; [discriminate|].
    intros (older & e & newer & H & _). destruct older; discriminate.
  - rewrite rev_app_distr. simpl.
    destruct (is_disconnect x) eqn:Hx.
    + split; [discriminate|].
      intros (older & e & newer & H & He & Hn).
      destruct newer as [|y newer] using rev_ind.
      * apply app_inj_tail in H as [_ <-].
        apply connect_succeeded_not_disconnect in He. congruence.
      * clear IHnewer. rewrite app_comm_cons, app_assoc in H.
        apply app_inj_tail in H as [_ <-].
        rewrite forallb_app in Hn. simpl in Hn. rewrite Hx in Hn.
        rewrite andb_false_r in Hn. discriminate.
    + destruct (connect_succeeded x) eqn:Hok.
      * split; [|reflexivity]. intros _. exists h, x, []. repeat split; assumption.
      * rewrite IH. split.
        -- intros (older & e & newer & -> & He & Hn).
           exists older, e, (newer ++ [x])%list.
           rewrite <- app_assoc. split; [reflexivity|]. split; [assumption|].
           rewrite forallb_app, Hn. simpl. now rewrite Hx.
        -- intros (older & e & newer & H & He & Hn).
           destruct newer as [|y newer] using rev_ind.
           ++ apply app_inj_tail in H as [_ <-]. congruence.
           ++ clear IHnewer. rewrite app_comm_cons, app_assoc in H.
              apply app_inj_tail in H as [-> <-].
              exists older, e, newer. split; [reflexivity|]. split; [assumption|].
              rewrite forallb_app in Hn. now apply andb_prop in Hn as [Hn _].
Qed.

(** C2, as the code has it.  After any sequence of calls on a freshly
    constructed object, on any system: every call returned; the object is
    connected exactly when some [connect()] succeeded and no
    [disconnect()] was called after it (a later [connect()] that is
    refused because the object is connected changes nothing);
    [sendCommand] returns [true], and [receiveResponse] returns data,
    only then; otherwise both leave the world untouched and record the
    message of [NotConnected], [sendCommand] returning [false] and
    [receiveResponse] the empty vector. *)
Theorem send_receive_only_while_connected (t : Target) (W : Type) (os : OS W)
  (connectionString : string) (w : W) (calls : list Call) :
  let r := run t os calls (constructor connectionString, w) in
  let h := fst r in
  let c := fst (snd r) in
  let w' := snd (snd r) in
  Forall returned h
  /\ m_isConnected c = some_connect_holds h
  /\ (forall command : list byte,
         fst (sendCommand t os command (c, w')) = Ret true ->
         some_connect_holds h = true)
  /\ (forall (timeoutMs : Z) (bytes : list byte),
         fst (receiveResponse t os timeoutMs (c, w')) = Ret bytes ->
         bytes <> [] ->
         some_connect_holds h = true)
  /\ (some_connect_holds h = false ->
      forall (command : list byte) (timeoutMs : Z),
        sendCommand t os command (c, w')
        = (Ret false, (set_m_lastError Msg.not_connected_to_device c, w'))
        /\ receiveResponse t os timeoutMs (c, w')
           = (Ret [], (set_m_lastError Msg.not_connected_to_device c, w')))
  /\ error_kind Msg.not_connected_to_device = Some NotConnected.
Proof.
  intros r h c w'.
  destruct (run_invariant t W os calls (constructor connectionString) w
              (constructor_well_formed t connectionString))
    as (Hflag & _ & _ & Hret).
  fold r in Hflag, Hret. fold h in Hflag, Hret. fold c in Hflag.
  change (m_isConnected (constructor connectionString)) with false in Hflag.
  fold (some_connect_holds h) in Hflag.
  split; [exact Hret|]. split; [exact Hflag|].
  split; [|split; [|split; [|reflexivity]]].
  - intros command Hsend.
    destruct (sendCommand_total t W os command c w')
      as (b & c1 & w1 & Heq & _ & Htrue & _).
    rewrite Heq in Hsend. simpl in Hsend. injection Hsend as ->.
    rewrite <- Hflag. now apply Htrue.
  - intros timeoutMs bytes Hrecv Hne.
    destruct (receiveResponse_total t W os timeoutMs c w')
      as (bytes1 & c1 & w1 & Heq & _ & Hdata).
    rewrite Heq in Hrecv. simpl in Hrecv. injection Hrecv as ->.
    rewrite <- Hflag. now apply Hdata.
  - intros Hnot command timeoutMs. rewrite <- Hflag in Hnot.
    split.
    + unfold sendCommand. unfold_monad. simpl. now rewrite Hnot.
    + unfold receiveResponse. unfold_monad. simpl. now rewrite Hnot.
Qed.

Lemma send_receive_only_while_connected_witness :
  let r := run PosixLP64 Loopback.os [CallConnect; CallDisconnect]
             (constructor "BT:COM5", Loopback.quiet) in
  some_connect_holds (fst r) = false
  /\ sendCommand PosixLP64 Loopback.os [x01] (fst (snd r), snd (snd r))
     = (Ret false,
        (set_m_lastError Msg.not_connected_to_device (fst (snd r)),
         snd (snd r))).
Proof.
  split; [reflexivity|].
  destruct (send_receive_only_while_connected PosixLP64 Loopback.World
              Loopback.os "BT:COM5" Loopback.quiet
              [CallConnect; CallDisconnect])
    as (_ & _ & _ & _ & Hnot & _).
  destruct (Hnot eq_refl [x01] 1000) as [Hsend _].
  exact Hsend.
Defined.

(** C2, as stated, fails when a [connect()] is refused on a connected
    object: the most recent [connect()] returned [false], no
    [disconnect()] followed, and [sendCommand] succeeds. *)
Lemma send_succeeds_after_refused_connect :
  let r := run PosixLP64 Loopback.os [CallConnect; CallConnect]
             (constructor "BT:COM5", Loopback.quiet) in
  fst r = [(CallConnect, Ret (VBool true)); (CallConnect, Ret (VBool false))]
  /\ m_lastError (fst (snd r)) = "Already connected"
  /\ most_recent_connect_holds (fst r) = false
  /\ fst (sendCommand PosixLP64 Loopback.os [x01] (snd r)) = Ret true.
Proof.
  vm_compute. repeat split.
Qed.

(** C9, as the code has it.  In the USB branch each half goes through
    [std::stoul] in base 16 and the result is cut to 16 bits: the parse
    succeeds exactly when both calls return, with the two values modulo
    2^16, and fails as an invalid format otherwise.  [std::stoul] reads a
    prefix: on a non-empty run of hexadecimal digits followed by any text
    that does not start with a digit (and with no ["0x"] in front) it
    returns the value of the run when that fits an [unsigned long], and
    throws [std::out_of_range] when it does not.  So ["USB:12G4:5678"]
    parses with vendor 0x12, and ["USB:12345:5678"] with vendor
    0x12345 mod 2^16 = 0x2345, on every target.  White space, a sign and
    ["0x"] in front of the digits are consumed: ["USB: +12:0x5678"] parses
    with vendor 0x12 and product 0x5678. *)
Theorem usb_halves_read_by_stoul (t : Target) :
  (forall a b : string,
      StdString.find_char ":" a = None ->
      parse t ("USB:" ++ a ++ ":" ++ b)
      = match Stoul.stoul16 t a, Stoul.stoul16 t b with
        | Ret vid, Ret pid => Parsed (Usb (vid mod 2 ^ 16) (pid mod 2 ^ 16))
        | _, _ => Failed (Some InvalidFormat)
        end)
  /\ (forall digits rest : string,
         digits <> "" ->
         all_hex digits = true ->
         stops_hex rest = true ->
         Stoul.skip_0x (digits ++ rest) = digits ++ rest ->
         Stoul.stoul16 t (digits ++ rest)
         = if hex_value digits <=? ULONG_MAX t
           then Ret (hex_value digits)
           else Throw std_out_of_range)
  /\ parse t "USB:12G4:5678" = Parsed (Usb 0x12 0x5678)
  /\ parse t "USB:12345:5678" = Parsed (Usb 0x2345 0x5678)
  /\ parse t "USB: +12:0x5678" = Parsed (Usb 0x12 0x5678)
  /\ 0x12345 mod 2 ^ 16 = 0x2345.
Proof.
  split; [|split; [|split; [|split; [|split; [|reflexivity]]]]].
  - intros a b Ha. unfold parse.
    rewrite (parse_usb_halves t unit (constructor ("USB:" ++ a ++ ":" ++ b))
               tt a b eq_refl Ha).
    cbv zeta.
    destruct (Stoul.stoul16 t a) as [vid|e1];
      [destruct (Stoul.stoul16 t b) as [pid|e2]|]; reflexivity.
  - intros digits rest Hne Hd Hr H0x.
    destruct (hex_value digits <=? ULONG_MAX t) eqn:E.
    + apply stoul16_prefix; try assumption. now apply Z.leb_le.
    + apply stoul16_overflow; try assumption. now apply Z.leb_gt.
  - destruct t; vm_compute; reflexivity.
  - destruct t; vm_compute; reflexivity.
  - destruct t; vm_compute; reflexivity.
Qed.

Lemma usb_halves_read_by_stoul_witness :
  StdString.find_char ":" "12G4" = None
  /\ "12" <> ""
  /\ all_hex "12" = true
  /\ stops_hex "G4" = true
  /\ Stoul.skip_0x ("12" ++ "G4") = "12" ++ "G4"
  /\ Stoul.stoul16 Windows ("12" ++ "G4")
     = (if hex_value "12" <=? ULONG_MAX Windows
        then Ret (hex_value "12")
        else Throw std_out_of_range)
  /\ parse Windows ("USB:" ++ "12G4" ++ ":" ++ "5678")
     = match Stoul.stoul16 Windows "12G4", Stoul.stoul16 Windows "5678" with
       | Ret vid, Ret pid => Parsed (Usb (vid mod 2 ^ 16) (pid mod 2 ^ 16))
       | _, _ => Failed (Some InvalidFormat)
       end.
Proof.
  destruct (usb_halves_read_by_stoul Windows) as (Hparse & Hprefix & _).
  assert (Hne : "12" <> "") by discriminate.
  split; [reflexivity|]. split; [exact Hne|]. split; [reflexivity|].
  split; [reflexivity|]. split; [reflexivity|].
  split.
  - exact (Hprefix "12" "G4" Hne eq_refl eq_refl eq_refl).
  - exact (Hparse "12G4" "5678" eq_refl).
Defined.

(** C9, as stated, fails in two ways.  A half whose digits exceed
    [ULONG_MAX] has a value above 0xFFFF and is rejected as an invalid
    format: seventeen digits on every target, nine already where
    [unsigned long] has 32 bits.  And a half that starts with ["0x"] is not
    read by its leading digit ["0"] only: the digits after the ["x"] are
    its value. *)
Lemma usb_half_beyond_unsigned_long_rejected :
  all_hex "10000000000000000" = true
  /\ 0xFFFF < hex_value "10000000000000000"
  /\ parse PosixLP64 "USB:10000000000000000:5678" = Failed (Some InvalidFormat)
  /\ parse PosixILP32 "USB:10000000000000000:5678" = Failed (Some InvalidFormat)
  /\ parse Windows "USB:10000000000000000:5678" = Failed (Some InvalidFormat)
  /\ 0xFFFF < hex_value "100000000"
  /\ parse Windows "USB:100000000:5678" = Failed (Some InvalidFormat)
  /\ parse PosixLP64 "USB:100000000:5678" = Parsed (Usb 0 0x5678)
  /\ stops_hex "x12" = true
  /\ hex_value "0" = 0
  /\ parse PosixLP64 "USB:0x12:5678" = Parsed (Usb 0x12 0x5678).
Proof.
  vm_compute. repeat split.
Qed.

(** *** What holds of the USB grammar *)

Lemma all_hex_no_colon (s : string) :
  all_hex s = true -> StdString.find_char ":" s = None.
Proof.
  induction s as [|c s IH]; simpl; [reflexivity|].
  intros H. apply andb_prop in H as [Hc Hs]. rewrite (IH Hs).
  destruct c as [[] [] [] [] [] [] [] []]; try discriminate Hc; reflexivity.
Qed.

(** Without a colon after ["USB:"] the parse fails as an invalid format. *)
Lemma usb_missing_separator (t : Target) (usbParams : string) :
  StdString.find_char ":" usbParams = None ->
  parse t ("USB:" ++ usbParams) = Failed (Some InvalidFormat).
Proof.
  intros H. unfold parse.
  rewrite (parse_usb t unit (constructor ("USB:" ++ usbParams)) tt usbParams
             eq_refl).
  unfold usb_branch. rewrite H. reflexivity.
Qed.

(** Two [hex16] halves parse to their values. *)
Lemma usb_valid_halves (t : Target) (a b : string) :
  valid_hex16 a = true -> valid_hex16 b = true ->
  parse t ("USB:" ++ a ++ ":" ++ b) = Parsed (Usb (hex_value a) (hex_value b)).
Proof.
  intros Ha Hb.
  assert (Hcolon : StdString.find_char ":" a = None).
  { apply all_hex_no_colon. unfold valid_hex16 in Ha.
    apply andb_prop in Ha as [Ha _]. now apply andb_prop in Ha as [_ Ha]. }
  unfold parse.
  rewrite (parse_usb_halves t unit (constructor ("USB:" ++ a ++ ":" ++ b))
             tt a b eq_refl Hcolon).
  destruct (stoul16_valid t a Ha) as [-> Hva].
  destruct (stoul16_valid t b Hb) as [-> Hvb].
  cbv zeta. unfold descriptor. simpl. now rewrite Hva, Hvb.
Qed.

(** A failure on ["USB:" ++ a ++ ":" ++ b] means that a half is no
    [hex16]. *)
Lemma usb_failure_means_invalid (t : Target) (a b : string)
  (kind : option ErrorKind) :
  parse t ("USB:" ++ a ++ ":" ++ b) = Failed kind ->
  valid_hex16 a = false \/ valid_hex16 b = false.
Proof.
  intros H.
  destruct (valid_hex16 a) eqn:Ha; [|now left].
  destruct (valid_hex16 b) eqn:Hb; [|now right].
  rewrite (usb_valid_halves t a b Ha Hb) in H. discriminate.
Qed.

(** C3.  The parser accepts halves that are no 16-bit hexadecimal
    integers: ["12G4"] is read as 0x12 and ["12345"] as 0x2345, and both
    strings parse to a USB descriptor instead of failing as an invalid
    format. *)
Theorem usb_invalid_half_accepted (t : Target) :
  valid_hex16 "12G4" = false
  /\ parse t "USB:12G4:5678" = Parsed (Usb 0x12 0x5678)
  /\ valid_hex16 "12345" = false
  /\ parse t "USB:12345:5678" = Parsed (Usb 0x2345 0x5678).
Proof.
  repeat split; destruct t; vm_compute; reflexivity.
Qed.

(** *** The last error across [receiveResponse] *)

(** [receiveResponse] never empties the last error. *)
Lemma receiveResponse_never_clears (t : Target) (W : Type) (os : OS W)
  (timeoutMs : Z) (c : Conn) (w : W) :
  m_lastError c <> "" ->
  m_lastError (fst (snd (receiveResponse t os timeoutMs (c, w)))) <> "".
Proof.
  intros H. unfold receiveResponse. run_member;
    first [exact H | discriminate].
Qed.

(** A successful [sendCommand] empties it. *)
Lemma sendCommand_clears (t : Target) (W : Type) (os : OS W)
  (command : list byte) (c : Conn) (w : W) :
  fst (sendCommand t os command (c, w)) = Ret true ->
  m_lastError (fst (snd (sendCommand t os command (c, w)))) = "".
Proof.
  destruct (sendCommand_total t W os command c w)
    as (b & c' & w' & -> & _ & Htrue & _).
  simpl. intros Hb. injection Hb as ->. now apply Htrue.
Qed.

(** So does [receiveResponse] in the skeleton, on a connected object. *)
Lemma skeleton_receiveResponse_clears (W : Type) (timeoutMs : Z)
  (c : Conn) (w : W) :
  m_isConnected c = true ->
  Skeleton.receiveResponse timeoutMs (c, w) = (Ret [], (set_m_lastError "" c, w)).
Proof.
  intros H. unfold Skeleton.receiveResponse. unfold_monad. simpl.
  now rewrite H.
Qed.

(** C4.  A [receiveResponse] that returns data leaves the last error of
    an earlier failure in place: after [connect()], a complete
    [sendCommand], and a [sendCommand] of the empty command that fails,
    [receiveResponse] returns the two bytes written and [getLastError()]
    still answers ["Command is empty"], on a POSIX and on a Windows
    build. *)
Theorem receiveResponse_keeps_stale_error :
  let calls := [CallConnect;
                CallSendCommand [x01; x02];
                CallSendCommand [];
                CallReceiveResponse 1000;
                CallGetLastError] in
  let h := [(CallConnect, Ret (VBool true));
            (CallSendCommand [x01; x02], Ret (VBool true));
            (CallSendCommand [], Ret (VBool false));
            (CallReceiveResponse 1000, Ret (VBytes [x01; x02]));
            (CallGetLastError, Ret (VString "Command is empty"))] in
  fst (run PosixLP64 Loopback.os calls (constructor "BT:COM5", Loopback.quiet))
  = h
  /\ fst (run Windows Loopback.os calls (constructor "BT:COM5", Loopback.quiet))
     = h.
Proof.
  split; vm_compute; reflexivity.
Qed.

(** *** The end-to-end scenario *)

(** Against a system that accepts the port and echoes what is written:
    [connect()] succeeds, two bytes are sent and read back,
    [disconnect()] succeeds, and a later [sendCommand] is refused. *)
Example loopback_scenario (t : Target) :
  let r := run t Loopback.os
             [CallConnect;
              CallSendCommand [x01; x02];
              CallReceiveResponse 1000;
              CallDisconnect;
              CallSendCommand [x01; x02];
              CallGetLastError]
             (constructor "BT:COM5", Loopback.quiet) in
  fst r = [(CallConnect, Ret (VBool true));
           (CallSendCommand [x01; x02], Ret (VBool true));
           (CallReceiveResponse 1000, Ret (VBytes [x01; x02]));
           (CallDisconnect, Ret (VBool true));
           (CallSendCommand [x01; x02], Ret (VBool false));
           (CallGetLastError, Ret (VString "Not connected to device"))].
Proof.
  destruct t; vm_compute; reflexivity.
Qed.

(* ================================================================= *)
(** * Further properties of the code *)

(** ** The parser *)

Lemma eqb_substring_prefix (p s : string) :
  String.eqb (String.substring 0 (String.length p) s) p = String.prefix p s.
Proof.
  destruct (String.prefix p s) eqn:E.
  - apply String.prefix_correct in E. rewrite E. apply String.eqb_refl.
  - apply String.eqb_neq. intros H. apply String.prefix_correct in H.
    congruence.
Qed.

Lemma find_is_0_prefix (p s : string) :
  s <> "" -> StdString.find_is_0 p s = String.prefix p s.
Proof.
  intros Hs. destruct s as [|c s]; [contradiction|].
  unfold StdString.find_is_0, StdString.find. cbn [String.index].
  destruct (String.prefix p (String c s)); [reflexivity|].
  destruct (String.index 0 p s); reflexivity.
Qed.

(** X1.  After ["BT:"] the rest of the string is the port name, taken as
    it is; only an empty rest is refused. *)
Theorem parse_bluetooth_rest_verbatim (t : Target) (rest : string) :
  parse t ("BT:" ++ rest)
  = if StdString.empty rest then Failed (Some InvalidFormat)
    else Parsed (Serial rest).
Proof.
  unfold parse.
  rewrite (parse_bt t unit (constructor ("BT:" ++ rest)) tt rest eq_refl).
  cbv zeta. destruct rest; reflexivity.
Qed.

(** X2.  A non-empty string with neither prefix is a serial port name as a
    whole when it starts with ["COM"] or ["/dev/"], and an invalid format
    otherwise. *)
Theorem parse_legacy_or_unknown (t : Target) (s : string) :
  s <> "" ->
  String.prefix "BT:" s = false ->
  String.prefix "USB:" s = false ->
  parse t s
  = if String.prefix "COM" s || String.prefix "/dev/" s
    then Parsed (Serial s)
    else Failed (Some InvalidFormat).
Proof.
  intros Hne Hbt Husb. unfold parse.
  rewrite (parse_other t unit (constructor s) tt Hne).
  - cbn [m_connectionString constructor].
    rewrite !(find_is_0_prefix _ s Hne).
    destruct (String.prefix "COM" s || String.prefix "/dev/" s); reflexivity.
  - cbn [m_connectionString constructor].
    exact (eq_trans (eqb_substring_prefix "BT:" s) Hbt).
  - cbn [m_connectionString constructor].
    exact (eq_trans (eqb_substring_prefix "USB:" s) Husb).
Qed.

Lemma parse_legacy_or_unknown_witness :
  "/dev/ttyUSB0" <> ""
  /\ String.prefix "BT:" "/dev/ttyUSB0" = false
  /\ String.prefix "USB:" "/dev/ttyUSB0" = false
  /\ parse PosixLP64 "/dev/ttyUSB0"
     = (if String.prefix "COM" "/dev/ttyUSB0"
           || String.prefix "/dev/" "/dev/ttyUSB0"
        then Parsed (Serial "/dev/ttyUSB0")
        else Failed (Some InvalidFormat)).
Proof.
  assert (Hne : "/dev/ttyUSB0" <> "") by discriminate.
  split; [exact Hne|]. split; [reflexivity|]. split; [reflexivity|].
  exact (parse_legacy_or_unknown PosixLP64 "/dev/ttyUSB0" Hne eq_refl eq_refl).
Defined.

(** X3.  [parseConnectionString] always returns: no exception of [substr]
    or [std::stoul] escapes it.  It makes no system call and leaves the
    connection string, the flag, the handles and the baud rate alone; a
    failure records a message and a success leaves the last error as it
    was. *)
Theorem parseConnectionString_returns (t : Target) (W : Type)
  (c : Conn) (w : W) :
  exists (b : bool) (c' : Conn),
    parseConnectionString t (c, w) = (Ret b, (c', w))
    /\ same_link c c'
    /\ (if b then m_lastError c' = m_lastError c else m_lastError c' <> "").
Proof.
  destruct (parse_total t W c w) as (b & c' & Heq & Hlink & Hfalse & Htrue).
  exists b, c'. split; [exact Heq|]. split; [exact Hlink|].
  destruct b; [now apply Htrue | now apply Hfalse].
Qed.

(** X4.  A failed parse is not undone: when the vendor half converts and
    the product half does not, the parse fails with the connection type
    already set to [USB] and the vendor identifier already overwritten. *)
Theorem parse_failure_keeps_vendor (t : Target) (W : Type) (c : Conn) (w : W)
  (a b : string) (vid : Z) (e : Exn) :
  m_connectionString c = "USB:" ++ a ++ ":" ++ b ->
  StdString.find_char ":" a = None ->
  Stoul.stoul16 t a = Ret vid ->
  Stoul.stoul16 t b = Throw e ->
  parseConnectionString t (c, w)
  = (Ret false,
     (set_m_lastError Msg.bad_vid_pid
        (set_m_vid (to_uint16 vid) (set_m_connectionType USB c)), w)).
Proof.
  intros Hs Ha Hvid Hpid.
  rewrite (parse_usb_halves t W c w a b Hs Ha). cbv zeta.
  rewrite Hvid, Hpid. reflexivity.
Qed.

Lemma parse_failure_keeps_vendor_witness :
  m_connectionString (constructor "USB:1234:ZZZZ") = "USB:" ++ "1234" ++ ":" ++ "ZZZZ"
  /\ StdString.find_char ":" "1234" = None
  /\ Stoul.stoul16 Windows "1234" = Ret 0x1234
  /\ Stoul.stoul16 Windows "ZZZZ" = Throw std_invalid_argument
  /\ m_vid (fst (snd (parseConnectionString Windows
                        (constructor "USB:1234:ZZZZ", tt)))) = 0x1234.
Proof.
  split; [reflexivity|]. split; [reflexivity|]. split; [reflexivity|].
  split; [reflexivity|].
  rewrite (parse_failure_keeps_vendor Windows unit
             (constructor "USB:1234:ZZZZ") tt "1234" "ZZZZ" 0x1234
             std_invalid_argument eq_refl eq_refl eq_refl eq_refl).
  reflexivity.
Defined.

(** X5.  Parsing again changes nothing: a second [parseConnectionString]
    returns what the first returned and leaves the object as the first
    left it. *)
Theorem parse_twice (t : Target) (W : Type) (c : Conn) (w : W) :
  parseConnectionString t (snd (parseConnectionString t (c, w)))
  = parseConnectionString t (c, w).
Proof.
  destruct (shape (m_connectionString c)) as [He | rest Hb | rest Hu | Hne H3 H4].
  - rewrite (parse_empty t W c w He). cbn [snd].
    erewrite (parse_empty t W _ w); [reflexivity | exact He].
  - rewrite (parse_bt t W c w rest Hb). cbv zeta.
    destruct (StdString.empty rest) eqn:E; cbn [snd];
      (erewrite (parse_bt t W _ w rest); [|exact Hb]);
      cbv zeta; rewrite E; reflexivity.
  - rewrite (parse_usb t W c w rest Hu). unfold usb_branch.
    destruct (StdString.find_char ":" rest) as [n|] eqn:Ef.
    + destruct (Stoul.stoul16 t (first_half n rest)) as [vid|e1] eqn:E1.
      * destruct (Stoul.stoul16 t (second_half n rest)) as [pid|e2] eqn:E2;
          cbn [snd]; (erewrite (parse_usb t W _ w rest); [|exact Hu]);
          unfold usb_branch; rewrite Ef, E1, E2; reflexivity.
      * cbn [snd]. erewrite (parse_usb t W _ w rest); [|exact Hu].
        unfold usb_branch. rewrite Ef, E1. reflexivity.
    + cbn [snd]. erewrite (parse_usb t W _ w rest); [|exact Hu].
      unfold usb_branch. rewrite Ef. reflexivity.
  - rewrite (parse_other t W c w Hne H3 H4).
    destruct (_ || _) eqn:E; cbn [snd];
      (erewrite (parse_other t W _ w); [|exact Hne|exact H3|exact H4]);
      cbn [m_connectionString set_m_lastError set_m_portName
             set_m_connectionType];
      rewrite E; reflexivity.
Qed.

(** ** [connect] *)

(** X6.  [connect()] returns [true] exactly when it has connected the
    object: afterwards the flag is the old flag or the result, and the
    last error is empty if and only if the call returned [true]. *)
Theorem connect_result_and_error (t : Target) (W : Type) (os : OS W)
  (c : Conn) (w : W) :
  exists (b : bool) (c' : Conn) (w' : W),
    connect t os (c, w) = (Ret b, (c', w'))
    /\ m_isConnected c' = m_isConnected c || b
    /\ (b = true <-> m_lastError c' = "").
Proof.
  destruct (m_isConnected c) eqn:Hc.
  - rewrite (connect_connected t W os c w Hc).
    eexists _, _, _; split; [reflexivity|]. simpl.
    split; [assumption|]. split; discriminate.
  - destruct (connect_disconnected t W os c w Hc)
      as (b & c' & w' & Heq & Hflag & _ & Htrue & Hfalse).
    exists b, c', w'. split; [exact Heq|]. split; [exact Hflag|].
    destruct b.
    + split; [intros _; now apply Htrue | reflexivity].
    + split; [discriminate|]. intros H. now apply Hfalse in H.
Qed.

(** X7.  With a connection string that does not parse, [connect()] on a
    disconnected object returns [false] without a system call: the world
    is the one before and the object stays disconnected. *)
Theorem connect_unparsed_makes_no_call (t : Target) (W : Type) (os : OS W)
  (c : Conn) (w : W) :
  m_isConnected c = false ->
  fst (parseConnectionString t (c, w)) = Ret false ->
  connect t os (c, w) = (Ret false, snd (parseConnectionString t (c, w)))
  /\ snd (snd (connect t os (c, w))) = w
  /\ m_isConnected (fst (snd (connect t os (c, w)))) = false.
Proof.
  intros Hc Hp.
  destruct (parse_total t W c w) as (b & c' & Heq & Hlink & _).
  rewrite Heq in Hp. cbn [fst] in Hp. injection Hp as ->.
  assert (H : connect t os (c, w) = (Ret false, (c', w))).
  { unfold connect. unfold bind at 1. unfold this at 1. cbn [fst snd].
    rewrite Hc. unfold bind at 1. rewrite Heq. reflexivity. }
  rewrite H, Heq. cbn [fst snd].
  split; [reflexivity|]. split; [reflexivity|].
  destruct Hlink as (_ & Hflag & _). congruence.
Qed.

Lemma connect_unparsed_makes_no_call_witness :
  m_isConnected (constructor "ttyS0") = false
  /\ fst (parseConnectionString PosixLP64
            (constructor "ttyS0", Loopback.quiet)) = Ret false
  /\ snd (snd (connect PosixLP64 Loopback.os
                 (constructor "ttyS0", Loopback.quiet))) = Loopback.quiet.
Proof.
  split; [reflexivity|]. split; [reflexivity|].
  exact (proj1 (proj2 (connect_unparsed_makes_no_call PosixLP64
                         Loopback.World Loopback.os (constructor "ttyS0")
                         Loopback.quiet eq_refl eq_refl))).
Defined.

(** [initializeBluetooth] looks at the port name and the baud rate only. *)
Lemma initializeBluetooth_depends (t : Target) (W : Type) (os : OS W)
  (c1 c2 : Conn) (w : W) :
  m_portName c1 = m_portName c2 ->
  m_baudRate c1 = m_baudRate c2 ->
  let r1 := initializeBluetooth t os (c1, w) in
  let r2 := initializeBluetooth t os (c2, w) in
  fst r1 = fst r2
  /\ snd (snd r1) = snd (snd r2)
  /\ (fst r1 = Ret false -> m_lastError (fst (snd r1)) = m_lastError (fst (snd r2))).
Proof.
  intros Hp Hb. unfold initializeBluetooth.
  destruct (_WIN32 t); unfold_monad;
    repeat (cbn; rewrite <- ?Hp, <- ?Hb;
            match goal with
            | |- context [match ?x with _ => _ end] =>
                plain x; destruct x eqn:?
            end);
    cbn; repeat split; try reflexivity; try discriminate; try congruence.
Qed.

(** What two parses of the same string agree on. *)
Lemma parse_depends (t : Target) (W : Type) (c1 c2 : Conn) (w : W) :
  m_connectionString c1 = m_connectionString c2 ->
  exists (b : bool) (d1 d2 : Conn),
    parseConnectionString t (c1, w) = (Ret b, (d1, w))
    /\ parseConnectionString t (c2, w) = (Ret b, (d2, w))
    /\ m_isConnected d1 = m_isConnected c1
    /\ m_isConnected d2 = m_isConnected c2
    /\ m_baudRate d1 = m_baudRate c1
    /\ m_baudRate d2 = m_baudRate c2
    /\ (if b
        then m_connectionType d1 = m_connectionType d2
             /\ match m_connectionType d1 with
                | BLUETOOTH => m_portName d1 = m_portName d2
                | USB => m_vid d1 = m_vid d2 /\ m_pid d1 = m_pid d2
                end
        else m_lastError d1 = m_lastError d2).
Proof.
  intros Hs.
  destruct (shape (m_connectionString c1)) as [He | rest Hb | rest Hu | Hne H3 H4].
  - rewrite (parse_empty t W c1 w He).
    rewrite (parse_empty t W c2 w (eq_trans (eq_sym Hs) He)).
    eexists _, _, _; repeat split.
  - rewrite (parse_bt t W c1 w rest Hb).
    rewrite (parse_bt t W c2 w rest (eq_trans (eq_sym Hs) Hb)). cbv zeta.
    destruct (StdString.empty rest); eexists _, _, _; repeat split.
  - rewrite (parse_usb t W c1 w rest Hu).
    rewrite (parse_usb t W c2 w rest (eq_trans (eq_sym Hs) Hu)).
    unfold usb_branch.
    destruct (StdString.find_char ":" rest) as [n|];
      [destruct (Stoul.stoul16 t (first_half n rest)) as [vid|e1];
       [destruct (Stoul.stoul16 t (second_half n rest)) as [pid|e2]|]|];
      eexists _, _, _; repeat split.
  - rewrite (parse_other t W c1 w Hne H3 H4).
    rewrite Hs in Hne, H3, H4.
    rewrite (parse_other t W c2 w Hne H3 H4). rewrite Hs.
    destruct (_ || _); eexists _, _, _; repeat split.
Qed.

(** [connect] on a disconnected object, after the parse. *)
Lemma connect_after_parse (t : Target) (W : Type) (os : OS W)
  (c d : Conn) (w : W) (b : bool) :
  m_isConnected c = false ->
  parseConnectionString t (c, w) = (Ret b, (d, w)) ->
  connect t os (c, w)
  = if b then
      match (match m_connectionType d with
             | BLUETOOTH => initializeBluetooth t os
             | USB => initializeUSB t os
             end) (d, w) with
      | (Ret true, (e, w')) =>
          (Ret true, (set_m_lastError "" (set_m_isConnected true e), w'))
      | (Ret false, st) => (Ret false, st)
      | (Throw x, st) => (Throw x, st)
      end
    else (Ret false, (d, w)).
Proof.
  intros Hc Hp. unfold connect. unfold bind at 1. unfold this at 1.
  cbn [fst snd]. rewrite Hc. unfold bind at 1. rewrite Hp.
  destruct b; [|reflexivity]. cbn [negb].
  unfold bind at 1. unfold this at 1. cbn [fst snd]. unfold bind at 1.
  destruct ((match m_connectionType d with
             | BLUETOOTH => initializeBluetooth t os
             | USB => initializeUSB t os
             end) (d, w)) as [[[|]|x] [e w']]; reflexivity.
Qed.

(** X8.  [connect()] on a disconnected object does not depend on what
    the object went through: two disconnected objects with the same
    connection string and baud rate get the same result from the same
    world, leave the same world, and end with the same flag and last
    error. *)
Theorem connect_forgets_history (t : Target) (W : Type) (os : OS W)
  (c1 c2 : Conn) (w : W) :
  m_isConnected c1 = false ->
  m_isConnected c2 = false ->
  m_connectionString c1 = m_connectionString c2 ->
  m_baudRate c1 = m_baudRate c2 ->
  let r1 := connect t os (c1, w) in
  let r2 := connect t os (c2, w) in
  fst r1 = fst r2
  /\ snd (snd r1) = snd (snd r2)
  /\ m_isConnected (fst (snd r1)) = m_isConnected (fst (snd r2))
  /\ m_lastError (fst (snd r1)) = m_lastError (fst (snd r2)).
Proof.
  intros Hc1 Hc2 Hs Hbaud. cbv zeta.
  destruct (parse_depends t W c1 c2 w Hs)
    as (b & d1 & d2 & Hp1 & Hp2 & Hf1 & Hf2 & Hb1 & Hb2 & Hagree).
  rewrite (connect_after_parse t W os c1 d1 w b Hc1 Hp1).
  rewrite (connect_after_parse t W os c2 d2 w b Hc2 Hp2).
  destruct b.
  2:{ cbn [fst snd]. repeat split; congruence. }
  destruct Hagree as [Hty Hfields]. rewrite <- Hty.
  destruct (m_connectionType d1).
  - destruct (initializeBluetooth_depends t W os d1 d2 w Hfields
                ltac:(congruence)) as (Hr & Hw & He).
    destruct (initializeBluetooth_total t W os d1 w)
      as (b1 & e1 & w1 & Hi1 & Hd1 & _).
    destruct (initializeBluetooth_total t W os d2 w)
      as (b2 & e2 & w2 & Hi2 & Hd2 & _).
    rewrite Hi1, Hi2 in *. cbn [fst snd] in *.
    injection Hr as <-. subst w2.
    destruct Hd1 as (_ & _ & Hg1 & _). destruct Hd2 as (_ & _ & Hg2 & _).
    destruct b1; cbn.
    + repeat split.
    + repeat split; [congruence | now apply He].
  - rewrite !initializeUSB_fails. destruct Hfields as [Hv Hp].
    destruct (_WIN32 t); [destruct (fst (SetupDiGetClassDevs os w))|];
      cbn; rewrite ?Hv, ?Hp; repeat split; congruence.
Qed.

Lemma connect_forgets_history_witness :
  m_isConnected (fst used_posix) = false
  /\ m_isConnected (constructor "BT:COM5") = false
  /\ m_connectionString (fst used_posix)
     = m_connectionString (constructor "BT:COM5")
  /\ m_baudRate (fst used_posix) = m_baudRate (constructor "BT:COM5")
  /\ fst (connect PosixLP64 Loopback.os (fst used_posix, snd used_posix))
     = fst (connect PosixLP64 Loopback.os
              (constructor "BT:COM5", snd used_posix)).
Proof.
  split; [reflexivity|]. split; [reflexivity|]. split; [reflexivity|].
  split; [reflexivity|].
  exact (proj1 (connect_forgets_history PosixLP64 Loopback.World Loopback.os
                  (fst used_posix) (constructor "BT:COM5") (snd used_posix)
                  eq_refl eq_refl eq_refl eq_refl)).
Defined.

(** ** [initializeBluetooth] and [cleanupConnection] *)

(** The result of [initializeBluetooth] and the handle it leaves. *)
Lemma initializeBluetooth_handle (t : Target) (W : Type)
  (os : OS W) (c : Conn) (w : W) :
  exists (b : bool) (c' : Conn) (w' : W),
    initializeBluetooth t os (c, w) = (Ret b, (c', w'))
    /\ handle_open t (serial_handle t c') = b
    /\ same_descriptor c c'.
Proof.
  unfold initializeBluetooth, handle_open, serial_handle.
  destruct t; run_member;
    eexists _, _, _; (split; [reflexivity|]);
    (split; [|repeat split]); simpl; try reflexivity.
  all: try (rewrite Heqb; reflexivity).
  all: try assumption.
  all: try (apply Z.leb_gt; apply Z.ltb_lt; assumption).
  all: try (apply Z.leb_le; apply Z.ltb_ge; assumption).
Qed.

(** X9.  [initializeBluetooth] returns [true] exactly when it leaves an
    open handle in the object: after a failure, whether of the open or of
    the configuration, the handle member is invalid.  It touches no other
    member than the handle and the last error. *)
Theorem initializeBluetooth_result_is_handle (t : Target) (W : Type)
  (os : OS W) (c : Conn) (w : W) :
  exists (b : bool) (c' : Conn) (w' : W),
    initializeBluetooth t os (c, w) = (Ret b, (c', w'))
    /\ handle_open t (serial_handle t c') = b
    /\ same_descriptor c c'.
Proof. exact (initializeBluetooth_handle t W os c w). Qed.


(** X10.  No handle is lost: when the system opened the port and
    [initializeBluetooth] still fails, the last thing it did was to ask
    the system to close that handle. *)
Theorem initializeBluetooth_closes_on_failure (t : Target) (W : Type)
  (os : OS W) (c : Conn) (w : W) :
  handle_open t (opened_handle t os c w) = true ->
  fst (initializeBluetooth t os (c, w)) = Ret false ->
  exists w_before : W,
    snd (snd (initializeBluetooth t os (c, w)))
    = close_handle t os (opened_handle t os c w) w_before.
Proof.
  unfold initializeBluetooth, handle_open, opened_handle, close_handle.
  destruct t; run_member; intros Hopen Hres;
    try discriminate Hres; try discriminate Hopen;
    try (eexists; reflexivity).
  all: apply Z.ltb_lt in Heqb; apply Z.leb_le in Hopen; lia.
Qed.

Lemma initializeBluetooth_closes_on_failure_witness :
  let c := set_m_portName "COM5" (constructor "BT:COM5") in
  handle_open PosixLP64 (opened_handle PosixLP64 no_tty_os c Loopback.quiet)
  = true
  /\ fst (initializeBluetooth PosixLP64 no_tty_os (c, Loopback.quiet))
     = Ret false
  /\ Loopback.served
       (snd (snd (initializeBluetooth PosixLP64 no_tty_os (c, Loopback.quiet))))
     = [Loopback.Closed 3; Loopback.Opened "COM5"].
Proof.
  pose proof (initializeBluetooth_closes_on_failure PosixLP64 Loopback.World
                no_tty_os (set_m_portName "COM5" (constructor "BT:COM5"))
                Loopback.quiet eq_refl eq_refl) as H.
  destruct H as [w_before H].
  split; [reflexivity|]. split; reflexivity.
Defined.

(** *** The flag words of [termios] *)

Lemma single_bit (k m n : Z) :
  k = 2 ^ m -> 0 <= m -> 0 <= n -> Z.testbit k n = (n =? m).
Proof.
  intros -> Hm Hn. rewrite Z.pow2_bits_eqb by assumption. apply Z.eqb_sym.
Qed.

Lemma bit_PARENB (n : Z) : 0 <= n -> Z.testbit Posix.PARENB n = (n =? 8).
Proof. now apply single_bit. Qed.
Lemma bit_CSTOPB (n : Z) : 0 <= n -> Z.testbit Posix.CSTOPB n = (n =? 6).
Proof. now apply single_bit. Qed.
Lemma bit_CSIZE (n : Z) :
  0 <= n -> Z.testbit Posix.CSIZE n = (n =? 4) || (n =? 5).
Proof.
  intros Hn. change Posix.CSIZE with (Z.lor (2 ^ 4) (2 ^ 5)).
  rewrite Z.lor_spec, !Z.pow2_bits_eqb by lia.
  now rewrite (Z.eqb_sym 4), (Z.eqb_sym 5).
Qed.
Lemma bit_CS8 (n : Z) :
  0 <= n -> Z.testbit Posix.CS8 n = (n =? 4) || (n =? 5).
Proof. exact (bit_CSIZE n). Qed.
Lemma bit_CRTSCTS (n : Z) : 0 <= n -> Z.testbit Posix.CRTSCTS n = (n =? 31).
Proof. now apply single_bit. Qed.
Lemma bit_CREAD (n : Z) : 0 <= n -> Z.testbit Posix.CREAD n = (n =? 7).
Proof. now apply single_bit. Qed.
Lemma bit_CLOCAL (n : Z) : 0 <= n -> Z.testbit Posix.CLOCAL n = (n =? 11).
Proof. now apply single_bit. Qed.
Lemma bit_ICANON (n : Z) : 0 <= n -> Z.testbit Posix.ICANON n = (n =? 1).
Proof. now apply single_bit. Qed.
Lemma bit_ECHO (n : Z) : 0 <= n -> Z.testbit Posix.ECHO n = (n =? 3).
Proof. now apply single_bit. Qed.
Lemma bit_ECHOE (n : Z) : 0 <= n -> Z.testbit Posix.ECHOE n = (n =? 4).
Proof. now apply single_bit. Qed.
Lemma bit_ISIG (n : Z) : 0 <= n -> Z.testbit Posix.ISIG n = (n =? 0).
Proof. now apply single_bit. Qed.
Lemma bit_IXON (n : Z) : 0 <= n -> Z.testbit Posix.IXON n = (n =? 10).
Proof. now apply single_bit. Qed.
Lemma bit_IXOFF (n : Z) : 0 <= n -> Z.testbit Posix.IXOFF n = (n =? 12).
Proof. now apply single_bit. Qed.
Lemma bit_IXANY (n : Z) : 0 <= n -> Z.testbit Posix.IXANY n = (n =? 11).
Proof. now apply single_bit. Qed.
Lemma bit_OPOST (n : Z) : 0 <= n -> Z.testbit Posix.OPOST n = (n =? 0).
Proof. now apply single_bit. Qed.

Create Rewrite HintDb flag_bits.
#[local] Hint Rewrite Z.land_spec Z.lor_spec Z.ldiff_spec Z.bits_0 : flag_bits.
#[local] Hint Rewrite bit_PARENB bit_CSTOPB bit_CSIZE bit_CS8 bit_CRTSCTS
  bit_CREAD bit_CLOCAL bit_ICANON bit_ECHO bit_ECHOE bit_ISIG bit_IXON
  bit_IXOFF bit_IXANY bit_OPOST using assumption : flag_bits.



(** ** [sendCommand] and [receiveResponse] *)

(** X12.  On a connected serial object a non-empty command costs exactly
    one write and is never retried: [sendCommand] returns [true] exactly
    when the system reports the full length, with the last error emptied;
    a short count is reported as a partial write and a failed call as a
    write failure, and the world is the one the single write left. *)
Theorem sendCommand_single_write (t : Target) (W : Type) (os : OS W)
  (c : Conn) (w : W) (first : byte) (more : list byte) :
  m_isConnected c = true ->
  m_connectionType c = BLUETOOTH ->
  let command := first :: more in
  let ok := if _WIN32 t
            then fst (fst (WriteFile os (m_serialHandle c) command w))
            else 0 <=? fst (sys_write os (m_serialFd c) command w) in
  let written := if _WIN32 t
                 then snd (fst (WriteFile os (m_serialHandle c) command w))
                 else fst (sys_write os (m_serialFd c) command w) in
  let w' := if _WIN32 t
            then snd (WriteFile os (m_serialHandle c) command w)
            else snd (sys_write os (m_serialFd c) command w) in
  sendCommand t os command (c, w)
  = (Ret (ok && (written =? size command)),
     (set_m_lastError
        (if negb ok then Msg.write_failed
         else if written =? size command then ""
              else Msg.partial_write) c,
      w'))
  /\ error_kind Msg.write_failed = Some IoFailure
  /\ error_kind Msg.partial_write = Some ShortWrite.
Proof.
  intros Hc Hty command ok written w'.
  split; [|split; reflexivity].
  unfold sendCommand, ok, written, w', command. unfold_monad.
  cbn [fst snd]. rewrite Hc. cbn [negb fst snd]. rewrite Hty.
  destruct (_WIN32 t); cbn [fst snd].
  - destruct (fst (WriteFile os (m_serialHandle c) (first :: more) w))
      as [okw n]. cbn [fst snd].
    destruct okw; cbn [negb andb]; [|reflexivity].
    destruct (n =? size (first :: more)); reflexivity.
  - rewrite (Z.leb_antisym (fst (sys_write os (m_serialFd c) (first :: more) w)) 0).
    destruct (fst (sys_write os (m_serialFd c) (first :: more) w) <? 0);
      cbn [negb andb]; [reflexivity|].
    destruct (_ =? size (first :: more)); reflexivity.
Qed.

Lemma sendCommand_single_write_witness :
  m_isConnected (fst connected_posix) = true
  /\ m_connectionType (fst connected_posix) = BLUETOOTH
  /\ fst (sendCommand PosixLP64 Loopback.os [x01; x02]
            (fst connected_posix, snd connected_posix)) = Ret true.
Proof.
  split; [reflexivity|]. split; [reflexivity|].
  rewrite (proj1 (sendCommand_single_write PosixLP64 Loopback.World
                    Loopback.os (fst connected_posix) (snd connected_posix)
                    x01 [x02] eq_refl eq_refl)).
  reflexivity.
Defined.




(** X15.  [receiveResponse] returns at most 1024 bytes a call, on a system
    that never reports more bytes than the buffer it was given. *)
Theorem receiveResponse_at_most_buffer (t : Target) (W : Type) (os : OS W)
  (timeoutMs : Z) (c : Conn) (w : W) (bytes : list byte) :
  reads_within_buffer t os ->
  fst (receiveResponse t os timeoutMs (c, w)) = Ret bytes ->
  Z.of_nat (List.length bytes) <= sizeof_buffer.
Proof.
  intros Hos. unfold reads_within_buffer in Hos.
  assert (Hcut : forall (buffer : list byte) (n : Z),
             n <= sizeof_buffer ->
             Z.of_nat (List.length (assign_range buffer n)) <= sizeof_buffer).
  { intros buffer n Hn. unfold assign_range.
    rewrite length_firstn. unfold sizeof_buffer in *. lia. }
  unfold receiveResponse. unfold_monad. cbn [fst snd].
  destruct (m_isConnected c); cbn [negb fst snd];
    [|intros H; injection H as <-; unfold sizeof_buffer; simpl; lia].
  destruct (m_connectionType c);
    [|cbn; intros H; injection H as <-; unfold sizeof_buffer; simpl; lia].
  destruct (_WIN32 t) eqn:Ht; cbn [fst snd].
  - match goal with
    | |- context [ReadFile os ?h ?n ?w1] =>
        pose proof (Hos h w1) as Hread;
        destruct (fst (ReadFile os h n w1)) as [[ok n'] buffer]
    end.
    cbn [fst snd] in Hread.
    destruct ok; [destruct (0 <? n')|
                  destruct (negb (fst (GetLastError os _) =? Win.ERROR_IO_PENDING))];
      cbn; intros H; injection H as <-;
      first [now apply Hcut | unfold sizeof_buffer; simpl; lia].
  - destruct (fst (sys_tcgetattr os (m_serialFd c) w)) as [status tty].
    destruct (status =? 0); cbn [fst snd];
      match goal with
      | |- context [sys_read os ?h ?n ?w1] =>
          pose proof (Hos h w1) as Hread;
          destruct (fst (sys_read os h n w1)) as [n' buffer]
      end;
      cbn [fst snd] in Hread;
      (destruct (0 <? n'); [|destruct (n' <? 0)]);
      cbn; intros H; injection H as <-;
      first [now apply Hcut | unfold sizeof_buffer; simpl; lia].
Qed.

Lemma loopback_reads_within_buffer (t : Target) :
  reads_within_buffer t Loopback.os.
Proof.
  intros h w. destruct (_WIN32 t); cbn; unfold Loopback.available;
    rewrite length_firstn; unfold sizeof_buffer; lia.
Qed.

Lemma receiveResponse_at_most_buffer_witness :
  reads_within_buffer PosixLP64 Loopback.os
  /\ fst (receiveResponse PosixLP64 Loopback.os 1000 connected_posix) = Ret []
  /\ Z.of_nat (List.length (@nil byte)) <= sizeof_buffer.
Proof.
  split; [exact (loopback_reads_within_buffer PosixLP64)|].
  split; [reflexivity|].
  exact (receiveResponse_at_most_buffer PosixLP64 Loopback.World Loopback.os
           1000 (fst connected_posix) (snd connected_posix) []
           (loopback_reads_within_buffer PosixLP64) eq_refl).
Defined.

(** ** What every sequence of calls keeps *)

Lemma initializeBluetooth_frame (t : Target) (W : Type) (os : OS W)
  (c : Conn) (w : W) :
  same_but_handle t c (fst (snd (initializeBluetooth t os (c, w))))
  /\ (fst (initializeBluetooth t os (c, w)) = Ret false ->
      m_lastError (fst (snd (initializeBluetooth t os (c, w)))) <> Msg.usb_send
      /\ m_lastError (fst (snd (initializeBluetooth t os (c, w))))
         <> Msg.usb_receive
      /\ m_lastError (fst (snd (initializeBluetooth t os (c, w))))
         <> Msg.needs_winusb).
Proof.
  unfold initializeBluetooth, same_but_handle, same_descriptor.
  destruct t; run_member; (split; [repeat split|]); intros H;
    try discriminate H; repeat split; discriminate.
Qed.

Lemma cleanupConnection_frame (t : Target) (W : Type) (os : OS W)
  (c : Conn) (w : W) :
  same_but_handle t c (fst (snd (cleanupConnection t os (c, w))))
  /\ m_lastError (fst (snd (cleanupConnection t os (c, w)))) = m_lastError c.
Proof.
  unfold cleanupConnection, same_but_handle, same_descriptor.
  destruct t; run_member; repeat split; assumption.
Qed.

Lemma constructor_kept (t : Target) (connectionString : string) :
  kept t connectionString (constructor connectionString).
Proof.
  unfold kept, handle_open, serial_handle.
  destruct t; cbn; repeat split; discriminate.
Qed.

(** [sendCommand] and [receiveResponse] on a well kept object never
    report the unfinished USB transport. *)
Lemma io_error_kept (t : Target) (W : Type) (os : OS W)
  (command : list byte) (timeoutMs : Z) (c : Conn) (w : W) :
  (m_isConnected c = true -> m_connectionType c = BLUETOOTH) ->
  m_lastError c <> Msg.usb_send ->
  m_lastError c <> Msg.usb_receive ->
  m_lastError c <> Msg.needs_winusb ->
  (m_lastError (fst (snd (sendCommand t os command (c, w)))) <> Msg.usb_send
   /\ m_lastError (fst (snd (sendCommand t os command (c, w))))
      <> Msg.usb_receive
   /\ m_lastError (fst (snd (sendCommand t os command (c, w))))
      <> Msg.needs_winusb)
  /\ (m_lastError (fst (snd (receiveResponse t os timeoutMs (c, w))))
      <> Msg.usb_send
      /\ m_lastError (fst (snd (receiveResponse t os timeoutMs (c, w))))
         <> Msg.usb_receive
      /\ m_lastError (fst (snd (receiveResponse t os timeoutMs (c, w))))
         <> Msg.needs_winusb).
Proof.
  intros Hty H1 H2 H3.
  unfold sendCommand, receiveResponse.
  split; run_member; repeat split;
    first [ assumption
          | discriminate
          | exfalso;
            match goal with
            | Hn : negb (m_isConnected c) = false |- _ =>
                apply negb_false_iff in Hn; apply Hty in Hn;
                cbn [fst] in *; congruence
            end ].
Qed.

Lemma parse_failure_message (t : Target) (W : Type) (c : Conn) (w : W) :
  fst (parseConnectionString t (c, w)) = Ret false ->
  m_lastError (fst (snd (parseConnectionString t (c, w)))) <> Msg.usb_send
  /\ m_lastError (fst (snd (parseConnectionString t (c, w))))
     <> Msg.usb_receive
  /\ m_lastError (fst (snd (parseConnectionString t (c, w))))
     <> Msg.needs_winusb.
Proof.
  destruct (shape (m_connectionString c)) as [He | rest Hb | rest Hu | Hne H3 H4].
  - rewrite (parse_empty t W c w He). cbn. repeat split; discriminate.
  - rewrite (parse_bt t W c w rest Hb). cbv zeta.
    destruct (StdString.empty rest); cbn; intros H;
      try discriminate H; repeat split; discriminate.
  - rewrite (parse_usb t W c w rest Hu). unfold usb_branch.
    destruct (StdString.find_char ":" rest) as [n|];
      [destruct (Stoul.stoul16 t (first_half n rest)) as [vid|e1];
       [destruct (Stoul.stoul16 t (second_half n rest)) as [pid|e2]|]|];
      cbn; intros H; try discriminate H; repeat split; discriminate.
  - rewrite (parse_other t W c w Hne H3 H4).
    destruct (_ || _); cbn; intros H; try discriminate H;
      repeat split; discriminate.
Qed.

Lemma kept_set_error (t : Target) (connectionString msg : string)
  (c : Conn) :
  kept t connectionString c ->
  msg <> Msg.usb_send -> msg <> Msg.usb_receive -> msg <> Msg.needs_winusb ->
  kept t connectionString (set_m_lastError msg c).
Proof.
  intros (Hflag & Hty & Hs & Hbaud & Huh & Hufd & Hother & _) H1 H2 H3.
  unfold kept, serial_handle in *. cbn.
  repeat split; assumption.
Qed.

Lemma sendCommand_kept (t : Target) (W : Type) (os : OS W)
  (connectionString : string) (command : list byte) (c : Conn) (w : W) :
  kept t connectionString c ->
  kept t connectionString (fst (snd (sendCommand t os command (c, w)))).
Proof.
  intros Hk. pose proof Hk as (_ & Hty & _ & _ & _ & _ & _ & H1 & H2 & H3).
  destruct (io_error_kept t W os command 0 c w Hty H1 H2 H3)
    as ((Ha & Hb & Hc) & _).
  destruct (sendCommand_total t W os command c w)
    as (b & c' & w' & Heq & [msg ->] & _).
  rewrite Heq in *. cbn [fst snd] in *. now apply kept_set_error.
Qed.

Lemma receiveResponse_kept (t : Target) (W : Type) (os : OS W)
  (connectionString : string) (timeoutMs : Z) (c : Conn) (w : W) :
  kept t connectionString c ->
  kept t connectionString (fst (snd (receiveResponse t os timeoutMs (c, w)))).
Proof.
  intros Hk. pose proof Hk as (_ & Hty & _ & _ & _ & _ & _ & H1 & H2 & H3).
  destruct (io_error_kept t W os [] timeoutMs c w Hty H1 H2 H3)
    as (_ & (Ha & Hb & Hc)).
  destruct (receiveResponse_total t W os timeoutMs c w)
    as (b & c' & w' & Heq & [msg ->] & _).
  rewrite Heq in *. cbn [fst snd] in *. now apply kept_set_error.
Qed.

Lemma sendCommandAndReceive_kept (t : Target) (W : Type) (os : OS W)
  (connectionString : string) (command : list byte) (timeoutMs : Z)
  (c : Conn) (w : W) :
  kept t connectionString c ->
  kept t connectionString
    (fst (snd (sendCommandAndReceive t os command timeoutMs (c, w)))).
Proof.
  intros Hk.
  pose proof (sendCommand_kept t W os connectionString command c w Hk) as H1.
  unfold sendCommandAndReceive. unfold bind at 1.
  destruct (sendCommand_total t W os command c w)
    as (b & c' & w' & Heq & _).
  rewrite Heq in *. cbn [fst snd] in H1.
  destruct b; cbn [negb].
  - now apply receiveResponse_kept.
  - exact H1.
Qed.

Lemma disconnect_kept (t : Target) (W : Type) (os : OS W)
  (connectionString : string) (c : Conn) (w : W) :
  kept t connectionString c ->
  kept t connectionString (fst (snd (disconnect t os (c, w)))).
Proof.
  intros Hk.
  destruct (m_isConnected c) eqn:Hc.
  - pose proof Hk as (Hflag & Hty & Hs & Hbaud & Huh & Hufd & Hother & _).
    rewrite Hc in Hflag. specialize (Hty Hc).
    assert (H : disconnect t os (c, w)
                = (Ret true,
                   (set_m_lastError ""
                      (set_m_isConnected false (with_closed_handle t c)),
                    close_handle t os (serial_handle t c) w))).
    { unfold disconnect. unfold bind at 1. unfold this at 1. cbn [fst snd].
      rewrite Hc. cbn [negb]. unfold bind at 1.
      rewrite (cleanupConnection_closes t W os c w Hty (eq_sym Hflag)).
      reflexivity. }
    rewrite H. cbn [fst snd].
    unfold kept, with_closed_handle, serial_handle, handle_open in *.
    destruct (_WIN32 t); cbn; repeat split;
      try assumption; discriminate.
  - assert (H : disconnect t os (c, w)
                = (Ret false, (set_m_lastError Msg.not_connected c, w))).
    { unfold disconnect. unfold_monad. cbn [fst snd]. now rewrite Hc. }
    rewrite H. cbn [fst snd]. apply kept_set_error; [assumption|..];
      discriminate.
Qed.

Lemma connect_kept (t : Target) (W : Type) (os : OS W)
  (connectionString : string) (c : Conn) (w : W) :
  kept t connectionString c ->
  kept t connectionString (fst (snd (connect t os (c, w)))).
Proof.
  intros Hk.
  destruct (m_isConnected c) eqn:Hc.
  - rewrite (connect_connected t W os c w Hc). cbn [fst snd].
    apply kept_set_error; [assumption|..]; discriminate.
  - pose proof Hk as (Hflag & Hty & Hs & Hbaud & Huh & Hufd & Hother
                      & He1 & He2 & He3).
    rewrite Hc in Hflag.
    destruct (parse_total t W c w)
      as (b & d & Hp & (Hds & Hdf & Hdh & Hdfd & Hduh & Hdufd & Hdb)
          & Hfalse & Htrue).
    rewrite (connect_after_parse t W os c d w b Hc Hp).
    assert (Hclosed : handle_open t (serial_handle t d) = false).
    { unfold serial_handle in *. rewrite Hdh, Hdfd. now symmetry. }
    assert (Hdother : if _WIN32 t then m_serialFd d = -1
                      else m_serialHandle d = INVALID_HANDLE_VALUE).
    { destruct (_WIN32 t); congruence. }
    destruct b.
    2:{ cbn [fst snd].
        pose proof (parse_failure_message t W c w) as Hmsg.
        rewrite Hp in Hmsg. cbn [fst snd] in Hmsg.
        destruct (Hmsg eq_refl) as (Hm1 & Hm2 & Hm3).
        unfold kept. repeat split; try congruence; try assumption. }
    specialize (Htrue eq_refl).
    destruct (m_connectionType d) eqn:Hdty.
    + destruct (initializeBluetooth_handle t W os d w)
        as (r & e & w' & Hi & Hopen & _).
      destruct (initializeBluetooth_frame t W os d w)
        as (((Hes & Hety & Hef & _ & _ & _ & Heb) & Heuh & Heufd & Heother)
            & Herr).
      rewrite Hi in *. cbn [fst snd] in *.
      assert (Heo : if _WIN32 t then m_serialFd e = -1
                    else m_serialHandle e = INVALID_HANDLE_VALUE).
      { destruct (_WIN32 t); congruence. }
      destruct r; cbn [fst snd]; unfold kept.
      * unfold serial_handle in *. cbn.
        repeat split; try congruence; try discriminate; try assumption.
      * destruct (Herr eq_refl) as (Hx1 & Hx2 & Hx3).
        repeat split; try congruence; try assumption.
    + rewrite initializeUSB_fails.
      destruct (_WIN32 t) eqn:Ht;
        [destruct (fst (SetupDiGetClassDevs os w))|];
        cbn [fst snd]; apply kept_set_error; try discriminate;
        unfold kept; rewrite ?Ht;
        repeat split; try congruence; try assumption.
Qed.

(** One call keeps what is kept. *)
Lemma invoke_kept (t : Target) (W : Type) (os : OS W)
  (connectionString : string) (call : Call) (c : Conn) (w : W) :
  kept t connectionString c ->
  kept t connectionString (fst (snd (invoke t os call (c, w)))).
Proof.
  intros Hk.
  destruct call as [| | |command|timeoutMs|command timeoutMs|];
    unfold invoke; unfold bind at 1.
  - pose proof (connect_kept t W os connectionString c w Hk) as H.
    destruct (connect t os (c, w)) as [[b|e] st]; exact H.
  - pose proof (disconnect_kept t W os connectionString c w Hk) as H.
    destruct (disconnect t os (c, w)) as [[b|e] st]; exact H.
  - exact Hk.
  - pose proof (sendCommand_kept t W os connectionString command c w Hk) as H.
    destruct (sendCommand t os command (c, w)) as [[b|e] st]; exact H.
  - pose proof (receiveResponse_kept t W os connectionString timeoutMs c w Hk)
      as H.
    destruct (receiveResponse t os timeoutMs (c, w)) as [[b|e] st]; exact H.
  - pose proof (sendCommandAndReceive_kept t W os connectionString command
                  timeoutMs c w Hk) as H.
    destruct (sendCommandAndReceive t os command timeoutMs (c, w))
      as [[b|e] st]; exact H.
  - exact Hk.
Qed.

Lemma run_kept (t : Target) (W : Type) (os : OS W)
  (connectionString : string) (calls : list Call) :
  forall (c : Conn) (w : W),
    kept t connectionString c ->
    kept t connectionString (fst (snd (run t os calls (c, w)))).
Proof.
  induction calls as [|call rest IH]; intros c w Hk; [exact Hk|].
  cbn [run].
  pose proof (invoke_kept t W os connectionString call c w Hk) as H.
  destruct (invoke t os call (c, w)) as [o [c1 w1]]. cbn [fst snd] in H.
  specialize (IH c1 w1 H).
  destruct (run t os rest (c1, w1)) as [h st2]. exact IH.
Qed.

Lemma reachable_kept (t : Target) (W : Type) (os : OS W) (st : St W) :
  reachable t os st ->
  exists connectionString : string, kept t connectionString (fst st).
Proof.
  intros (s & w & calls & ->). exists s.
  apply run_kept, constructor_kept.
Qed.



(** X17.  No sequence of calls writes the connection string, the baud
    rate, the two USB handles, or the serial handle of the other target:
    they stay as the constructor set them. *)
Theorem members_never_written (t : Target) (W : Type) (os : OS W)
  (connectionString : string) (w : W) (calls : list Call) :
  let c := fst (snd (run t os calls (constructor connectionString, w))) in
  m_connectionString c = connectionString
  /\ m_baudRate c = 9600
  /\ m_usbHandle c = INVALID_HANDLE_VALUE
  /\ m_usbFd c = -1
  /\ (if _WIN32 t then m_serialFd c = -1
      else m_serialHandle c = INVALID_HANDLE_VALUE).
Proof.
  cbv zeta.
  pose proof (run_kept t W os connectionString calls
                (constructor connectionString) w
                (constructor_kept t connectionString))
    as (_ & _ & Hs & Hb & Huh & Hufd & Ho & _).
  repeat split; assumption.
Qed.



(** X19.  The destructor releases the connection: on every object that a
    sequence of calls can produce it returns with the object disconnected
    and the serial handle not open; on a disconnected object it does
    nothing at all, not even to the last error. *)
Theorem destructor_releases (t : Target) (W : Type) (os : OS W)
  (c : Conn) (w : W) :
  reachable t os (c, w) ->
  exists (c' : Conn) (w' : W),
    destructor t os (c, w) = (Ret tt, (c', w'))
    /\ m_isConnected c' = false
    /\ handle_open t (serial_handle t c') = false
    /\ (m_isConnected c = false -> c' = c /\ w' = w)
    /\ (m_isConnected c = true ->
        w' = close_handle t os (serial_handle t c) w).
Proof.
  intros Hreach.
  destruct (reachable_kept t W os (c, w) Hreach) as (s & Hk).
  pose proof Hk as (Hflag & Hty & _). cbn [fst] in *.
  unfold destructor. unfold bind at 1. unfold this at 1. cbn [fst snd].
  destruct (m_isConnected c) eqn:Hc.
  - specialize (Hty eq_refl).
    assert (H : disconnect t os (c, w)
                = (Ret true,
                   (set_m_lastError ""
                      (set_m_isConnected false (with_closed_handle t c)),
                    close_handle t os (serial_handle t c) w))).
    { unfold disconnect. unfold bind at 1. unfold this at 1. cbn [fst snd].
      rewrite Hc. cbn [negb]. unfold bind at 1.
      rewrite (cleanupConnection_closes t W os c w Hty (eq_sym Hflag)).
      reflexivity. }
    unfold bind at 1. rewrite H. unfold ret.
    eexists _, _; split; [reflexivity|].
    split; [reflexivity|]. split; [|split; [discriminate | reflexivity]].
    unfold with_closed_handle, serial_handle, handle_open.
    destruct (_WIN32 t); reflexivity.
  - unfold ret. exists c, w. split; [reflexivity|].
    split; [assumption|]. split; [now symmetry|].
    split; [now split | discriminate].
Qed.

Lemma destructor_releases_witness :
  reachable PosixLP64 Loopback.os (fst connected_posix, snd connected_posix)
  /\ exists (c' : Conn) (w' : Loopback.World),
      destructor PosixLP64 Loopback.os (fst connected_posix, snd connected_posix)
      = (Ret tt, (c', w'))
      /\ m_isConnected c' = false.
Proof.
  assert (Hreach : reachable PosixLP64 Loopback.os
                     (fst connected_posix, snd connected_posix)).
  { exists "BT:COM5", Loopback.quiet, [CallConnect]. reflexivity. }
  split; [exact Hreach|].
  destruct (destructor_releases PosixLP64 Loopback.World Loopback.os
              (fst connected_posix) (snd connected_posix) Hreach)
    as (c' & w' & Heq & Hflag & _).
  exists c', w'. split; assumption.
Defined.

(** ** The skeleton *)

(** X20.  In the skeleton the last error tells whether the last call
    succeeded: [connect], [disconnect] and [sendCommand] return [true]
    exactly when they leave the last error empty, and [receiveResponse]
    leaves it empty exactly on a connected object.  [connect] on a
    disconnected object succeeds for every non-empty connection string,
    whatever it says; nothing is ever received; and no call touches the
    world. *)
Theorem skeleton_last_error_tells (W : Type) (command : list byte)
  (timeoutMs : Z) (c : Conn) (w : W) :
  (exists (b : bool) (c' : Conn),
      Skeleton.connect (c, w) = (Ret b, (c', w))
      /\ (b = true <-> m_lastError c' = "")
      /\ b = negb (m_isConnected c)
             && negb (StdString.empty (m_connectionString c)))
  /\ (exists (b : bool) (c' : Conn),
         Skeleton.disconnect (c, w) = (Ret b, (c', w))
         /\ (b = true <-> m_lastError c' = "")
         /\ b = m_isConnected c)
  /\ (exists (b : bool) (c' : Conn),
         Skeleton.sendCommand command (c, w) = (Ret b, (c', w))
         /\ (b = true <-> m_lastError c' = ""))
  /\ (exists c' : Conn,
         Skeleton.receiveResponse timeoutMs (c, w) = (Ret [], (c', w))
         /\ (m_isConnected c = true <-> m_lastError c' = ""))
  /\ (exists c' : Conn,
         Skeleton.sendCommandAndReceive command timeoutMs (c, w)
         = (Ret [], (c', w))).
Proof.
  split; [|split; [|split; [|split]]].
  - unfold Skeleton.connect, Skeleton.initializeConnection. unfold_monad.
    cbn [fst snd].
    destruct (m_isConnected c); cbn;
      [|destruct (StdString.empty (m_connectionString c)); cbn];
      eexists _, _; (split; [reflexivity|]); cbn;
      (split; [split; [discriminate || reflexivity
                      | discriminate || reflexivity]
              | reflexivity]).
  - unfold Skeleton.disconnect, Skeleton.cleanupConnection. unfold_monad.
    cbn [fst snd].
    destruct (m_isConnected c); cbn;
      eexists _, _; (split; [reflexivity|]); cbn;
      (split; [split; [discriminate || reflexivity
                      | discriminate || reflexivity]
              | reflexivity]).
  - unfold Skeleton.sendCommand. unfold_monad. cbn [fst snd].
    destruct (m_isConnected c); cbn; [destruct command; cbn|];
      eexists _, _; (split; [reflexivity|]); cbn;
      (split; [discriminate || reflexivity | discriminate || reflexivity]).
  - unfold Skeleton.receiveResponse. unfold_monad. cbn [fst snd].
    destruct (m_isConnected c); cbn;
      eexists; (split; [reflexivity|]); cbn;
      (split; [discriminate || reflexivity | discriminate || reflexivity]).
  - unfold Skeleton.sendCommandAndReceive, Skeleton.sendCommand,
      Skeleton.receiveResponse. unfold_monad. cbn [fst snd].
    destruct (m_isConnected c) eqn:E; cbn; [destruct command; cbn|];
      rewrite ?E; cbn; eexists; reflexivity.
Qed.

(** X21.  On a disconnected object the class and its skeleton do the
    same: [sendCommand], [receiveResponse], [sendCommandAndReceive],
    [disconnect] and the destructor return the same value and leave the
    same object and world. *)
Theorem skeleton_agrees_when_disconnected (t : Target) (W : Type)
  (os : OS W) (command : list byte) (timeoutMs : Z) (c : Conn) (w : W) :
  m_isConnected c = false ->
  sendCommand t os command (c, w) = Skeleton.sendCommand command (c, w)
  /\ receiveResponse t os timeoutMs (c, w)
     = Skeleton.receiveResponse timeoutMs (c, w)
  /\ sendCommandAndReceive t os command timeoutMs (c, w)
     = Skeleton.sendCommandAndReceive command timeoutMs (c, w)
  /\ disconnect t os (c, w) = Skeleton.disconnect (c, w)
  /\ destructor t os (c, w) = Skeleton.destructor (c, w).
Proof.
  intros Hc.
  unfold sendCommandAndReceive, Skeleton.sendCommandAndReceive,
    sendCommand, receiveResponse, disconnect, destructor,
    Skeleton.sendCommand, Skeleton.receiveResponse, Skeleton.disconnect,
    Skeleton.destructor.
  unfold_monad. cbn [fst snd]. rewrite Hc. cbn.
  repeat split.
Qed.

Lemma skeleton_agrees_when_disconnected_witness :
  m_isConnected (constructor "BT:COM5") = false
  /\ sendCommand Windows Loopback.os [x01] (constructor "BT:COM5", Loopback.quiet)
     = Skeleton.sendCommand [x01] (constructor "BT:COM5", Loopback.quiet).
Proof.
  split; [reflexivity|].
  exact (proj1 (skeleton_agrees_when_disconnected Windows Loopback.World
                  Loopback.os [x01] 1000 (constructor "BT:COM5")
                  Loopback.quiet eq_refl)).
Defined.

(** ** The device finder and the parser *)

Lemma hex_class_is_hex (c : ascii) :
  FindUsbDevice.hex_class c = true -> Stoul.is_hex c = true.
Proof.
  destruct c as [[] [] [] [] [] [] [] []]; vm_compute; congruence.
Qed.

Lemma hex_class_digit (c : ascii) :
  FindUsbDevice.hex_class c = true ->
  exists d : Z, Stoul.hex_digit c = Some d /\ 0 <= d <= 15.
Proof.
  intros H. apply hex_class_is_hex in H. unfold Stoul.is_hex in H.
  destruct (Stoul.hex_digit c) as [d|] eqn:E; [|discriminate].
  exists d. split; [reflexivity|]. pose proof (hex_digit_range c d E). lia.
Qed.

(** The group of [four_hex] is a [hex16] and differs from ["N/A"]. *)
Lemma four_hex_valid (s group : string) :
  FindUsbDevice.four_hex s = Some group ->
  valid_hex16 group = true
  /\ FindUsbDevice.eq_ignoring_case group "N/A" = false.
Proof.
  destruct s as [|a [|b [|c [|d s]]]]; try discriminate. cbn.
  destruct (FindUsbDevice.hex_class a) eqn:Ha; [|discriminate].
  destruct (FindUsbDevice.hex_class b) eqn:Hb; [|discriminate].
  destruct (FindUsbDevice.hex_class c) eqn:Hc; [|discriminate].
  destruct (FindUsbDevice.hex_class d) eqn:Hd; [|discriminate].
  cbn. intros [= <-].
  split.
  - unfold valid_hex16, hex_value. cbn [StdString.empty negb andb all_hex].
    rewrite (hex_class_is_hex a Ha), (hex_class_is_hex b Hb),
      (hex_class_is_hex c Hc), (hex_class_is_hex d Hd).
    cbn [andb Stoul.hex_run].
    destruct (hex_class_digit a Ha) as (da & -> & Ra).
    destruct (hex_class_digit b Hb) as (db & -> & Rb).
    destruct (hex_class_digit c Hc) as (dc & -> & Rc).
    destruct (hex_class_digit d Hd) as (dd & -> & Rd).
    apply Z.leb_le. lia.
  - cbn. destruct (FindUsbDevice.same_letter a "N"),
      (FindUsbDevice.same_letter b "/"), (FindUsbDevice.same_letter c "A");
      reflexivity.
Qed.

Lemma regex_group_valid (tag s group : string) :
  FindUsbDevice.regex_group tag s = Some group ->
  valid_hex16 group = true
  /\ FindUsbDevice.eq_ignoring_case group "N/A" = false.
Proof.
  induction s as [|x s IH]; cbn [FindUsbDevice.regex_group];
    unfold FindUsbDevice.match_here;
    destruct (FindUsbDevice.literal tag _) as [rest|] eqn:Hl.
  - destruct (FindUsbDevice.four_hex rest) eqn:Hf; [|discriminate].
    intros [= <-]. exact (four_hex_valid _ _ Hf).
  - discriminate.
  - destruct (FindUsbDevice.four_hex rest) eqn:Hf; [|exact IH].
    intros [= <-]. exact (four_hex_valid _ _ Hf).
  - exact IH.
Qed.

(** X22.  Whatever the instance identifier of a device is, the script
    prints either that the connection string cannot be determined, which
    it does exactly when one of the two patterns finds nothing, or a
    connection string that the parser of the class accepts on every
    target: it yields the USB descriptor whose identifiers are the values
    of the two groups of four hexadecimal digits. *)
Theorem script_connection_string_parses (t : Target) (InstanceId : string) :
  (exists vid devicePid : string,
      FindUsbDevice.regex_group "VID_" InstanceId = Some vid
      /\ FindUsbDevice.regex_group "PID_" InstanceId = Some devicePid
      /\ FindUsbDevice.connection_string_line InstanceId
         = "  Connection String: " ++ ("USB:" ++ vid ++ ":" ++ devicePid)
      /\ parse t ("USB:" ++ vid ++ ":" ++ devicePid)
         = Parsed (Usb (hex_value vid) (hex_value devicePid))
      /\ 0 <= hex_value vid <= 65535
      /\ 0 <= hex_value devicePid <= 65535)
  \/ ((FindUsbDevice.regex_group "VID_" InstanceId = None
       \/ FindUsbDevice.regex_group "PID_" InstanceId = None)
      /\ FindUsbDevice.connection_string_line InstanceId
         = "  Connection String: Unable to determine (missing VID/PID)").
Proof.
  unfold FindUsbDevice.connection_string_line, FindUsbDevice.extract.
  destruct (FindUsbDevice.regex_group "VID_" InstanceId) as [vid|] eqn:Hv;
    [destruct (FindUsbDevice.regex_group "PID_" InstanceId) as [pid|] eqn:Hp|].
  - left. exists vid, pid.
    destruct (regex_group_valid _ _ _ Hv) as [Vv Nv].
    destruct (regex_group_valid _ _ _ Hp) as [Vp Np].
    rewrite Nv, Np. cbn [negb andb].
    split; [reflexivity|]. split; [reflexivity|]. split; [reflexivity|].
    split; [exact (usb_valid_halves t vid pid Vv Vp)|].
    unfold valid_hex16 in Vv, Vp.
    apply andb_prop in Vv as [_ Vv]. apply andb_prop in Vp as [_ Vp].
    apply Z.leb_le in Vv. apply Z.leb_le in Vp.
    pose proof (hex_run_nonneg vid 0 (Z.le_refl 0)).
    pose proof (hex_run_nonneg pid 0 (Z.le_refl 0)).
    unfold hex_value in *. lia.
  - right. split; [now right|].
    destruct (FindUsbDevice.eq_ignoring_case vid "N/A"); reflexivity.
  - right. split; [now left|]. reflexivity.
Qed.

(** ** The example program *)

Lemma call_returns (W A : Type) (member : M W A) (a : A) (c c' : Conn)
  (w w' : W) (con : ExampleUsage.Console) :
  member (c, w) = (Ret a, (c', w')) ->
  ExampleUsage.call member (c, (w, con)) = (Ret a, (c', (w', con))).
Proof.
  intros H. unfold ExampleUsage.call. cbn [fst snd]. now rewrite H.
Qed.

Lemma bind_returns (W A B : Type) (c : M W A) (k : A -> M W B)
  (st st' : St W) (a : A) :
  c st = (Ret a, st') -> bind c k st = k a st'.
Proof. intros H. unfold bind. now rewrite H. Qed.

Lemma for_each_cout (W : Type) (f : byte -> string) (bytes : list byte)
  (c : Conn) (w : W) :
  forall con : ExampleUsage.Console,
    ExampleUsage.for_each (fun b => ExampleUsage.cout (f b)) bytes
      (c, (w, con))
    = (Ret tt,
       (c, (w, (con ++ map (fun b => ExampleUsage.Stdout (f b)) bytes)%list))).
Proof.
  induction bytes as [|b rest IH]; intros con;
    cbn [ExampleUsage.for_each map].
  - unfold ret. now rewrite app_nil_r.
  - erewrite bind_returns; [|reflexivity]. cbn [fst snd].
    rewrite IH, <- app_assoc. reflexivity.
Qed.

Lemma samples_reported_app (a b : ExampleUsage.Console) :
  ExampleUsage.samples_reported (a ++ b)%list
  = (ExampleUsage.samples_reported a + ExampleUsage.samples_reported b)%nat.
Proof.
  unfold ExampleUsage.samples_reported, ExampleUsage.stdout_texts.
  now rewrite flat_map_app, filter_app, length_app.
Qed.

Lemma samples_reported_hex (bytes : list byte) :
  ExampleUsage.samples_reported
    (map (fun b => ExampleUsage.Stdout (ExampleUsage.printf_02X b)) bytes)
  = 0%nat.
Proof.
  induction bytes as [|b rest IH]; [reflexivity|].
  change (map ?f (b :: rest)) with ([f b] ++ map f rest)%list.
  rewrite samples_reported_app, IH. destruct b; reflexivity.
Qed.

Lemma samples_reported_printable (bytes : list byte) :
  ExampleUsage.samples_reported
    (map (fun b => ExampleUsage.Stdout (ExampleUsage.printable b)) bytes)
  = 0%nat.
Proof.
  induction bytes as [|b rest IH]; [reflexivity|].
  change (map ?f (b :: rest)) with ([f b] ++ map f rest)%list.
  rewrite samples_reported_app, IH. destruct b; reflexivity.
Qed.

Lemma samples_reported_sample (rest : string) :
  ExampleUsage.samples_reported [ExampleUsage.Stdout ("Sample #" ++ rest)]
  = 1%nat.
Proof.
  unfold ExampleUsage.samples_reported, ExampleUsage.stdout_texts,
    ExampleUsage.is_sample_line.
  cbn. destruct rest; reflexivity.
Qed.

(** A sample leaves the object and the world alone and reports itself
    once. *)
Lemma print_sample_total (W : Type) (sampleCount : Z)
  (signalData : list byte) (c : Conn) (w : W) (con : ExampleUsage.Console) :
  exists con' : ExampleUsage.Console,
    ExampleUsage.print_sample sampleCount signalData (c, (w, con))
    = (Ret tt, (c, (w, con')))
    /\ ExampleUsage.samples_reported con'
       = S (ExampleUsage.samples_reported con).
Proof.
  unfold ExampleUsage.print_sample.
  erewrite bind_returns; [|reflexivity]. cbn [fst snd].
  erewrite bind_returns; [|apply for_each_cout].
  erewrite bind_returns; [|reflexivity]. cbn [fst snd].
  erewrite bind_returns; [|apply for_each_cout].
  erewrite bind_returns; [|reflexivity]. cbn [fst snd].
  destruct signalData as [|signalType [|signalValue rest]];
    unfold ret, ExampleUsage.cout; cbn [fst snd];
    eexists; (split; [reflexivity|]);
    rewrite !samples_reported_app, samples_reported_hex,
      samples_reported_printable, samples_reported_sample;
    cbn; lia.
Qed.

(** One iteration of the reading loop on a connected object. *)
Lemma read_loop_step (t : Target) (W : Type) (os : OS W) (fuel : nat)
  (sampleCount : Z) (c : Conn) (w : W) (con : ExampleUsage.Console) :
  m_isConnected c = true ->
  exists (signalData : list byte) (c' : Conn) (w' : W)
         (con' : ExampleUsage.Console),
    receiveResponse t os 1000 (c, w) = (Ret signalData, (c', w'))
    /\ same_but_error c c'
    /\ ExampleUsage.samples_reported con'
       = (ExampleUsage.samples_reported con
          + match signalData with [] => 0 | _ :: _ => 1 end)%nat
    /\ ExampleUsage.read_loop t os (S fuel) sampleCount (c, (w, con))
       = let sampleCount' :=
           match signalData with
           | [] => sampleCount
           | _ :: _ => sampleCount + 1
           end in
         if 100 <=? sampleCount'
         then (Ret (Some sampleCount'),
               (c', (w', (con' ++ [ExampleUsage.Stdout
                                     (ExampleUsage.endl
                                      ++ "Read 100 samples. Stopping..."
                                      ++ ExampleUsage.endl)])%list)))
         else ExampleUsage.read_loop t os fuel sampleCount' (c', (w', con')).
Proof.
  intros Hc.
  destruct (receiveResponse_total t W os 1000 c w)
    as (signalData & c' & w' & Hr & Hsame & _).
  cbn [ExampleUsage.read_loop].
  erewrite bind_returns; [|apply call_returns; reflexivity].
  cbn [fst]. rewrite Hc. cbn [negb].
  erewrite bind_returns; [|apply call_returns; exact Hr].
  destruct signalData as [|b rest].
  - exists [], c', w', con. split; [exact Hr|]. split; [exact Hsame|].
    split; [lia|].
    erewrite bind_returns; [|reflexivity].
    erewrite bind_returns; [|reflexivity].
    cbv zeta. destruct (100 <=? sampleCount); reflexivity.
  - destruct (print_sample_total W (sampleCount + 1) (b :: rest) c' w' con)
      as (con' & Hp & Hn).
    exists (b :: rest), c', w', con'. split; [exact Hr|].
    split; [exact Hsame|]. split; [lia|].
    erewrite bind_returns;
      [|erewrite bind_returns; [reflexivity | exact Hp]].
    erewrite bind_returns; [|reflexivity].
    cbv zeta. destruct (100 <=? sampleCount + 1); reflexivity.
Qed.


Lemma destructor_disconnected (t : Target) (W : Type) (os : OS W)
  (c : Conn) (w : W) :
  m_isConnected c = false -> destructor t os (c, w) = (Ret tt, (c, w)).
Proof.
  intros H. unfold destructor. unfold bind at 1. unfold this at 1.
  cbn [fst]. now rewrite H.
Qed.

(** The statements after the loop return 0 and leave the object
    disconnected. *)
Lemma after_loop_total (t : Target) (W : Type) (os : OS W)
  (c : Conn) (w : W) (con : ExampleUsage.Console) :
  exists (c' : Conn) (w' : W) (con' : ExampleUsage.Console),
    ExampleUsage.after_loop t os (c, (w, con)) = (Ret 0, (c', (w', con')))
    /\ m_isConnected c' = false
    /\ ExampleUsage.samples_reported con'
       = ExampleUsage.samples_reported con.
Proof.
  unfold ExampleUsage.after_loop.
  erewrite bind_returns; [|reflexivity]. cbn [fst snd]. cbv zeta.
  destruct (sendCommand_total t W os [x01; x02; x03; x04] c w)
    as (sent & c1 & w1 & Hs & _).
  erewrite bind_returns; [|apply call_returns; exact Hs].
  assert (Hmid : exists (c2 : Conn) (w2 : W) (con2 : ExampleUsage.Console),
    (if sent
     then bind (ExampleUsage.cout ("Command sent successfully"
                                   ++ ExampleUsage.endl))
            (fun _ =>
               bind (ExampleUsage.call (receiveResponse t os 2000))
                 (fun response =>
                    match response with
                    | [] => ret tt
                    | _ :: _ =>
                        bind (ExampleUsage.cout
                                ("Response received ("
                                 ++ StdString.to_string (size response)
                                 ++ " bytes): "))
                          (fun _ =>
                             bind (ExampleUsage.for_each
                                     (fun b => ExampleUsage.cout
                                                 (ExampleUsage.printf_02X b))
                                     response)
                               (fun _ => ExampleUsage.cout ExampleUsage.endl))
                    end))
     else bind (ExampleUsage.call (@getLastError W))
            (fun lastError =>
               ExampleUsage.cerr ("Failed to send command: " ++ lastError
                                  ++ ExampleUsage.endl)))
      (c1, (w1, (con ++ [ExampleUsage.Stdout
                           (ExampleUsage.endl ++ "Sending test command..."
                            ++ ExampleUsage.endl)])%list))
    = (Ret tt, (c2, (w2, con2)))
    /\ ExampleUsage.samples_reported con2
       = ExampleUsage.samples_reported con).
  { destruct sent.
    - erewrite bind_returns; [|reflexivity]. cbn [fst snd].
      destruct (receiveResponse_total t W os 2000 c1 w1)
        as (response & c2 & w2 & Hr & _).
      erewrite bind_returns; [|apply call_returns; exact Hr].
      destruct response as [|b rest].
      + eexists _, _, _. split; [reflexivity|].
        rewrite !samples_reported_app. cbn. lia.
      + erewrite bind_returns; [|reflexivity]. cbn [fst snd].
        erewrite bind_returns; [|apply for_each_cout].
        unfold ExampleUsage.cout. cbn [fst snd].
        eexists _, _, _. split; [reflexivity|].
        rewrite !samples_reported_app, samples_reported_hex. cbn. lia.
    - erewrite bind_returns; [|apply call_returns; reflexivity].
      unfold ExampleUsage.cerr. cbn [fst snd].
      eexists _, _, _. split; [reflexivity|].
      rewrite !samples_reported_app. cbn. lia. }
  destruct Hmid as (c2 & w2 & con2 & Hmid & Hn).
  erewrite bind_returns; [|exact Hmid].
  erewrite bind_returns; [|reflexivity]. cbn [fst snd].
  destruct (disconnect_total t W os c2 w2)
    as (b & c3 & w3 & Hd & _ & Hflag & _).
  erewrite bind_returns; [|apply call_returns; exact Hd].
  erewrite bind_returns; [|reflexivity]. cbn [fst snd].
  erewrite bind_returns;
    [|apply call_returns; exact (destructor_disconnected t W os c3 w3 Hflag)].
  eexists _, _, _. split; [reflexivity|]. split; [exact Hflag|].
  rewrite !samples_reported_app, Hn. cbn. lia.
Qed.

Ltac no_data Hw :=
  cbn [fst snd] in *;
  match goal with
  | E : fst _ = _ |- _ => rewrite E in Hw; cbn [fst snd] in Hw
  end;
  match goal with
  | L : (0 <? _) = true |- _ => apply Z.ltb_lt in L
  end;
  first [lia | destruct Hw; [discriminate | lia]].

Ltac read_result H :=
  match goal with
  | E : fst (sys_read ?os ?h ?n ?w) = _ |- _ =>
      pose proof (H h n w) as Hw; rewrite E in Hw; cbn [fst snd] in Hw
  end.

(** Without data [receiveResponse] returns nothing. *)
Lemma receiveResponse_never_data (t : Target) (W : Type) (os : OS W)
  (timeoutMs : Z) (c : Conn) (w : W) :
  ExampleUsage.never_data t os ->
  exists (c' : Conn) (w' : W),
    receiveResponse t os timeoutMs (c, w) = (Ret [], (c', w')).
Proof.
  intros H. unfold ExampleUsage.never_data in H.
  unfold receiveResponse.
  destruct t; cbn [_WIN32] in *.
  - generalize (H (m_serialHandle c) sizeof_buffer
                  (snd (SetCommTimeouts os (m_serialHandle c)
                          {| ReadIntervalTimeout := timeoutMs;
                             ReadTotalTimeoutMultiplier := 0;
                             ReadTotalTimeoutConstant := timeoutMs;
                             WriteTotalTimeoutMultiplier := 0;
                             WriteTotalTimeoutConstant := timeoutMs |} w))).
    clear H. run_member; intros Hw; try (eexists _, _; reflexivity).
    exfalso. no_data Hw.
  - run_member; try (eexists _, _; reflexivity); exfalso;
      read_result H;
      match goal with
      | L : (0 <? _) = true |- _ => apply Z.ltb_lt in L
      end; lia.
  - run_member; try (eexists _, _; reflexivity); exfalso;
      read_result H;
      match goal with
      | L : (0 <? _) = true |- _ => apply Z.ltb_lt in L
      end; lia.
Qed.

(** With data [receiveResponse] on a connected object returns some. *)
Lemma receiveResponse_always_data (t : Target) (W : Type) (os : OS W)
  (timeoutMs : Z) (c : Conn) (w : W) :
  ExampleUsage.always_data t os ->
  m_isConnected c = true ->
  m_connectionType c = BLUETOOTH ->
  exists (b : byte) (rest : list byte) (c' : Conn) (w' : W),
    receiveResponse t os timeoutMs (c, w) = (Ret (b :: rest), (c', w')).
Proof.
  intros H Hc Hty. unfold ExampleUsage.always_data in H.
  unfold receiveResponse.
  destruct t; cbn [_WIN32] in *.
  - generalize (H (m_serialHandle c) sizeof_buffer
                  (snd (SetCommTimeouts os (m_serialHandle c)
                          {| ReadIntervalTimeout := timeoutMs;
                             ReadTotalTimeoutMultiplier := 0;
                             ReadTotalTimeoutConstant := timeoutMs;
                             WriteTotalTimeoutMultiplier := 0;
                             WriteTotalTimeoutConstant := timeoutMs |} w))).
    clear H. unfold_monad. cbn [fst snd]. rewrite Hc. cbn [negb fst snd].
    rewrite Hty. cbn [fst snd].
    destruct (fst (ReadFile _ _ _ _)) as [[ok bytesRead] buffer].
    cbn [fst snd]. intros (-> & Hn & Hb).
    apply Z.ltb_lt in Hn as Hn'. rewrite Hn'.
    unfold assign_range. destruct buffer as [|b rest]; [congruence|].
    destruct (Z.to_nat bytesRead) as [|k] eqn:Hk; [lia|].
    cbn [firstn]. eexists _, _, _, _. reflexivity.
  - unfold_monad. cbn [fst snd]. rewrite Hc. cbn [negb fst snd].
    rewrite Hty. cbn [fst snd].
    destruct (fst (sys_tcgetattr _ _ _)) as [status tty].
    destruct (status =? 0); cbn [fst snd];
      match goal with
      | |- context [fst (sys_read ?os ?h ?n ?w)] =>
          generalize (H h n w);
          destruct (fst (sys_read os h n w)) as [bytesRead buffer]
      end;
      cbn [fst snd]; intros [Hn Hb];
      apply Z.ltb_lt in Hn as Hn'; rewrite Hn';
      unfold assign_range; (destruct buffer as [|b rest]; [congruence|]);
      (destruct (Z.to_nat bytesRead) as [|k] eqn:Hk; [lia|]);
      cbn [firstn]; eexists _, _, _, _; reflexivity.
  - unfold_monad. cbn [fst snd]. rewrite Hc. cbn [negb fst snd].
    rewrite Hty. cbn [fst snd].
    destruct (fst (sys_tcgetattr _ _ _)) as [status tty].
    destruct (status =? 0); cbn [fst snd];
      match goal with
      | |- context [fst (sys_read ?os ?h ?n ?w)] =>
          generalize (H h n w);
          destruct (fst (sys_read os h n w)) as [bytesRead buffer]
      end;
      cbn [fst snd]; intros [Hn Hb];
      apply Z.ltb_lt in Hn as Hn'; rewrite Hn';
      unfold assign_range; (destruct buffer as [|b rest]; [congruence|]);
      (destruct (Z.to_nat bytesRead) as [|k] eqn:Hk; [lia|]);
      cbn [firstn]; eexists _, _, _, _; reflexivity.
Qed.

Lemma same_but_error_type (c c' : Conn) :
  same_but_error c c' -> m_connectionType c' = m_connectionType c.
Proof. intros [msg ->]. reflexivity. Qed.

(** Without data the reading loop is never left. *)
Lemma read_loop_never_data (t : Target) (W : Type) (os : OS W) :
  ExampleUsage.never_data t os ->
  forall (fuel : nat) (sampleCount : Z) (c : Conn) (w : W)
         (con : ExampleUsage.Console),
    m_isConnected c = true ->
    sampleCount < 100 ->
    exists (c' : Conn) (w' : W) (con' : ExampleUsage.Console),
      ExampleUsage.read_loop t os fuel sampleCount (c, (w, con))
      = (Ret None, (c', (w', con')))
      /\ m_isConnected c' = true
      /\ ExampleUsage.samples_reported con'
         = ExampleUsage.samples_reported con.
Proof.
  intros H. induction fuel as [|fuel IH]; intros sampleCount c w con Hc Hlt.
  - exists c, w, con. repeat split; assumption.
  - destruct (read_loop_step t W os fuel sampleCount c w con Hc)
      as (signalData & c1 & w1 & con1 & Hr & Hsame & Hn & ->).
    destruct (receiveResponse_never_data t W os 1000 c w H)
      as (c2 & w2 & Hr2).
    rewrite Hr2 in Hr. injection Hr as <- _ _. cbv zeta.
    destruct (100 <=? sampleCount) eqn:E; [apply Z.leb_le in E; lia|].
    destruct (same_but_error_flag c c1 Hsame) as [Hflag _].
    destruct (IH sampleCount c1 w1 con1 (eq_trans Hflag Hc) Hlt)
      as (c3 & w3 & con3 & -> & Hc3 & Hn3).
    exists c3, w3, con3. split; [reflexivity|]. split; [exact Hc3|]. lia.
Qed.

(** With data the reading loop is left after the hundredth sample. *)
Lemma read_loop_always_data (t : Target) (W : Type) (os : OS W) :
  ExampleUsage.always_data t os ->
  forall (fuel : nat) (sampleCount : Z) (c : Conn) (w : W)
         (con : ExampleUsage.Console),
    m_isConnected c = true ->
    m_connectionType c = BLUETOOTH ->
    0 <= sampleCount < 100 ->
    exists (c' : Conn) (w' : W) (con' : ExampleUsage.Console),
      ExampleUsage.read_loop t os fuel sampleCount (c, (w, con))
      = (Ret (if Z.of_nat fuel <? 100 - sampleCount then None else Some 100),
         (c', (w', con')))
      /\ Z.of_nat (ExampleUsage.samples_reported con')
         = Z.of_nat (ExampleUsage.samples_reported con)
           + Z.min (Z.of_nat fuel) (100 - sampleCount).
Proof.
  intros H.
  induction fuel as [|fuel IH]; intros sampleCount c w con Hc Hty Hn.
  - exists c, w, con.
    destruct (Z.of_nat 0 <? 100 - sampleCount) eqn:E;
      [|apply Z.ltb_ge in E; lia].
    split; [reflexivity | lia].
  - destruct (read_loop_step t W os fuel sampleCount c w con Hc)
      as (signalData & c1 & w1 & con1 & Hr & Hsame & Hcount & ->).
    destruct (receiveResponse_always_data t W os 1000 c w H Hc Hty)
      as (b & rest & c2 & w2 & Hr2).
    rewrite Hr2 in Hr. injection Hr as <- _ _. cbv zeta.
    destruct (100 <=? sampleCount + 1) eqn:E.
    + apply Z.leb_le in E.
      destruct (Z.of_nat (S fuel) <? 100 - sampleCount) eqn:E2;
        [apply Z.ltb_lt in E2; lia|].
      replace (sampleCount + 1) with 100 by lia.
      eexists _, _, _. split; [reflexivity|].
      rewrite samples_reported_app, Hcount.
      change (ExampleUsage.samples_reported [_]) with 0%nat. lia.
    + apply Z.leb_gt in E.
      destruct (same_but_error_flag c c1 Hsame) as [Hflag _].
      pose proof (same_but_error_type c c1 Hsame) as Hty1.
      destruct (IH (sampleCount + 1) c1 w1 con1 (eq_trans Hflag Hc)
                  (eq_trans Hty1 Hty) ltac:(lia))
        as (c3 & w3 & con3 & -> & Hn3).
      exists c3, w3, con3. split.
      * destruct (Z.of_nat fuel <? 100 - (sampleCount + 1)) eqn:E1;
          destruct (Z.of_nat (S fuel) <? 100 - sampleCount) eqn:E2;
          try reflexivity; exfalso;
          [apply Z.ltb_lt in E1; apply Z.ltb_ge in E2
          |apply Z.ltb_ge in E1; apply Z.ltb_lt in E2]; lia.
      * lia.
Qed.

Lemma samples_reported_usage (argv0 : string) (args : list string) :
  ExampleUsage.samples_reported (ExampleUsage.usage argv0 args) = 0%nat.
Proof. destruct args; reflexivity. Qed.


(** [main] after an accepted [connect]. *)
Lemma with_device_accepted (t : Target) (W : Type) (os : OS W) (fuel : nat)
  (c c' : Conn) (w w' : W) (con : ExampleUsage.Console) :
  connect t os (c, w) = (Ret true, (c', w')) ->
  exists con' : ExampleUsage.Console,
    ExampleUsage.samples_reported con' = ExampleUsage.samples_reported con
    /\ ExampleUsage.with_device t os fuel (c, (w, con))
       = bind (ExampleUsage.read_loop t os fuel 0)
           (fun left =>
              match left with
              | None => ret None
              | Some _ =>
                  bind (ExampleUsage.after_loop t os)
                       (fun status => ret (Some status))
              end)
           (c', (w', con')).
Proof.
  intros Hconnect. unfold ExampleUsage.with_device.
  erewrite bind_returns; [|reflexivity]. cbn [fst snd].
  erewrite bind_returns; [|apply call_returns; exact Hconnect].
  cbn [negb].
  do 3 (erewrite bind_returns; [|reflexivity]; cbn [fst snd]).
  eexists. split; [|reflexivity].
  rewrite !samples_reported_app. cbn. lia.
Qed.


(** X24.  On a system where no read ever reports a byte, the example
    program never leaves its reading loop once [connect] has succeeded:
    whatever the number of iterations, it is still running and has
    reported no sample. *)
Theorem main_never_stops_without_data (t : Target) (W : Type) (os : OS W)
  (argv0 : string) (args : list string) (w : W) :
  ExampleUsage.never_data t os ->
  fst (connect t os
         (constructor (ExampleUsage.chosen_connection_string args), w))
  = Ret true ->
  forall fuel : nat,
    fst (ExampleUsage.main t os fuel argv0 args w) = Ret None
    /\ ExampleUsage.samples_reported
         (snd (snd (snd (ExampleUsage.main t os fuel argv0 args w))))
       = 0%nat.
Proof.
  intros Hnever Haccepted fuel.
  destruct (connect_disconnected t W os
              (constructor (ExampleUsage.chosen_connection_string args)) w
              eq_refl)
    as (accepted & c1 & w1 & Hconnect & Hflag & _).
  rewrite Hconnect in Haccepted. cbn [fst] in Haccepted.
  injection Haccepted as ->.
  unfold ExampleUsage.main.
  destruct (with_device_accepted t W os fuel _ c1 _ w1
              (ExampleUsage.usage argv0 args) Hconnect)
    as (con1 & Hn1 & ->).
  destruct (read_loop_never_data t W os Hnever fuel 0 c1 w1 con1 Hflag
              ltac:(lia))
    as (c2 & w2 & con2 & Hloop & _ & Hn2).
  erewrite bind_returns; [|exact Hloop].
  unfold ret. cbn [fst snd]. split; [reflexivity|].
  now rewrite Hn2, Hn1, samples_reported_usage.
Qed.

Lemma main_never_stops_without_data_witness :
  ExampleUsage.never_data PosixLP64 silent_os
  /\ fst (connect PosixLP64 silent_os
            (constructor (ExampleUsage.chosen_connection_string []),
             Loopback.quiet))
     = Ret true
  /\ fst (ExampleUsage.main PosixLP64 silent_os 7 "example_usage" []
            Loopback.quiet)
     = Ret None.
Proof.
  assert (Hnever : ExampleUsage.never_data PosixLP64 silent_os).
  { intros h count w. cbn. lia. }
  split; [exact Hnever|]. split; [reflexivity|].
  exact (proj1 (main_never_stops_without_data PosixLP64 Loopback.World
                  silent_os "example_usage" [] Loopback.quiet Hnever
                  eq_refl 7%nat)).
Defined.

(** X25.  On a system where every read reports at least one byte, the
    example program leaves its reading loop at the hundredth sample and
    exits with 0 once [connect] has succeeded: fewer than 100 iterations
    leave it running with one sample reported for each, and 100 or more
    end it with exactly 100 samples reported. *)
Theorem main_stops_after_100_samples (t : Target) (W : Type) (os : OS W)
  (argv0 : string) (args : list string) (w : W) :
  ExampleUsage.always_data t os ->
  fst (connect t os
         (constructor (ExampleUsage.chosen_connection_string args), w))
  = Ret true ->
  forall fuel : nat,
    fst (ExampleUsage.main t os fuel argv0 args w)
    = Ret (if (fuel <? 100)%nat then None else Some 0)
    /\ ExampleUsage.samples_reported
         (snd (snd (snd (ExampleUsage.main t os fuel argv0 args w))))
       = Nat.min fuel 100.
Proof.
  intros Halways Haccepted fuel.
  destruct (connect_disconnected t W os
              (constructor (ExampleUsage.chosen_connection_string args)) w
              eq_refl)
    as (accepted & c1 & w1 & Hconnect & Hflag & _ & Htrue & _).
  rewrite Hconnect in Haccepted. cbn [fst] in Haccepted.
  injection Haccepted as ->.
  destruct (Htrue eq_refl) as (Hty & _).
  unfold ExampleUsage.main.
  destruct (with_device_accepted t W os fuel _ c1 _ w1
              (ExampleUsage.usage argv0 args) Hconnect)
    as (con1 & Hn1 & ->).
  destruct (read_loop_always_data t W os Halways fuel 0 c1 w1 con1 Hflag Hty
              ltac:(lia))
    as (c2 & w2 & con2 & Hloop & Hn2).
  erewrite bind_returns; [|exact Hloop].
  rewrite Hn1, samples_reported_usage in Hn2.
  destruct (fuel <? 100)%nat eqn:E.
  - apply Nat.ltb_lt in E.
    destruct (Z.of_nat fuel <? 100 - 0) eqn:E2; [|apply Z.ltb_ge in E2; lia].
    unfold ret. cbn [fst snd]. split; [reflexivity | lia].
  - apply Nat.ltb_ge in E.
    destruct (Z.of_nat fuel <? 100 - 0) eqn:E2; [apply Z.ltb_lt in E2; lia|].
    destruct (after_loop_total t W os c2 w2 con2)
      as (c3 & w3 & con3 & Hafter & _ & Hn3).
    erewrite bind_returns; [|exact Hafter].
    unfold ret. cbn [fst snd]. split; [reflexivity | lia].
Qed.

Lemma main_stops_after_100_samples_witness :
  ExampleUsage.always_data Windows ExampleUsage.chatty_os
  /\ fst (connect Windows ExampleUsage.chatty_os
            (constructor (ExampleUsage.chosen_connection_string ["BT:COM7"]),
             Loopback.quiet))
     = Ret true
  /\ fst (ExampleUsage.main Windows ExampleUsage.chatty_os 120
            "example_usage" ["BT:COM7"] Loopback.quiet)
     = Ret (Some 0).
Proof.
  assert (Halways : ExampleUsage.always_data Windows ExampleUsage.chatty_os).
  { intros h count w. cbn.
    split; [reflexivity | split; [lia | discriminate]]. }
  split; [exact Halways|]. split; [reflexivity|].
  exact (proj1 (main_stops_after_100_samples Windows Loopback.World
                  ExampleUsage.chatty_os "example_usage" ["BT:COM7"]
                  Loopback.quiet Halways eq_refl 120%nat)).
Defined.
